(** * AI-editor: the edit orchestration pipeline

    A shallow embedding of the parts of the repository that sequence,
    validate and aggregate edits:

    - [GitHubClient.parse_repo_url]            (src/github_client.py)
    - [CodeAnalyzer.validate_syntax],
      [CodeAnalyzer.compare_files]             (src/code_analyzer.py)
    - [RepositoryManager.analyze_repository],
      [RepositoryManager.plan_edits],
      [RepositoryManager.execute_edits],
      [RepositoryManager.cleanup]              (src/repository_manager.py)

    Python [str] is [string]; [Optional[T]] is [option T]; a [Dict] used as
    a map is a [gmap]; a [set] is a [gset]; [int] is [Z] or [nat] (lengths).
    Code that can raise returns a [Res]; code that touches the file system,
    the AI service or the logger threads a state explicitly. *)

From Stdlib Require Import ZArith Ascii String DecimalString.
From Stdlib Require QArith.
From stdpp Require Import gmap strings list sorting.

Set Default Proof Using "Type".

(** ** Python results: a value or a raised exception

    The handlers [except Exception as e] of the embedded code only ever
    use [str(e)], so a raised exception is represented by that text. Where
    a handler selects on the class of the exception ([SyntaxError],
    [JSONDecodeError], [ImportError], [YAMLError]), the call that raises
    has an outcome type of its own. *)

Inductive Res (A : Type) : Type :=
| Ok (a : A)
| Raise (e : string).
Arguments Ok {A} a.
Arguments Raise {A} e.

(** ** Python string primitives used by the embedded code *)

Module Py.

(** [c in chars] for a one-character [c]. *)
Fixpoint char_in (c : ascii) (chars : string) : bool :=
  match chars with
  | EmptyString => false
  | String d chars' => if Ascii.eqb c d then true else char_in c chars'
  end.

(** [s.rstrip(chars)]: drops the longest suffix made of characters of
    [chars] (a character set, not a suffix). *)
Fixpoint rstrip (chars s : string) : string :=
  match s with
  | EmptyString => EmptyString
  | String c s' =>
      match rstrip chars s' with
      | EmptyString => if char_in c chars then EmptyString else String c EmptyString
      | r => String c r
      end
  end.

(** [s.lstrip(chars)]. *)
Fixpoint lstrip (chars s : string) : string :=
  match s with
  | EmptyString => EmptyString
  | String c s' => if char_in c chars then lstrip chars s' else s
  end.

(** [s.strip(chars)]. *)
Definition strip (chars s : string) : string := rstrip chars (lstrip chars s).

(** [s.split(sep)] for a one-character separator: never empty, and keeps
    empty fields. *)
Fixpoint split (sep : ascii) (s : string) : list string :=
  match s with
  | EmptyString => [EmptyString]
  | String c s' =>
      if Ascii.eqb c sep then EmptyString :: split sep s'
      else match split sep s' with
           | h :: t => String c h :: t
           | [] => [String c EmptyString]
           end
  end.

(** [s.startswith(p)]. *)
Fixpoint startswith (p s : string) : bool :=
  match p, s with
  | EmptyString, _ => true
  | String _ _, EmptyString => false
  | String a p', String b s' => Ascii.eqb a b && startswith p' s'
  end.

(** [p in s] for strings, which is also [re.search(p', s)] when the
    pattern [p'] only has literal (or escaped literal) characters. *)
Fixpoint contains (p s : string) : bool :=
  startswith p s ||
  match s with
  | EmptyString => false
  | String _ s' => contains p s'
  end.

(** [s.endswith(p)]. *)
Fixpoint endswith (p s : string) : bool :=
  String.eqb p s ||
  match s with
  | EmptyString => false
  | String _ s' => endswith p s'
  end.

(** The last character of a string, if any. *)
Fixpoint last_char (s : string) : option ascii :=
  match s with
  | EmptyString => None
  | String c EmptyString => Some c
  | String _ s' => last_char s'
  end.

(** [str(n)] for a non-negative [int]. *)
Definition str_of_nat (n : nat) : string := NilEmpty.string_of_uint (Nat.to_uint n).

(** [str(z)] for an [int]. *)
Definition str_of_Z (z : Z) : string := NilZero.string_of_int (Z.to_int z).

(** The truth value of a string: empty strings are falsy. *)
Definition truthy (s : string) : bool :=
  match s with EmptyString => false | _ => true end.

(** [s[:n]] and [s[n:]] for [0 <= n]. *)
Fixpoint take (n : nat) (s : string) : string :=
  match n, s with
  | S n', String c s' => String c (take n' s')
  | _, _ => EmptyString
  end.

Fixpoint drop (n : nat) (s : string) : string :=
  match n, s with
  | S n', String _ s' => drop n' s'
  | _, _ => s
  end.

(** A slice bound [k] of any sign, as an offset into [s]: a negative bound
    counts from the end and stops at the start. *)
Definition slice_index (k : Z) (s : string) : nat :=
  if (k <? 0)%Z then Z.to_nat (Z.of_nat (String.length s) + k) else Z.to_nat k.

(** [s[:k]] and [s[k:]] for an [int] [k]. *)
Definition slice_to (k : Z) (s : string) : string := take (slice_index k s) s.

Definition slice_from (k : Z) (s : string) : string := drop (slice_index k s) s.

(** [s.rfind(c)] for a one-character [c]: the last offset of [c], or -1. *)
Fixpoint rfind (c : ascii) (s : string) : Z :=
  match s with
  | EmptyString => (-1)%Z
  | String d s' =>
      let r := rfind c s' in
      if (r <? 0)%Z then (if Ascii.eqb d c then 0%Z else (-1)%Z) else (r + 1)%Z
  end.

(** The characters of [s], each replaced by its image under [f]. *)
Fixpoint map_chars (f : ascii -> ascii) (s : string) : string :=
  match s with
  | EmptyString => EmptyString
  | String c s' => String (f c) (map_chars f s')
  end.

(** The characters of [s] that satisfy [p]. *)
Fixpoint filter_chars (p : ascii -> bool) (s : string) : string :=
  match s with
  | EmptyString => EmptyString
  | String c s' => if p c then String c (filter_chars p s') else filter_chars p s'
  end.

(** Every character of [s] satisfies [p]. *)
Fixpoint all_chars (p : ascii -> bool) (s : string) : bool :=
  match s with
  | EmptyString => true
  | String c s' => p c && all_chars p s'
  end.

(** [c.lower()] for a character below 256: the letters [A] to [Z] and the
    Latin-1 capitals 192 to 222, except the multiplication sign 215, move
    up by 32. *)
Definition lower_char (c : ascii) : ascii :=
  let n := nat_of_ascii c in
  if ((65 <=? n) && (n <=? 90) || (192 <=? n) && (n <=? 222) && negb (n =? 215))%nat
  then ascii_of_nat (n + 32) else c.

(** [s.lower()]. *)
Definition lower (s : string) : string := map_chars lower_char s.

(** [c.isspace()] for a character below 256, which is also what [\s]
    matches in a [str] pattern. *)
Definition is_space (c : ascii) : bool :=
  let n := nat_of_ascii c in
  ((9 <=? n) && (n <=? 13) || (28 <=? n) && (n <=? 32) || (n =? 133) || (n =? 160))%nat.

(** [s.lstrip()], [s.rstrip()] and [s.strip()] without argument. *)
Fixpoint lstrip_ws (s : string) : string :=
  match s with
  | EmptyString => EmptyString
  | String c s' => if is_space c then lstrip_ws s' else s
  end.

Fixpoint rstrip_ws (s : string) : string :=
  match s with
  | EmptyString => EmptyString
  | String c s' =>
      match rstrip_ws s' with
      | EmptyString => if is_space c then EmptyString else String c EmptyString
      | r => String c r
      end
  end.

Definition strip_ws (s : string) : string := rstrip_ws (lstrip_ws s).

(** [s.split()] without argument: the maximal runs of characters that are
    not white space. *)
Fixpoint split_ws (s : string) : list string :=
  match s with
  | EmptyString => []
  | String c s' =>
      if is_space c then split_ws s'
      else match s' with
           | EmptyString => [String c EmptyString]
           | String d _ =>
               if is_space d then String c EmptyString :: split_ws s'
               else match split_ws s' with
                    | w :: ws => String c w :: ws
                    | [] => [String c EmptyString]
                    end
           end
  end.

(** [sep.join(l)]. *)
Definition join (sep : string) (l : list string) : string := String.concat sep l.

(** [d.get(key)] for a dict written as the list of its items. *)
Fixpoint dict_get {V} (d : list (string * V)) (key : string) : option V :=
  match d with
  | [] => None
  | (k, v) :: d' => if String.eqb k key then Some v else dict_get d' key
  end.

(** [d[key] = v]: the value of an existing key is replaced where it is, a
    new key goes to the end. *)
Fixpoint dict_set {V} (d : list (string * V)) (key : string) (v : V)
  : list (string * V) :=
  match d with
  | [] => [(key, v)]
  | (k, v') :: d' =>
      if String.eqb k key then (k, v) :: d' else (k, v') :: dict_set d' key v
  end.

End Py.

(** ** src/github_client.py *)

Module GitHubClient.

(** *** A reference model of [urllib.parse.urlparse(url).path]

    The standard library's parser is not part of the repository; the
    function below follows [urlsplit]/[urlparse] for URLs without leading
    control characters or embedded tabs and newlines, and without square
    brackets in the network location (where [urlsplit] can raise): an
    optional scheme up to the first [:], a network location after [//] up
    to the first of [/], [?], [#], the path up to the first [?] or [#],
    and, for the schemes of [uses_params], the [;params] of the last path
    segment removed. It is only used to evaluate [parse_repo_url] on
    concrete URLs. *)

Definition is_scheme_start (c : ascii) : bool :=
  let n := nat_of_ascii c in
  ((65 <=? n) && (n <=? 90) || (97 <=? n) && (n <=? 122))%nat.

Definition is_scheme_char (c : ascii) : bool :=
  let n := nat_of_ascii c in
  (is_scheme_start c || (48 <=? n) && (n <=? 57) || Py.char_in c "+-.")%nat.

Fixpoint after_scheme (s : string) : option string :=
  match s with
  | EmptyString => None
  | String c s' =>
      if Ascii.eqb c ":" then Some s'
      else if is_scheme_char c then after_scheme s' else None
  end.

Definition drop_scheme (s : string) : string :=
  match s with
  | EmptyString => EmptyString
  | String c _ =>
      if is_scheme_start c
      then match after_scheme s with Some r => r | None => s end
      else s
  end.

(** The prefix of [s] before the first character of [stop]. *)
Fixpoint before_any (stop s : string) : string :=
  match s with
  | EmptyString => EmptyString
  | String c s' => if Py.char_in c stop then EmptyString else String c (before_any stop s')
  end.

(** The suffix of [s] from the first character of [stop] on. *)
Fixpoint from_any (stop s : string) : string :=
  match s with
  | EmptyString => EmptyString
  | String c s' => if Py.char_in c stop then s else from_any stop s'
  end.

Definition drop_netloc (s : string) : string :=
  match s with
  | String "/" (String "/" s') => from_any "/?#" s'
  | _ => s
  end.

Fixpoint cut_params (s : string) : string :=
  match s with
  | EmptyString => EmptyString
  | String c s' =>
      if Py.char_in "/" s' then String c (cut_params s')
      else if Ascii.eqb c "/" then String c (before_any ";" s')
      else before_any ";" s
  end.

(** The scheme, in lower case, or the empty text. *)
Definition scheme_of (s : string) : string :=
  match s with
  | EmptyString => EmptyString
  | String c _ =>
      if is_scheme_start c
      then match after_scheme s with
           | Some _ => Py.lower (before_any ":" s)
           | None => EmptyString
           end
      else EmptyString
  end.

(** [urllib.parse.uses_params]. *)
Definition uses_params : list string :=
  [""; "ftp"; "hdl"; "prospero"; "http"; "imap"; "https"; "shttp"; "rtsp"; "rtspu";
   "sip"; "sips"; "mms"; "sftp"; "tel"].

Definition urlparse_path_model (url : string) : string :=
  let path := before_any "?#" (drop_netloc (drop_scheme url)) in
  if existsb (String.eqb (scheme_of url)) uses_params then cut_params path else path.

Section ParseRepoUrl.

(** [urlparse(url).path] of the standard library. *)
Variable urlparse_path : string -> string.

(** [GitHubClient.parse_repo_url]: owner and repository name of a URL, or
    [ValueError]. *)
Definition parse_repo_url (url : string) : Res (string * string) :=
  (* Remove .git suffix and trailing slash *)
  let url := Py.rstrip ".git" (Py.rstrip "/" url) in
  let path := urlparse_path url in
  let path_parts := Py.split "/" (Py.strip "/" path) in
  if (length path_parts <? 2)%nat then Raise ("Invalid GitHub URL: " +:+ url)
  else
    match path_parts !! 0%nat, path_parts !! 1%nat with
    | Some owner, Some repo_name => Ok (owner, repo_name)
    | _, _ => Raise "list index out of range"
    end.

End ParseRepoUrl.

(** The URL [https://github.com/{owner}/{name}]. *)
Definition github_url (owner name : string) : string :=
  "https://github.com/" +:+ owner +:+ "/" +:+ name.

(** *** Facts about the string primitives *)

Lemma append_cons c s t : String c s +:+ t = String c (s +:+ t).
Proof. reflexivity. Qed.

Lemma append_nil t : EmptyString +:+ t = t.
Proof. reflexivity. Qed.

Lemma char_in_cons_false c d s :
  Py.char_in c (String d s) = false -> Ascii.eqb c d = false /\ Py.char_in c s = false.
Proof. simpl. destruct (Ascii.eqb c d); [discriminate | auto]. Qed.

Lemma char_in_app c s t :
  Py.char_in c (s +:+ t) = Py.char_in c s || Py.char_in c t.
Proof.
  induction s as [|d s IH]; [reflexivity|].
  rewrite append_cons. simpl.
  destruct (Ascii.eqb c d); [reflexivity | exact IH].
Qed.

Lemma rstrip_app chars s t :
  Py.rstrip chars t <> EmptyString ->
  Py.rstrip chars (s +:+ t) = s +:+ Py.rstrip chars t.
Proof.
  intros Ht. induction s as [|c s IH]; [reflexivity|].
  rewrite !append_cons. simpl. rewrite IH.
  destruct (s +:+ Py.rstrip chars t) eqn:E; [|reflexivity].
  destruct s; [contradiction | discriminate].
Qed.

Lemma rstrip_last chars s c :
  Py.last_char (Py.rstrip chars s) = Some c -> Py.char_in c chars = false.
Proof.
  induction s as [|d s IH]; simpl; [discriminate|].
  destruct (Py.rstrip chars s) as [|e r] eqn:E.
  - destruct (Py.char_in d chars) eqn:Hd; simpl; [discriminate|].
    intros [= <-]. exact Hd.
  - intros H. apply IH. destruct r; exact H.
Qed.

Lemma rstrip_id chars s :
  (forall c, Py.last_char s = Some c -> Py.char_in c chars = false) ->
  Py.rstrip chars s = s.
Proof.
  induction s as [|d s IH]; simpl; [reflexivity|]. intros H.
  destruct s as [|e s'].
  - simpl. rewrite (H d eq_refl). reflexivity.
  - rewrite IH by exact H. reflexivity.
Qed.

Lemma rstrip_unchanged_iff chars s :
  Py.rstrip chars s = s <->
  (forall c, Py.last_char s = Some c -> Py.char_in c chars = false).
Proof.
  split; [|apply rstrip_id].
  intros E c Hc. apply (rstrip_last chars s). rewrite E. exact Hc.
Qed.

Lemma rstrip_char_in d chars s :
  Py.char_in d s = false -> Py.char_in d (Py.rstrip chars s) = false.
Proof.
  induction s as [|c s IH]; simpl; [reflexivity|].
  destruct (Ascii.eqb d c) eqn:Hdc; [discriminate|]. intros H.
  specialize (IH H). destruct (Py.rstrip chars s) as [|e r].
  - destruct (Py.char_in c chars); simpl; [reflexivity|]. rewrite Hdc. reflexivity.
  - simpl. rewrite Hdc. exact IH.
Qed.

(** Every character of [s] belongs to [chars]. *)
Fixpoint all_in (chars s : string) : bool :=
  match s with
  | EmptyString => true
  | String c s' => Py.char_in c chars && all_in chars s'
  end.

Lemma rstrip_empty_all_in chars s :
  Py.rstrip chars s = EmptyString <-> all_in chars s = true.
Proof.
  induction s as [|c s IH]; simpl; [tauto|].
  destruct (Py.rstrip chars s) as [|e r].
  - destruct (Py.char_in c chars); simpl; [tauto|]. split; discriminate.
  - split; [discriminate|]. intros [_ H]%andb_true_iff.
    apply IH in H. discriminate.
Qed.

Lemma rstrip_suffix chars s :
  exists suffix, s = Py.rstrip chars s +:+ suffix /\ all_in chars suffix = true.
Proof.
  induction s as [|c s (suf & E & Hs)]; simpl; [by exists EmptyString|].
  destruct (Py.rstrip chars s) as [|e r] eqn:Er.
  - destruct (Py.char_in c chars) eqn:Hc.
    + exists (String c s). split; [reflexivity|]. simpl. rewrite Hc. simpl.
      by apply rstrip_empty_all_in.
    + exists suf. rewrite append_cons, <- E. done.
  - exists suf. rewrite append_cons, <- E. done.
Qed.

Lemma last_char_not_sep d s c :
  Py.char_in d s = false -> Py.last_char s = Some c -> Py.char_in c (String d EmptyString) = false.
Proof.
  induction s as [|e s IH]; simpl; [discriminate|].
  destruct (Ascii.eqb d e) eqn:Hde; [discriminate|]. intros H.
  destruct s as [|e' s'].
  - intros [= <-]. rewrite Ascii.eqb_sym, Hde. reflexivity.
  - apply IH, H.
Qed.

Lemma split_no_sep sep s :
  Py.char_in sep s = false -> Py.split sep s = [s].
Proof.
  induction s as [|c s IH]; simpl; [reflexivity|].
  rewrite (Ascii.eqb_sym c sep). destruct (Ascii.eqb sep c); [discriminate|].
  intros H. rewrite (IH H). reflexivity.
Qed.

Lemma split_app_sep sep s t :
  Py.char_in sep s = false ->
  Py.split sep (s +:+ String sep t) = s :: Py.split sep t.
Proof.
  induction s as [|c s IH]; [rewrite append_nil|rewrite append_cons]; simpl.
  - intros _. rewrite Ascii.eqb_refl. reflexivity.
  - rewrite (Ascii.eqb_sym c sep). destruct (Ascii.eqb sep c); [discriminate|].
    intros H. rewrite (IH H). reflexivity.
Qed.

Lemma append_assoc (s t u : string) : (s +:+ t) +:+ u = s +:+ t +:+ u.
Proof. induction s as [|c s IH]; [reflexivity|]. rewrite !append_cons, IH. reflexivity. Qed.

Lemma rstrip_sep_free d s :
  Py.char_in d s = false -> Py.rstrip (String d EmptyString) s = s.
Proof. intros H. apply rstrip_id. intros c. by apply last_char_not_sep. Qed.

Lemma lstrip_sep_free d s t :
  s <> EmptyString -> Py.char_in d s = false ->
  Py.lstrip (String d EmptyString) (s +:+ t) = s +:+ t.
Proof.
  destruct s as [|c s]; [done|]. intros _ [H _]%char_in_cons_false.
  rewrite append_cons. simpl. rewrite Ascii.eqb_sym, H. reflexivity.
Qed.

Lemma rstrip_app_empty chars s t :
  Py.rstrip chars t = EmptyString ->
  Py.rstrip chars (s +:+ t) = Py.rstrip chars s.
Proof.
  intros Ht. induction s as [|c s IH]; [by rewrite append_nil|].
  rewrite append_cons. simpl. by rewrite IH.
Qed.

Lemma all_in_sep_free name :
  all_in ".git" name = true -> Py.char_in "/" name = false.
Proof.
  induction name as [|c s IH]; [done|].
  change (all_in ".git" (String c s)) with (Py.char_in c ".git" && all_in ".git" s).
  intros [Hc Hs]%andb_true_iff. cbn [Py.char_in].
  destruct (Ascii.eqb "/" c) eqn:E; [|by apply IH].
  apply Ascii.eqb_eq in E. subst c. vm_compute in Hc. discriminate.
Qed.

Section ParseRepoUrlFacts.

Variable urlparse_path : string -> string.

(** What [parse_repo_url] computes once the two [rstrip]s are done and
    the standard parser has returned the path [/owner/repo]. *)
Lemma path_parts_owner_repo (owner repo : string) :
  owner <> EmptyString -> repo <> EmptyString ->
  Py.char_in "/" owner = false -> Py.char_in "/" repo = false ->
  Py.split "/" (Py.strip "/" ("/" +:+ owner +:+ "/" +:+ repo)) = [owner; repo].
Proof.
  intros Ho Hr Hso Hsr. unfold Py.strip.
  rewrite append_cons, append_nil. simpl Py.lstrip.
  rewrite lstrip_sep_free by done.
  rewrite <- append_assoc, rstrip_app, append_assoc by (by rewrite rstrip_sep_free).
  rewrite rstrip_sep_free by done.
  rewrite append_cons, append_nil, split_app_sep by done.
  by rewrite split_no_sep.
Qed.

Lemma url_rstrips (owner name : string) :
  Py.char_in "/" name = false ->
  Py.rstrip ".git" name <> EmptyString ->
  Py.rstrip ".git" (Py.rstrip "/" (github_url owner name))
  = github_url owner (Py.rstrip ".git" name).
Proof.
  intros Hs Hne. unfold github_url.
  assert (name <> EmptyString) as Hname by (intros ->; by apply Hne).
  rewrite <- !append_assoc.
  rewrite (rstrip_app "/") by (by rewrite rstrip_sep_free).
  rewrite rstrip_sep_free by done.
  by rewrite rstrip_app.
Qed.

(** The character-set semantics of [str.rstrip] on the repository name.
    For a URL [https://github.com/{owner}/{name}] whose
    owner is non-empty, whose owner and name have no slash, and whose name
    has a character outside the set {'.', 'g', 'i', 't'}, and given that
    the standard parser returns the path of the stripped URL,
    [parse_repo_url] returns the owner together with the name stripped of
    its trailing run of characters of that set (character-set semantics of
    [str.rstrip], not suffix removal); the name is returned unchanged
    exactly when it does not end in one of those characters. *)
Theorem parse_repo_url_rstrip_charset (owner name : string) :
  owner <> EmptyString ->
  Py.char_in "/" owner = false ->
  Py.char_in "/" name = false ->
  Py.rstrip ".git" name <> EmptyString ->
  urlparse_path (github_url owner (Py.rstrip ".git" name))
  = "/" +:+ owner +:+ "/" +:+ Py.rstrip ".git" name ->
  parse_repo_url urlparse_path (github_url owner name)
  = Ok (owner, Py.rstrip ".git" name)
  /\ (exists suffix,
        name = Py.rstrip ".git" name +:+ suffix /\ all_in ".git" suffix = true)
  /\ (forall c, Py.last_char (Py.rstrip ".git" name) = Some c ->
                Py.char_in c ".git" = false)
  /\ (parse_repo_url urlparse_path (github_url owner name) = Ok (owner, name)
      <-> forall c, Py.last_char name = Some c -> Py.char_in c ".git" = false).
Proof.
  intros Ho Hso Hsn Hne Hparse.
  assert (parse_repo_url urlparse_path (github_url owner name)
          = Ok (owner, Py.rstrip ".git" name)) as Hret.
  { unfold parse_repo_url. rewrite url_rstrips, Hparse by done.
    rewrite path_parts_owner_repo; [reflexivity | done.. | ].
    by apply rstrip_char_in. }
  split; [exact Hret|]. split; [apply rstrip_suffix|].
  split; [apply rstrip_last|].
  rewrite Hret, <- rstrip_unchanged_iff. split; [by intros [= ->] | by intros ->].
Qed.

(** When every character of a non-empty name is in the set, the whole
    name is stripped, only the owner is left in the path, and the call
    raises [ValueError]. *)
Lemma parse_repo_url_all_stripped (owner name : string) :
  owner <> EmptyString ->
  Py.char_in "/" owner = false ->
  name <> EmptyString ->
  all_in ".git" name = true ->
  urlparse_path ("https://github.com/" +:+ owner +:+ "/") = "/" +:+ owner +:+ "/" ->
  parse_repo_url urlparse_path (github_url owner name)
  = Raise ("Invalid GitHub URL: https://github.com/" +:+ owner +:+ "/").
Proof.
  intros Ho Hso Hn Hall Hparse. unfold parse_repo_url.
  assert (Py.rstrip ".git" (Py.rstrip "/" (github_url owner name))
          = "https://github.com/" +:+ owner +:+ "/") as ->.
  { pose proof (all_in_sep_free _ Hall) as Hsn.
    unfold github_url. rewrite <- !append_assoc.
    rewrite (rstrip_app "/") by (by rewrite rstrip_sep_free).
    rewrite rstrip_sep_free by done.
    rewrite rstrip_app_empty by (by apply rstrip_empty_all_in).
    rewrite rstrip_app by (by vm_compute). reflexivity. }
  rewrite Hparse. unfold Py.strip.
  rewrite append_cons, append_nil. simpl Py.lstrip.
  rewrite lstrip_sep_free by done.
  assert (Py.rstrip "/" (owner +:+ "/") = owner) as ->.
  { rewrite rstrip_app_empty by reflexivity. by apply rstrip_sep_free. }
  by rewrite split_no_sep.
Qed.

(** Trailing slashes do not matter: the URL is stripped of them before
    anything else. *)
Theorem parse_repo_url_trailing_slashes (url slashes : string) :
  all_in "/" slashes = true ->
  parse_repo_url urlparse_path (url +:+ slashes) = parse_repo_url urlparse_path url.
Proof.
  intros Hall. unfold parse_repo_url.
  by rewrite (rstrip_app_empty "/" url slashes) by (by apply rstrip_empty_all_in).
Qed.

(** The SSH form [git@github.com:{owner}/{repo}.git] has no URL scheme, so
    its path is the whole text. For an owner and a name without slash, and
    given that the standard parser returns the stripped text as its path:
    when a character of the name is outside the set {'.', 'g', 'i', 't'},
    the owner that is returned is [git@github.com:{owner}], not [{owner}],
    with the name stripped of its trailing run of characters of the set;
    when the whole name is in the set (as for [git@github.com:git/git.git])
    nothing is left of it and the call raises [ValueError]. *)
Theorem parse_repo_url_ssh_owner (owner repo : string) :
  Py.char_in "/" owner = false ->
  Py.char_in "/" repo = false ->
  urlparse_path ("git@github.com:" +:+ owner +:+ "/" +:+ Py.rstrip ".git" repo)
  = "git@github.com:" +:+ owner +:+ "/" +:+ Py.rstrip ".git" repo ->
  parse_repo_url urlparse_path ("git@github.com:" +:+ owner +:+ "/" +:+ repo +:+ ".git")
  = match Py.rstrip ".git" repo with
    | EmptyString => Raise ("Invalid GitHub URL: git@github.com:" +:+ owner +:+ "/")
    | String c name => Ok ("git@github.com:" +:+ owner, String c name)
    end.
Proof.
  intros Hso Hsr Hparse. unfold parse_repo_url.
  assert (Py.char_in "/" (Py.rstrip ".git" repo) = false) as Hsr'
    by (by apply rstrip_char_in).
  assert (Py.char_in "/" ("git@github.com:" +:+ owner) = false) as Hprefix
    by (by rewrite char_in_app, Hso).
  assert (Py.rstrip ".git" (Py.rstrip "/"
            ("git@github.com:" +:+ owner +:+ "/" +:+ repo +:+ ".git"))
          = "git@github.com:" +:+ owner +:+ "/" +:+ Py.rstrip ".git" repo) as ->.
  { rewrite <- !append_assoc.
    rewrite (rstrip_app "/") by (by vm_compute). simpl (Py.rstrip "/" ".git").
    rewrite (rstrip_app_empty ".git") by reflexivity.
    destruct (Py.rstrip ".git" repo) as [|c name] eqn:Hname.
    - rewrite (rstrip_app_empty ".git") by done.
      rewrite rstrip_app by (by vm_compute). rewrite !append_assoc. reflexivity.
    - rewrite rstrip_app; by rewrite Hname. }
  rewrite Hparse. unfold Py.strip.
  rewrite <- (append_assoc "git@github.com:" owner).
  rewrite lstrip_sep_free by (done || by destruct owner).
  destruct (Py.rstrip ".git" repo) as [|c name] eqn:Hname.
  - change ("/" +:+ "") with "/". rewrite (rstrip_app_empty "/") by reflexivity.
    rewrite rstrip_sep_free by done.
    rewrite split_no_sep by done. reflexivity.
  - rewrite <- append_assoc, rstrip_app, append_assoc by (by rewrite rstrip_sep_free).
    rewrite rstrip_sep_free by done.
    change ("/" +:+ String c name) with (String "/" (String c name)).
    rewrite split_app_sep by done.
    by rewrite split_no_sep.
Qed.

End ParseRepoUrlFacts.

(** C9. On [https://github.com/git/git], the repository [git] of the
    owner [git], the call does not return the owner together with the
    stripped name: [rstrip('.git')], written to remove the [.git] suffix,
    strips the whole name as a run of characters of the set
    {'.', 'g', 'i', 't'}, one path segment is left, and the call raises
    [ValueError]; the owner is non-empty and neither the owner nor the
    name has a slash. *)
Lemma parse_repo_url_git_git_raises :
  github_url "git" "git" = "https://github.com/git/git"
  /\ parse_repo_url urlparse_path_model (github_url "git" "git")
     = Raise "Invalid GitHub URL: https://github.com/git/"
  /\ Py.rstrip ".git" (Py.rstrip "/" (github_url "git" "git"))
     = "https://github.com/git/"
  /\ Py.rstrip ".git" "git" = EmptyString
  /\ Py.char_in "/" "git" = false.
Proof. vm_compute. auto 10. Qed.

Lemma parse_repo_url_rstrip_charset_witness :
  parse_repo_url urlparse_path_model (github_url "tokio-rs" "mio.git")
  = Ok ("tokio-rs", "mio").
Proof.
  apply (parse_repo_url_rstrip_charset urlparse_path_model "tokio-rs" "mio.git");
    vm_compute; congruence.
Defined.

Lemma parse_repo_url_trailing_slashes_witness :
  parse_repo_url urlparse_path_model "https://github.com/pallets/flask///"
  = parse_repo_url urlparse_path_model "https://github.com/pallets/flask"
  /\ parse_repo_url urlparse_path_model "https://github.com/pallets/flask"
     = Ok ("pallets", "flask").
Proof.
  split; [|reflexivity].
  apply (parse_repo_url_trailing_slashes urlparse_path_model
           "https://github.com/pallets/flask" "///").
  reflexivity.
Defined.

Lemma parse_repo_url_ssh_owner_witness :
  parse_repo_url urlparse_path_model "git@github.com:owner/repo.git"
  = Ok ("git@github.com:owner", "repo")
  /\ parse_repo_url urlparse_path_model "git@github.com:git/git.git"
     = Raise "Invalid GitHub URL: git@github.com:git/".
Proof.
  split.
  - apply (parse_repo_url_ssh_owner urlparse_path_model "owner" "repo");
      vm_compute; reflexivity.
  - apply (parse_repo_url_ssh_owner urlparse_path_model "git" "git");
      vm_compute; reflexivity.
Defined.

Lemma parse_repo_url_all_stripped_witness :
  parse_repo_url urlparse_path_model (github_url "libgit2" "git.git")
  = Raise "Invalid GitHub URL: https://github.com/libgit2/".
Proof.
  apply (parse_repo_url_all_stripped urlparse_path_model "libgit2" "git.git");
    vm_compute; congruence.
Defined.

End GitHubClient.

(** ** Facts on Python's strings *)

Module PyFacts.

Import GitHubClient.

Lemma length_append (a b : string) :
  String.length (a +:+ b) = String.length a + String.length b.
Proof.
  induction a as [|c a IH]; [reflexivity|].
  rewrite append_cons. cbn [String.length]. by rewrite IH.
Qed.

Lemma length_take n s : String.length (Py.take n s) = Nat.min n (String.length s).
Proof.
  revert s. induction n as [|n IH]; intros [|c s]; cbn; try reflexivity. by rewrite IH.
Qed.

Lemma length_drop n s : String.length (Py.drop n s) = String.length s - n.
Proof.
  revert s. induction n as [|n IH]; intros [|c s]; cbn; try reflexivity. by rewrite IH.
Qed.

Lemma take_all n s : String.length s <= n -> Py.take n s = s.
Proof.
  revert s. induction n as [|n IH]; intros [|c s]; cbn; try reflexivity; try lia.
  intros H. rewrite IH; [reflexivity|lia].
Qed.

Lemma drop_append a b : Py.drop (String.length a) (a +:+ b) = b.
Proof. induction a as [|c a IH]; [by destruct b|exact IH]. Qed.

Lemma length_slice_to k s :
  Z.of_nat (String.length (Py.slice_to k s))
  = (if (k <? 0)%Z then Z.max 0 (Z.of_nat (String.length s) + k)
     else Z.min k (Z.of_nat (String.length s)))%Z.
Proof.
  unfold Py.slice_to, Py.slice_index. rewrite length_take.
  destruct (k <? 0)%Z eqn:E; [apply Z.ltb_lt in E|apply Z.ltb_ge in E]; lia.
Qed.

Lemma all_chars_append p a b :
  Py.all_chars p (a +:+ b) = Py.all_chars p a && Py.all_chars p b.
Proof.
  induction a as [|c a IH]; [reflexivity|].
  rewrite append_cons. cbn [Py.all_chars]. by rewrite IH, andb_assoc.
Qed.

Lemma all_chars_take p n s :
  Py.all_chars p s = true -> Py.all_chars p (Py.take n s) = true.
Proof.
  revert s. induction n as [|n IH]; intros [|c s]; cbn; try done.
  intros [Hc Hs]%andb_prop. rewrite Hc. cbn. by apply IH.
Qed.

Lemma all_chars_drop p n s :
  Py.all_chars p s = true -> Py.all_chars p (Py.drop n s) = true.
Proof.
  revert s. induction n as [|n IH]; intros [|c s]; cbn; try done.
  intros [Hc Hs]%andb_prop. by apply IH.
Qed.

Lemma all_chars_impl (p q : ascii -> bool) s :
  (forall c, p c = true -> q c = true) ->
  Py.all_chars p s = true -> Py.all_chars q s = true.
Proof.
  intros Hpq. induction s as [|c s IH]; [done|]. cbn.
  intros [Hc Hs]%andb_prop. by rewrite (Hpq c Hc), (IH Hs).
Qed.

Lemma rfind_absent c s : Py.char_in c s = false -> Py.rfind c s = (-1)%Z.
Proof.
  induction s as [|d s IH]; [reflexivity|]. cbn [Py.char_in Py.rfind].
  destruct (Ascii.eqb c d) eqn:E; [discriminate|]. intros H. rewrite (IH H). cbn.
  by rewrite Ascii.eqb_sym, E.
Qed.

Lemma rfind_last c a b :
  Py.char_in c b = false ->
  Py.rfind c (a +:+ String c b) = Z.of_nat (String.length a).
Proof.
  intros Hb. induction a as [|d a IH].
  - rewrite append_nil. cbn [Py.rfind].
    rewrite (rfind_absent _ _ Hb). cbn. by rewrite Ascii.eqb_refl.
  - rewrite append_cons. cbn [Py.rfind String.length]. rewrite IH.
    assert ((Z.of_nat (String.length a) <? 0)%Z = false) as -> by (apply Z.ltb_ge; lia).
    lia.
Qed.

Lemma split_nonempty sep s : Py.split sep s <> [].
Proof.
  induction s as [|c s IH]; cbn [Py.split]; [done|].
  destruct (Ascii.eqb c sep); [done|]. by destruct (Py.split sep s).
Qed.

Lemma split_app sep a b :
  Py.split sep (a +:+ String sep b) = (Py.split sep a ++ Py.split sep b)%list.
Proof.
  induction a as [|c a IH].
  - rewrite append_nil. cbn [Py.split]. by rewrite Ascii.eqb_refl.
  - rewrite append_cons. cbn [Py.split]. rewrite IH.
    destruct (Ascii.eqb c sep); [reflexivity|].
    pose proof (split_nonempty sep a). by destruct (Py.split sep a).
Qed.

Lemma lower_append a b : Py.lower (a +:+ b) = Py.lower a +:+ Py.lower b.
Proof.
  induction a as [|c a IH]; [reflexivity|].
  rewrite append_cons. cbn. fold (Py.lower (a +:+ b)). by rewrite IH.
Qed.

Lemma startswith_nil_r p : p <> "" -> Py.startswith p "" = false.
Proof. by destruct p. Qed.

Lemma startswith_app_sep p c a b :
  Py.char_in c p = false ->
  Py.startswith p (a +:+ String c b) = Py.startswith p a.
Proof.
  revert a. induction p as [|x p IH]; intros a Hc; [by destruct a|].
  cbn [Py.char_in] in Hc. destruct (Ascii.eqb c x) eqn:E; [done|].
  destruct a as [|y a].
  - rewrite append_nil. cbn [Py.startswith]. by rewrite Ascii.eqb_sym, E.
  - rewrite append_cons. cbn [Py.startswith]. by rewrite (IH a Hc).
Qed.

Lemma contains_nil_r p : p <> "" -> Py.contains p "" = false.
Proof. by destruct p. Qed.

(** A text without the character [c] occurs in [a c b] exactly when it
    occurs in [a] or in [b]. *)
Lemma contains_app_sep p c a b :
  p <> "" -> Py.char_in c p = false ->
  Py.contains p (a +:+ String c b) = Py.contains p a || Py.contains p b.
Proof.
  intros Hp Hc. induction a as [|y a IH].
  - rewrite append_nil, (contains_nil_r p Hp). cbn [Py.contains orb].
    pose proof (startswith_app_sep p c "" b Hc) as Hs. rewrite append_nil in Hs.
    by rewrite Hs, (startswith_nil_r p Hp).
  - rewrite append_cons. cbn [Py.contains]. rewrite IH.
    rewrite <- append_cons, (startswith_app_sep p c _ b Hc). by rewrite orb_assoc.
Qed.

(** A text that occurs in [a] occurs in [a b]. *)
Lemma startswith_app_l p a b :
  Py.startswith p a = true -> Py.startswith p (a +:+ b) = true.
Proof.
  revert a. induction p as [|x p IH]; intros a; [by destruct a, b|].
  destruct a as [|y a]; [done|]. rewrite append_cons. cbn [Py.startswith].
  intros [-> H]%andb_prop. by rewrite (IH a H).
Qed.

Lemma contains_app_l p a b :
  Py.contains p a = true -> Py.contains p (a +:+ b) = true.
Proof.
  induction a as [|y a IH].
  - destruct p; [by destruct b|done].
  - rewrite append_cons. cbn [Py.contains].
    intros [H|H]%orb_prop.
    + rewrite <- append_cons, (startswith_app_l _ _ _ H). reflexivity.
    + rewrite (IH H). apply orb_true_r.
Qed.

End PyFacts.

(** ** src/code_analyzer.py *)

Module CodeAnalyzer.

(** What [ast.parse(content)] does: it builds a tree, raises [SyntaxError]
    (with its [lineno], [offset] and [msg] attributes) or raises another
    exception (for instance [ValueError] on a null byte). *)
Inductive AstParse : Type :=
| AstTree
| AstSyntaxError (lineno offset : option Z) (msg : string)
| AstError (e : string).

(** What [json.loads(content)] does: a value, [json.JSONDecodeError] or
    another exception. *)
Inductive JsonLoads : Type :=
| JsonValue
| JsonDecodeError (lineno colno : Z) (msg : string)
| JsonError (e : string).

(** What [import yaml; yaml.safe_load(content)] does: [ImportError] when
    PyYAML is not installed, a document, [yaml.YAMLError] (as [str(e)]) or
    another exception. *)
Inductive YamlLoad : Type :=
| YamlImportError
| YamlDocument
| YamlError (e : string)
| YamlOtherError (e : string).

(** [f"{x}"] for an attribute that is an [int] or [None]. *)
Definition fmt_opt_int (x : option Z) : string :=
  match x with
  | Some z => Py.str_of_Z z
  | None => "None"
  end.

Section Validation.

Variable ast_parse : string -> AstParse.
Variable json_loads : string -> JsonLoads.
Variable yaml_safe_load : string -> YamlLoad.

(** [CodeAnalyzer.validate_python_syntax]. *)
Definition validate_python_syntax (content : string) : bool * option string :=
  match ast_parse content with
  | AstTree => (true, None)
  | AstSyntaxError lineno _ msg =>
      (false, Some ("Syntax error at line " +:+ fmt_opt_int lineno +:+ ": " +:+ msg))
  | AstError e => (false, Some e)
  end.

(** [CodeAnalyzer.validate_json_syntax]: only [JSONDecodeError] is caught. *)
Definition validate_json_syntax (content : string) : Res (bool * option string) :=
  match json_loads content with
  | JsonValue => Ok (true, None)
  | JsonDecodeError lineno _ msg =>
      Ok (false, Some ("JSON error at line " +:+ Py.str_of_Z lineno +:+ ": " +:+ msg))
  | JsonError e => Raise e
  end.

(** [CodeAnalyzer.validate_yaml_syntax]. *)
Definition validate_yaml_syntax (content : string) : Res (bool * option string) :=
  match yaml_safe_load content with
  | YamlDocument => Ok (true, None)
  | YamlImportError => Ok (true, None)   (* pyyaml is not installed: skip validation *)
  | YamlError e => Ok (false, Some e)
  | YamlOtherError e => Raise e
  end.

(** [CodeAnalyzer.validate_syntax]. *)
Definition validate_syntax (content language : string) : Res (bool * option string) :=
  if String.eqb language "python" then Ok (validate_python_syntax content)
  else if String.eqb language "json" then validate_json_syntax content
  else if String.eqb language "yaml" then validate_yaml_syntax content
  else Ok (true, None).   (* For other languages, we can't validate easily *)

End Validation.

(** The two inputs of the test suite and of the specification. *)
Definition nl : string := String "010" EmptyString.
Definition valid_python : string := "def test():" +:+ nl +:+ " pass" +:+ nl.
Definition invalid_python : string := "def test()" +:+ nl +:+ " pass" +:+ nl.

(** CPython on these two inputs: the first one parses, the second one is
    rejected at line 1, at the given column, with the message
    [expected ':']. *)
Definition cpython_parse (column : Z) (content : string) : AstParse :=
  if String.eqb content invalid_python
  then AstSyntaxError (Some 1%Z) (Some column) "expected ':'"
  else AstTree.

Section Comparison.

(** Python's [float], with the literal [1.0]. *)
Variable float : Type.
Variable float_one : float.
(** [difflib.SequenceMatcher(None, a, b).ratio()]. *)
Variable sequence_matcher_ratio : list string -> list string -> float.
(** [s.split()], on runs of whitespace. *)
Variable split_whitespace : string -> list string.
(** [list(X)] for a set: the elements in the iteration order of the set. *)
Variable list_of_set : gset string -> list string.

Record Comparison : Type := mkComparison {
  changed : bool;
  additions : nat;
  deletions : nat;
  similarity : float;
  added_lines : option (list string);
  removed_lines : option (list string)
}.

(** [set(content.split('\n'))]. *)
Definition line_set (content : string) : gset string :=
  list_to_set (Py.split "010" content).

(** [CodeAnalyzer.compare_files]. *)
Definition compare_files (old_content new_content : string) : Comparison :=
  if String.eqb old_content new_content then
    {| changed := false; additions := 0; deletions := 0;
       similarity := float_one; added_lines := None; removed_lines := None |}
  else
    (* Simple line-based comparison *)
    let old_lines := Py.split "010" old_content in
    let new_lines := Py.split "010" new_content in
    let added : gset string := list_to_set new_lines ∖ list_to_set old_lines in
    let removed : gset string := list_to_set old_lines ∖ list_to_set new_lines in
    let similarity :=
      sequence_matcher_ratio (split_whitespace old_content) (split_whitespace new_content) in
    {| changed := true;
       additions := size added;
       deletions := size removed;
       similarity := similarity;
       added_lines := Some (take 10 (list_of_set added));
       removed_lines := Some (take 10 (list_of_set removed)) |}.

End Comparison.

Arguments changed {float} _.
Arguments additions {float} _.
Arguments deletions {float} _.
Arguments similarity {float} _.
Arguments added_lines {float} _.
Arguments removed_lines {float} _.

(** *** Syntax validation *)

Section ValidationFacts.

Variable ast_parse : string -> AstParse.
Variable json_loads : string -> JsonLoads.
Variable yaml_safe_load : string -> YamlLoad.

Lemma validate_syntax_python content :
  validate_syntax ast_parse json_loads yaml_safe_load content "python"
  = Ok (validate_python_syntax ast_parse content).
Proof. reflexivity. Qed.

Lemma validate_syntax_other content language :
  language <> "python" -> language <> "json" -> language <> "yaml" ->
  validate_syntax ast_parse json_loads yaml_safe_load content language = Ok (true, None).
Proof.
  intros Hp Hj Hy. unfold validate_syntax.
  apply String.eqb_neq in Hp, Hj, Hy. by rewrite Hp, Hj, Hy.
Qed.

(** C6 (amended). On Python content [validate_syntax] returns valid with
    no error whenever the parser accepts the content, and
    [(False, "Syntax error at line L: MSG")] whenever the parser raises a
    [SyntaxError] at line [L]: the message carries the line number and the
    parser's text, and no column. With CPython's verdicts on the two test
    inputs, the first is valid and the second is invalid with a message
    pointing at line 1. For every language other than python, json and
    yaml, and for yaml when PyYAML is not installed, the result is valid
    with no error. *)
Theorem validate_syntax_reports_line :
  (forall content, ast_parse content = AstTree ->
     validate_syntax ast_parse json_loads yaml_safe_load content "python"
     = Ok (true, None))
  /\ (forall content line column msg,
       ast_parse content = AstSyntaxError (Some line) column msg ->
       validate_syntax ast_parse json_loads yaml_safe_load content "python"
       = Ok (false, Some ("Syntax error at line " +:+ Py.str_of_Z line +:+ ": " +:+ msg)))
  /\ (forall column,
       validate_syntax (cpython_parse column) json_loads yaml_safe_load valid_python "python"
       = Ok (true, None)
       /\ validate_syntax (cpython_parse column) json_loads yaml_safe_load invalid_python "python"
          = Ok (false, Some "Syntax error at line 1: expected ':'"))
  /\ (forall content language,
       language <> "python" -> language <> "json" -> language <> "yaml" ->
       validate_syntax ast_parse json_loads yaml_safe_load content language
       = Ok (true, None))
  /\ (forall content, yaml_safe_load content = YamlImportError ->
       validate_syntax ast_parse json_loads yaml_safe_load content "yaml"
       = Ok (true, None)).
Proof.
  repeat split.
  - intros content H. rewrite validate_syntax_python.
    unfold validate_python_syntax. by rewrite H.
  - intros content line column msg H. rewrite validate_syntax_python.
    unfold validate_python_syntax. by rewrite H.
  - apply validate_syntax_other.
  - intros content H. unfold validate_syntax, validate_yaml_syntax. simpl.
    by rewrite H.
Qed.

End ValidationFacts.

(** C6 as stated fails on the column: for the invalid test input, rejected
    at line 1, column 11, the message is
    [Syntax error at line 1: expected ':'], it does not mention 11, and it
    is the same message when the parser reports column 5. *)
Lemma validate_syntax_drops_column :
  validate_syntax (cpython_parse 11) (fun _ => JsonValue) (fun _ => YamlDocument)
    invalid_python "python"
  = Ok (false, Some "Syntax error at line 1: expected ':'")
  /\ Py.contains "11" "Syntax error at line 1: expected ':'" = false
  /\ validate_syntax (cpython_parse 11) (fun _ => JsonValue) (fun _ => YamlDocument)
       invalid_python "python"
     = validate_syntax (cpython_parse 5) (fun _ => JsonValue) (fun _ => YamlDocument)
         invalid_python "python".
Proof. vm_compute. auto. Qed.

(** *** File comparison *)

Section ComparisonFacts.

Variable float : Type.
Variable float_one : float.
Variable sequence_matcher_ratio : list string -> list string -> float.
Variable split_whitespace : string -> list string.
Variable list_of_set : gset string -> list string.

Abbreviation compare :=
  (compare_files float float_one sequence_matcher_ratio split_whitespace list_of_set).

(** The size of a difference of two sets of lines, on the lists: the
    number of distinct lines of [l] that do not occur in [k]. *)
Lemma size_line_difference (l k : list string) :
  size ((list_to_set l : gset string) ∖ list_to_set k)
  = length (list_difference (remove_dups l) k).
Proof.
  rewrite <- (size_list_to_set (C := gset string) (list_difference (remove_dups l) k))
    by apply NoDup_list_difference, NoDup_remove_dups.
  f_equal. apply set_eq. intros x.
  rewrite elem_of_difference, !elem_of_list_to_set, list_elem_of_difference.
  by rewrite elem_of_remove_dups.
Qed.

Lemma compare_files_same x :
  compare x x
  = {| changed := false; additions := 0; deletions := 0; similarity := float_one;
       added_lines := None; removed_lines := None |}.
Proof. unfold compare_files. by rewrite String.eqb_refl. Qed.

Lemma compare_files_differ old new :
  old <> new ->
  compare old new
  = {| changed := true;
       additions := size (line_set new ∖ line_set old);
       deletions := size (line_set old ∖ line_set new);
       similarity := sequence_matcher_ratio (split_whitespace old) (split_whitespace new);
       added_lines := Some (take 10 (list_of_set (line_set new ∖ line_set old)));
       removed_lines := Some (take 10 (list_of_set (line_set old ∖ line_set new))) |}.
Proof.
  intros Hne. unfold compare_files.
  destruct (String.eqb old new) eqn:E; [by apply String.eqb_eq in E|]. reflexivity.
Qed.

(** C7. [compare_files x x] reports no change, no addition, no deletion
    and similarity 1.0; for differing inputs the result is changed, with
    [additions] the size of the set of lines of the new content minus that
    of the old content (the number of distinct new lines that are not old
    lines) and [deletions] the size of the opposite difference; and the
    [changed] flag is symmetric in the two arguments. *)
Theorem compare_files_spec :
  (forall x,
     changed (compare x x) = false /\ similarity (compare x x) = float_one
     /\ additions (compare x x) = 0 /\ deletions (compare x x) = 0)
  /\ (forall old new, old <> new ->
       changed (compare old new) = true
       /\ additions (compare old new) = size (line_set new ∖ line_set old)
       /\ deletions (compare old new) = size (line_set old ∖ line_set new)
       /\ additions (compare old new)
          = length (list_difference (remove_dups (Py.split "010" new)) (Py.split "010" old))
       /\ deletions (compare old new)
          = length (list_difference (remove_dups (Py.split "010" old)) (Py.split "010" new)))
  /\ (forall a b, changed (compare a b) = changed (compare b a)).
Proof.
  split; [|split].
  - intros x. by rewrite compare_files_same.
  - intros old new Hne. rewrite compare_files_differ by done. simpl.
    unfold line_set. by rewrite !size_line_difference.
  - intros a b. destruct (decide (a = b)) as [->|Hne]; [done|].
    rewrite !compare_files_differ by done. done.
Qed.

End ComparisonFacts.

(** The two test inputs under CPython's verdicts, and the comparison of
    the test suite: [line1/line2/line3] against
    [line1/line2 modified/line3/line4]. *)
Lemma validate_syntax_reports_line_witness :
  validate_syntax (cpython_parse 11) (fun _ => JsonValue) (fun _ => YamlImportError)
    valid_python "python" = Ok (true, None)
  /\ validate_syntax (cpython_parse 11) (fun _ => JsonValue) (fun _ => YamlImportError)
       invalid_python "python"
     = Ok (false, Some ("Syntax error at line " +:+ Py.str_of_Z 1 +:+ ": " +:+ "expected ':'"))
  /\ validate_syntax (cpython_parse 11) (fun _ => JsonValue) (fun _ => YamlImportError)
       "fn main() {}" "rust" = Ok (true, None)
  /\ validate_syntax (cpython_parse 11) (fun _ => JsonValue) (fun _ => YamlImportError)
       "a: 1" "yaml" = Ok (true, None).
Proof.
  destruct (validate_syntax_reports_line (cpython_parse 11) (fun _ => JsonValue)
              (fun _ => YamlImportError)) as (Hok & Herr & _ & Hother & Hyaml).
  split; [apply Hok; reflexivity|].
  split; [apply (Herr invalid_python 1%Z (Some 11%Z)); reflexivity|].
  split; [apply Hother; discriminate | apply Hyaml; reflexivity].
Defined.

Definition old_lines_text : string :=
  "line1" +:+ nl +:+ "line2" +:+ nl +:+ "line3" +:+ nl.
Definition new_lines_text : string :=
  "line1" +:+ nl +:+ "line2 modified" +:+ nl +:+ "line3" +:+ nl +:+ "line4" +:+ nl.

Lemma compare_files_spec_witness :
  let compare := compare_files nat 1 (fun _ _ => 0) (fun _ => []) elements in
  changed (compare old_lines_text new_lines_text) = true
  /\ additions (compare old_lines_text new_lines_text) = 2
  /\ deletions (compare old_lines_text new_lines_text) = 1
  /\ changed (compare new_lines_text old_lines_text) = true.
Proof.
  intros compare.
  destruct (compare_files_spec nat 1 (fun _ _ => 0) (fun _ => []) elements)
    as (_ & Hdiff & Hsym).
  destruct (Hdiff old_lines_text new_lines_text ltac:(discriminate))
    as (Hchanged & _ & _ & Hadd & Hdel).
  subst compare. rewrite (Hsym new_lines_text old_lines_text), Hchanged, Hadd, Hdel.
  split_and!; reflexivity.
Defined.

(** *** [detect_language], lines 62-106 *)

Definition LANGUAGE_EXTENSIONS : list (string * string) :=
  [ (".py", "python"); (".js", "javascript"); (".jsx", "javascript");
    (".ts", "typescript"); (".tsx", "typescript"); (".java", "java");
    (".cpp", "cpp"); (".c", "c"); (".cs", "csharp"); (".go", "go");
    (".rs", "rust"); (".rb", "ruby"); (".php", "php"); (".swift", "swift");
    (".kt", "kotlin"); (".scala", "scala"); (".r", "r"); (".m", "matlab");
    (".sql", "sql"); (".sh", "shell"); (".bash", "shell"); (".ps1", "powershell");
    (".html", "html"); (".css", "css"); (".scss", "scss"); (".sass", "sass");
    (".less", "less"); (".json", "json"); (".yaml", "yaml"); (".yml", "yaml");
    (".xml", "xml"); (".md", "markdown"); (".txt", "text");
    (".dockerfile", "dockerfile"); (".gitignore", "gitignore"); (".env", "env") ].

(** The components of a [PurePosixPath] after its root: the pieces between
    slashes, without the empty ones and the single dots. *)
Definition path_parts (p : string) : list string :=
  List.filter (fun part => negb (String.eqb part "") && negb (String.eqb part "."))
    (Py.split "/" p).

(** [Path(p).name]: the last component, or the empty string. *)
Definition path_name (p : string) : string := List.last (path_parts p) "".

(** [Path(p).suffix]: the name from its last dot on, when that dot is
    neither the first nor the last character of the name. *)
Definition path_suffix (p : string) : string :=
  let name := path_name p in
  let i := Py.rfind "." name in
  if ((0 <? i) && (i <? Z.of_nat (String.length name) - 1))%Z
  then Py.slice_from i name else "".

Definition shebang_mapping : list (string * list string) :=
  [ ("python", ["python"; "python2"; "python3"]);
    ("bash", ["bash"; "sh"]);
    ("node", ["node"]);
    ("ruby", ["ruby"]);
    ("perl", ["perl"]);
    ("php", ["php"]) ].

(** The language of the first entry of [shebang_mapping] one of whose
    interpreters occurs in the first line. *)
Definition by_shebang (first_line : string) : option string :=
  fst <$> List.find (fun entry => existsb (fun interpreter =>
                                             Py.contains interpreter first_line)
                                    (snd entry))
            shebang_mapping.

(** The last part of [detect_language]: the file name patterns. *)
Definition by_filename (filename : string) : string :=
  let filename_lower := Py.lower filename in
  if Py.contains "dockerfile" filename_lower then "dockerfile"
  else if Py.contains "makefile" filename_lower then "makefile"
  else if String.eqb filename_lower ".gitignore" then "gitignore"
  else if String.eqb filename_lower ".env" then "env"
  else "unknown".

(** The line feed. *)
Definition newline : ascii := "010"%char.

Definition detect_language (filename : string) (content : option string) : string :=
  (* Try by extension first *)
  let ext := Py.lower (path_suffix filename) in
  match Py.dict_get LANGUAGE_EXTENSIONS ext with
  | Some language => language
  | None =>
      (* Try by shebang if content provided *)
      let shebang :=
        match content with
        | Some content =>
            if Py.truthy content then
              let first_line := Py.strip_ws (List.hd "" (Py.split newline content)) in
              if Py.startswith "#!" first_line then by_shebang first_line else None
            else None
        | None => None
        end in
      match shebang with
      | Some lang => lang
      | None => by_filename filename
      end
  end.

Import GitHubClient PyFacts.

(** Whether [name] can be the last component of a path. *)
Definition is_component (name : string) : Prop :=
  Py.char_in "/" name = false /\ name <> "" /\ name <> ".".

Lemma path_name_component dir name :
  is_component name ->
  path_name name = name /\ path_name (dir +:+ "/" +:+ name) = name.
Proof.
  intros (Hslash & Hne & Hdot). unfold path_name, path_parts.
  assert (negb (String.eqb name "") && negb (String.eqb name ".") = true) as Hkeep.
  { apply andb_true_intro. split; apply negb_true_iff, String.eqb_neq; done. }
  split.
  - rewrite (split_no_sep _ _ Hslash). cbn [List.filter]. by rewrite Hkeep.
  - change ("/" +:+ name) with (String "/" name).
    rewrite split_app, (split_no_sep _ _ Hslash), List.filter_app. cbn [List.filter].
    rewrite Hkeep. apply List.last_last.
Qed.

(** The suffix of a name [stem.rest] whose stem is not empty and whose
    [rest] is not empty and has no dot. *)
Lemma path_suffix_stem_ext dir stem rest :
  stem <> "" -> Py.char_in "/" stem = false ->
  rest <> "" -> Py.char_in "." rest = false -> Py.char_in "/" rest = false ->
  path_suffix (stem +:+ "." +:+ rest) = "." +:+ rest
  /\ path_suffix (dir +:+ "/" +:+ stem +:+ "." +:+ rest) = "." +:+ rest.
Proof.
  intros Hstem Hslash Hrest Hdot Hslash'.
  assert (is_component (stem +:+ "." +:+ rest)) as Hname.
  { split_and!.
    - by rewrite !char_in_app, Hslash, Hslash'.
    - by destruct stem.
    - destruct stem as [|c [|d stem]]; [done| |done]. cbn. by destruct rest. }
  destruct (path_name_component dir _ Hname) as [Hn1 Hn2].
  assert (Py.rfind "." (stem +:+ "." +:+ rest) = Z.of_nat (String.length stem)) as Hfind
    by (by apply rfind_last).
  assert (((0 <? Z.of_nat (String.length stem))
           && (Z.of_nat (String.length stem)
               <? Z.of_nat (String.length (stem +:+ "." +:+ rest)) - 1))%Z = true) as Hin.
  { apply andb_true_intro. rewrite !length_append. cbn [String.length].
    split; apply Z.ltb_lt; destruct stem, rest; cbn [String.length] in *; try done; lia. }
  unfold path_suffix. rewrite Hn1, Hn2, Hfind, Hin.
  unfold Py.slice_from, Py.slice_index.
  assert ((Z.of_nat (String.length stem) <? 0)%Z = false) as -> by (apply Z.ltb_ge; lia).
  rewrite Nat2Z.id. by rewrite drop_append.
Qed.

(** A name that starts with its only dot has no suffix. *)
Lemma path_suffix_dotfile dir rest :
  rest <> "" -> Py.char_in "." rest = false -> Py.char_in "/" rest = false ->
  path_suffix ("." +:+ rest) = "" /\ path_suffix (dir +:+ "/" +:+ "." +:+ rest) = "".
Proof.
  intros Hrest Hdot Hslash.
  assert (is_component ("." +:+ rest)) as Hname.
  { split_and!; [by rewrite char_in_app, Hslash|done|by destruct rest]. }
  destruct (path_name_component dir _ Hname) as [Hn1 Hn2].
  pose proof (rfind_last "." "" rest Hdot) as Hfind.
  change ("" +:+ String "." rest) with ("." +:+ rest) in Hfind.
  unfold path_suffix. by rewrite Hn1, Hn2, Hfind.
Qed.

(** *** [detect_language] *)

(** A known extension decides, in any letter case and before anything
    else: a file named [stem.rest] with a non-empty stem, in any directory,
    has the language that [LANGUAGE_EXTENSIONS] gives for the lower-case
    [.rest], whatever its content or shebang line. *)
Theorem detect_language_extension_first dir stem rest language content :
  stem <> "" -> Py.char_in "/" stem = false ->
  rest <> "" -> Py.char_in "." rest = false -> Py.char_in "/" rest = false ->
  Py.dict_get LANGUAGE_EXTENSIONS (Py.lower ("." +:+ rest)) = Some language ->
  detect_language (stem +:+ "." +:+ rest) content = language
  /\ detect_language (dir +:+ "/" +:+ stem +:+ "." +:+ rest) content = language.
Proof.
  intros Hstem Hslash Hrest Hdot Hslash' Hget.
  destruct (path_suffix_stem_ext dir stem rest Hstem Hslash Hrest Hdot Hslash')
    as [Hs1 Hs2].
  unfold detect_language. by rewrite Hs1, Hs2, Hget.
Qed.

(** The names [.gitignore] and [.env] have no suffix, so the extension
    table does not apply to them: they are recognised by the last test on
    the whole file name only, and with a directory in front they are
    [unknown]. *)
Theorem detect_language_dotfiles dir :
  Py.contains "dockerfile" (Py.lower dir) = false ->
  Py.contains "makefile" (Py.lower dir) = false ->
  detect_language ".gitignore" None = "gitignore"
  /\ detect_language ".env" None = "env"
  /\ detect_language (dir +:+ "/.gitignore") None = "unknown"
  /\ detect_language (dir +:+ "/.env") None = "unknown".
Proof.
  intros Hdocker Hmake.
  assert (forall rest, rest = "gitignore" \/ rest = "env" ->
            detect_language (dir +:+ "/" +:+ "." +:+ rest) None = "unknown") as Hnested.
  { intros rest Hrest.
    destruct (path_suffix_dotfile dir rest) as [_ Hsuffix];
      [by destruct Hrest as [-> | ->]..|].
    unfold detect_language. rewrite Hsuffix. cbn [Py.lower Py.map_chars Py.dict_get].
    change (Py.dict_get LANGUAGE_EXTENSIONS "") with (@None string). cbn match.
    unfold by_filename.
    change ("/" +:+ "." +:+ rest) with (String "/" ("." +:+ rest)).
    rewrite lower_append.
    change (Py.lower (String "/" ("." +:+ rest)))
      with (String (Py.lower_char "/") (Py.lower ("." +:+ rest))).
    change (Py.lower_char "/") with "/"%char.
    rewrite !contains_app_sep, Hdocker, Hmake by done.
    assert (String.eqb (Py.lower dir +:+ String "/" (Py.lower ("." +:+ rest))) ".gitignore"
            = false) as ->.
    { apply String.eqb_neq. intros E. apply (f_equal (Py.char_in "/")) in E.
      rewrite char_in_app in E. cbn in E. by rewrite orb_true_r in E. }
    assert (String.eqb (Py.lower dir +:+ String "/" (Py.lower ("." +:+ rest))) ".env"
            = false) as ->.
    { apply String.eqb_neq. intros E. apply (f_equal (Py.char_in "/")) in E.
      rewrite char_in_app in E. cbn in E. by rewrite orb_true_r in E. }
    by destruct Hrest as [-> | ->]. }
  split_and!; [reflexivity|reflexivity|..].
  - apply (Hnested "gitignore"). by left.
  - apply (Hnested "env"). by right.
Qed.

(** Of the content only the first line is looked at. *)
Theorem detect_language_first_line_only filename line rest :
  Py.char_in newline line = false ->
  detect_language filename (Some (line +:+ String newline rest))
  = detect_language filename (Some (line +:+ String newline "")).
Proof.
  intros Hline. unfold detect_language.
  destruct (Py.dict_get _ _); [reflexivity|].
  rewrite !split_app, (split_no_sep _ _ Hline). cbn [app List.hd].
  by destruct line.
Qed.


Lemma detect_language_extension_first_witness :
  detect_language "src/Main.PY" (Some "#!/bin/bash") = "python"
  /\ detect_language "Dockerfile.json" None = "json".
Proof.
  destruct (detect_language_extension_first "src" "Main" "PY" "python" (Some "#!/bin/bash"))
    as [_ Hnested]; [done..|].
  destruct (detect_language_extension_first "" "Dockerfile" "json" "json" None)
    as [Hplain _]; [done..|].
  split; [exact Hnested|exact Hplain].
Defined.

Lemma detect_language_dotfiles_witness :
  detect_language "config/.gitignore" None = "unknown"
  /\ detect_language "config/.env" None = "unknown".
Proof.
  destruct (detect_language_dotfiles "config" eq_refl eq_refl) as (_ & _ & Hgit & Henv).
  split; [exact Hgit|exact Henv].
Defined.

Lemma detect_language_first_line_only_witness :
  detect_language "run" (Some ("#!/usr/bin/env python3" +:+ String newline "import os"))
  = detect_language "run" (Some ("#!/usr/bin/env python3" +:+ String newline ""))
  /\ detect_language "run" (Some ("#!/usr/bin/env python3" +:+ String newline ""))
     = "python".
Proof.
  split; [|reflexivity].
  apply (detect_language_first_line_only "run" "#!/usr/bin/env python3" "import os").
  reflexivity.
Defined.

End CodeAnalyzer.

(** ** State and exceptions

    [M S A] is a computation over a state [S] that returns an [A] or
    raises; the state reached when the exception is raised is kept, as in
    Python. *)

Definition M (S A : Type) : Type := S -> Res A * S.

Definition ret {S A} (a : A) : M S A := fun s => (Ok a, s).

Definition raise {S A} (e : string) : M S A := fun s => (Raise e, s).

Definition bind {S A B} (m : M S A) (k : A -> M S B) : M S B :=
  fun s =>
    match m s with
    | (Ok a, s') => k a s'
    | (Raise e, s') => (Raise e, s')
    end.

(** [try: m except Exception as e: handler(e)]. *)
Definition try_except {S A} (m : M S A) (handler : string -> M S A) : M S A :=
  fun s =>
    match m s with
    | (Ok a, s') => (Ok a, s')
    | (Raise e, s') => handler e s'
    end.

Definition modify_state {S} (f : S -> S) : M S unit := fun s => (Ok tt, f s).

Declare Scope py_scope.
Delimit Scope py_scope with py.
Notation "x <- m ;; k" := (bind m (fun x => k))
  (at level 100, m at next level, right associativity) : py_scope.
Notation "m ;; k" := (bind m (fun _ => k))
  (at level 100, right associativity) : py_scope.

(** [for x in l: body(x)]. *)
Fixpoint for_each {S A} (l : list A) (body : A -> M S unit) : M S unit :=
  match l with
  | [] => ret tt
  | x :: l' => (body x ;; for_each l' body)%py
  end.

(** ** The logger of a module *)

Inductive Level : Type := INFO | WARNING | ERROR.

Record LogRecord : Type := mkLog { level : Level; message : string }.

(** ** [sorted(l, key=...)]: stable, ascending on the keys *)

Fixpoint insert_by_key {A} (key : A -> Z) (x : A) (l : list A) : list A :=
  match l with
  | [] => [x]
  | y :: l' =>
      if (key x <=? key y)%Z then x :: y :: l'
      else y :: insert_by_key key x l'
  end.

Definition py_sorted {A} (key : A -> Z) (l : list A) : list A :=
  foldr (insert_by_key key) [] l.

(** ** [Dict[str, Any]] values that the pipeline only passes around *)

#[local] Set Warnings "-register-all".

Inductive Json : Type :=
| JNull
| JBool (b : bool)
| JInt (z : Z)
| JStr (s : string)
| JList (l : list Json)
| JDict (l : list (string * Json)).

(** ** src/ai_editor.py: the data classes *)

Record EditInstruction : Type := mkEditInstruction {
  file_path : string;
  change_type : string;          (* "modify", "create", "delete", "rename" *)
  description : string;
  context : option Json;
  priority : Z                   (* 1-5 *)
}.

Record EditPlan : Type := mkEditPlan {
  instructions : list EditInstruction;
  dependencies : list string;
  risks : list string;
  estimated_time : string;       (* "quick", "medium", "complex" *)
  confidence : QArith_base.Q     (* 0-1 *)
}.

(** ** src/repository_manager.py *)

Module RepositoryManager.

(** *** Data classes *)

Record RepositoryInfo : Type := mkRepositoryInfo {
  ri_owner : string;
  ri_name : string;
  ri_full_name : string;
  ri_description : option string;
  ri_default_branch : string;
  ri_private : bool;
  ri_fork : bool
}.

Record RepositoryContext : Type := mkRepositoryContext {
  repo_url : string;
  owner : string;
  repo_name : string;
  repo_info : option RepositoryInfo;
  local_path : option string;
  temp_dir : option string;
  structure : Json;
  important_files : list string;
  key_files_content : list (string * string);
  languages : list string;
  file_count : nat;
  default_branch : string
}.

Record ValidationResult : Type := mkValidationResult {
  valid : bool;
  vr_warnings : list string
}.

Record FileChange : Type := mkFileChange {
  fc_file_path : string;
  fc_original_content : string;
  fc_new_content : string;
  fc_change_type : string;       (* "modified", "created", "deleted" *)
  fc_language : string;
  fc_validation_result : ValidationResult;
  fc_review_result : option Json;
  fc_explanation : option string
}.

Record Summary : Type := mkSummary {
  total_instructions : nat;
  successful_changes : nat;
  failed_changes : nat;
  warnings_count : nat;
  files_modified : nat;
  files_created : nat;
  files_deleted : nat;
  timestamp : string
}.

Record EditResult : Type := mkEditResult {
  success : bool;
  changes : list FileChange;
  plan : option EditPlan;
  summary : Summary;
  errors : list string;
  warnings : list string;
  branch_name : option string;
  pr_url : option string
}.

(** [RepositoryContext.to_dict]. *)
Definition to_dict (c : RepositoryContext) : Json :=
  JDict [
    ("repo_url", JStr (repo_url c));
    ("owner", JStr (owner c));
    ("repo_name", JStr (repo_name c));
    ("description",
      match repo_info c with
      | Some info => match ri_description info with Some d => JStr d | None => JNull end
      | None => JStr ""
      end);
    ("default_branch", JStr (default_branch c));
    ("structure", structure c);
    ("important_files", JList (JStr <$> important_files c));
    ("key_files", JDict (prod_map id JStr <$> key_files_content c));
    ("languages", JList (JStr <$> languages c));
    ("file_count", JInt (Z.of_nat (file_count c)))
  ].

(** *** The collaborators

    The file system, the AI editor and the hosting service are outside the
    repository's logic: each is an interface whose operations take the
    collaborator's state and return a result, or an exception, and the
    next state. *)

Class FileSystem (FS : Type) : Type := {
  (* [Path.exists], [os.path.exists] *)
  path_exists : FS -> string -> bool;
  (* [open(p, 'r', encoding='utf-8').read()] *)
  read_text : FS -> string -> Res string;
  (* [open(p, 'w', encoding='utf-8').write(content)] *)
  write_text : FS -> string -> string -> Res unit * FS;
  (* [p.mkdir(parents=True, exist_ok=True)] *)
  mkdir_parents : FS -> string -> Res unit * FS;
  (* [p.unlink()] *)
  unlink : FS -> string -> Res unit * FS;
  (* [shutil.rmtree(p)] *)
  rmtree : FS -> string -> Res unit * FS;
  (* [tempfile.mkdtemp(prefix=..., dir=...)] *)
  mkdtemp : FS -> string -> string -> Res string * FS
}.

(** [AIEditor] of src/ai_editor.py. [validate_edit] is called by
    [execute_edits] and returns a pair [(is_valid, validation_warnings)];
    its body is not among the sources, like the prompt helpers of the
    other methods, so every method is taken as given. [review_changes] and
    [explain_changes] catch the failures of the service themselves; the
    interface lets every method raise, which covers that behaviour too. *)
Class AIEditor (AI : Type) : Type := {
  (* [edit_file(file_content, file_path, language, instruction, context)] *)
  edit_file : AI -> string -> string -> string -> string -> option Json -> Res string * AI;
  (* [validate_edit(original, new, file_path, language)] *)
  validate_edit : AI -> string -> string -> string -> string -> Res (bool * list string) * AI;
  (* [review_changes(original, modified, file_path, language)] *)
  review_changes : AI -> string -> string -> string -> string -> Res Json * AI;
  (* [explain_changes(original, modified, file_path, language, user_request)] *)
  explain_changes : AI -> string -> string -> string -> string -> string -> Res string * AI;
  (* [generate_edit_plan(repo_context, user_request)] *)
  generate_edit_plan : AI -> Json -> string -> Res EditPlan * AI
}.

(** [GitHubClient.get_repository_info] and GitPython's [Repo.clone_from],
    which writes the working copy. *)
Class GitHost (Net FS : Type) : Type := {
  get_repository_info : Net -> string -> string -> Res RepositoryInfo * Net;
  clone_from : Net -> FS -> string -> string -> Res unit * (Net * FS)
}.

(** The read-only scans of a working copy made by [analyze_repository]
    ([_analyze_repository_structure], [_identify_important_files],
    [_extract_key_file_contents], [_detect_languages], [_count_files]). *)
Class Scanner (FS : Type) : Type := {
  analyze_repository_structure : FS -> string -> Res Json;
  identify_important_files : FS -> string -> Res (list string);
  extract_key_file_contents : FS -> string -> list string -> Res (list (string * string));
  detect_languages : FS -> string -> Res (list string);
  count_files : FS -> string -> Res nat
}.

(** *** [sorted] is a stable ascending sort *)

Section Sorted.

Context {A : Type} (key : A -> Z).

Definition key_le (a b : A) : Prop := (key a <= key b)%Z.

Lemma insert_by_key_perm x l : insert_by_key key x l ≡ₚ x :: l.
Proof.
  induction l as [|y l IH]; simpl; [done|].
  case_match; [done|]. by rewrite IH, Permutation_swap.
Qed.

Lemma py_sorted_perm l : py_sorted key l ≡ₚ l.
Proof.
  induction l as [|x l IH]; simpl; [done|].
  by rewrite insert_by_key_perm, IH.
Qed.

Lemma insert_by_key_sorted x l :
  StronglySorted key_le l -> StronglySorted key_le (insert_by_key key x l).
Proof.
  induction 1 as [|y l Hl IH Hy]; simpl; [by repeat constructor|].
  destruct (key x <=? key y)%Z eqn:E.
  - apply Z.leb_le in E. constructor; [by constructor|].
    constructor; [done|]. eapply Forall_impl; [exact Hy|].
    unfold key_le. intros z Hz. lia.
  - apply Z.leb_gt in E. constructor; [done|].
    rewrite insert_by_key_perm. constructor; [|done]. unfold key_le. lia.
Qed.

Lemma py_sorted_sorted l : StronglySorted key_le (py_sorted key l).
Proof.
  induction l as [|x l IH]; simpl; [constructor|].
  by apply insert_by_key_sorted.
Qed.

Lemma insert_by_key_filter k x l :
  filter (fun a => key a = k) (insert_by_key key x l)
  = filter (fun a => key a = k) (x :: l).
Proof.
  induction l as [|y l IH]; simpl; [done|].
  destruct (key x <=? key y)%Z eqn:E; [done|]. apply Z.leb_gt in E.
  rewrite (filter_cons _ y), IH, !filter_cons.
  repeat case_decide; try done; lia.
Qed.

(** Elements with equal keys keep their order. *)
Lemma py_sorted_stable k l :
  filter (fun a => key a = k) (py_sorted key l) = filter (fun a => key a = k) l.
Proof.
  induction l as [|x l IH]; simpl; [done|].
  by rewrite insert_by_key_filter, !filter_cons, IH.
Qed.

End Sorted.

Section Manager.

Context {FS AI Net : Type}.
Context `{!FileSystem FS, !AIEditor AI, !GitHost Net FS, !Scanner FS}.

(** [CodeAnalyzer.detect_language(filename, content)]. *)
Variable detect_language : string -> option string -> string.
(** [Path(a) / b] and [p.parent], as strings. *)
Variable path_join : string -> string -> string.
Variable path_parent : string -> string.
(** [str(l)] for a list of strings, and [str(x)] for a float. *)
Variable format_list : list string -> string.
Variable format_float : QArith_base.Q -> string.
(** [datetime.now().isoformat()]. *)
Variable now_isoformat : string.
(** [hashlib.md5(s.encode()).hexdigest()]. *)
Variable md5_hexdigest : string -> string.
(** [urlparse(url).path]. *)
Variable urlparse_path : string -> string.
(** [config.github.token]. *)
Variable github_token : string.

(** The manager and what it acts on: the file system, the AI editor, the
    hosting service, the log of this module's logger, the objects created
    by [RepositoryContext(...)] (an object is identified by its index) and
    [self.context_cache]. *)
Record World : Type := mkWorld {
  w_fs : FS;
  w_ai : AI;
  w_net : Net;
  w_log : list LogRecord;
  w_objects : list RepositoryContext;
  context_cache : gmap string nat
}.

Definition logger (lvl : Level) (msg : string) : M World unit :=
  modify_state (fun w =>
    mkWorld (w_fs w) (w_ai w) (w_net w) (w_log w ++ [mkLog lvl msg])
            (w_objects w) (context_cache w)).

(** An operation of the file system that reads. *)
Definition fs_get {A} (f : FS -> A) : M World A := fun w => (Ok (f (w_fs w)), w).

(** An operation of the file system that reads and can raise. *)
Definition fs_try {A} (f : FS -> Res A) : M World A := fun w => (f (w_fs w), w).

(** An operation that changes the file system. *)
Definition fs_run {A} (f : FS -> Res A * FS) : M World A :=
  fun w =>
    let '(r, fs') := f (w_fs w) in
    (r, mkWorld fs' (w_ai w) (w_net w) (w_log w) (w_objects w) (context_cache w)).

(** A call to the AI editor. *)
Definition ai_run {A} (f : AI -> Res A * AI) : M World A :=
  fun w =>
    let '(r, ai') := f (w_ai w) in
    (r, mkWorld (w_fs w) ai' (w_net w) (w_log w) (w_objects w) (context_cache w)).

(** A call to the hosting service. *)
Definition net_run {A} (f : Net -> Res A * Net) : M World A :=
  fun w =>
    let '(r, net') := f (w_net w) in
    (r, mkWorld (w_fs w) (w_ai w) net' (w_log w) (w_objects w) (context_cache w)).

(** A clone: the hosting service and the file system. *)
Definition clone_run (f : Net -> FS -> Res unit * (Net * FS)) : M World unit :=
  fun w =>
    let '(r, (net', fs')) := f (w_net w) (w_fs w) in
    (r, mkWorld fs' (w_ai w) net' (w_log w) (w_objects w) (context_cache w)).

(** *** [execute_edits] *)

(** The state of one run of [execute_edits]: the world and the three
    local lists [changes], [errors] and [warnings]. *)
Record ExecState : Type := mkExecState {
  st_world : World;
  st_changes : list FileChange;
  st_errors : list string;
  st_warnings : list string
}.

Definition lift {A} (m : M World A) : M ExecState A :=
  fun s =>
    let '(r, w') := m (st_world s) in
    (r, mkExecState w' (st_changes s) (st_errors s) (st_warnings s)).

(** [changes.append(c)], [errors.append(e)], [warnings.append(w)]. *)
Definition changes_append (c : FileChange) : M ExecState unit :=
  modify_state (fun s =>
    mkExecState (st_world s) (st_changes s ++ [c]) (st_errors s) (st_warnings s)).

Definition errors_append (e : string) : M ExecState unit :=
  modify_state (fun s =>
    mkExecState (st_world s) (st_changes s) (st_errors s ++ [e]) (st_warnings s)).

Definition warnings_append (w : string) : M ExecState unit :=
  modify_state (fun s =>
    mkExecState (st_world s) (st_changes s) (st_errors s) (st_warnings s ++ [w])).

(** [Path(context.local_path) / file_path]; [Path(None)] raises
    [TypeError]. *)
Definition full_path_of (ctx : RepositoryContext) (file_path : string)
  : M ExecState string :=
  match local_path ctx with
  | Some lp => ret (path_join lp file_path)
  | None => raise "expected str, bytes or os.PathLike object, not NoneType"
  end.

Definition processing_message (instruction : EditInstruction) : string :=
  "Processing " +:+ change_type instruction +:+ " on " +:+ file_path instruction.

(** The body of the [try] statement of the loop, for one instruction. *)
Definition process_body (ctx : RepositoryContext) (user_request : string)
    (instruction : EditInstruction) : M ExecState unit :=
  (let file_path := file_path instruction in
   full_path <- full_path_of ctx file_path ;;
   lift (logger INFO (processing_message instruction)) ;;
   if String.eqb (change_type instruction) "modify" then
     found <- lift (fs_get (fun fs => path_exists fs full_path)) ;;
     if negb found then
       warnings_append ("File not found for modification: " +:+ file_path)
     else
       (* Read original content *)
       original_content <- lift (fs_try (fun fs => read_text fs full_path)) ;;
       (* Determine language *)
       let language := detect_language file_path (Some original_content) in
       (* Generate new content *)
       new_content <- lift (ai_run (fun ai =>
         edit_file ai original_content file_path language
                   (description instruction) (context instruction))) ;;
       (* Validate the change *)
       validation <- lift (ai_run (fun ai =>
         validate_edit ai original_content new_content file_path language)) ;;
       let is_valid := validation.1 in
       let validation_warnings := validation.2 in
       (* Review the change *)
       review_result <- lift (ai_run (fun ai =>
         review_changes ai original_content new_content file_path language)) ;;
       (* Generate explanation *)
       explanation <- lift (ai_run (fun ai =>
         explain_changes ai original_content new_content file_path language user_request)) ;;
       (* Create file change record *)
       let change :=
         {| fc_file_path := file_path;
            fc_original_content := original_content;
            fc_new_content := new_content;
            fc_change_type := "modified";
            fc_language := language;
            fc_validation_result :=
              {| valid := is_valid; vr_warnings := validation_warnings |};
            fc_review_result := Some review_result;
            fc_explanation := Some explanation |} in
       if is_valid then
         (* Write the change *)
         lift (fs_run (fun fs => write_text fs full_path new_content)) ;;
         changes_append change ;;
         lift (logger INFO ("Successfully modified " +:+ file_path))
       else
         errors_append ("Validation failed for " +:+ file_path +:+ ": "
                        +:+ format_list validation_warnings)
   else if String.eqb (change_type instruction) "create" then
     (* Create new file *)
     lift (fs_run (fun fs => mkdir_parents fs (path_parent full_path))) ;;
     (* Determine language from file extension *)
     let language := detect_language file_path None in
     (* Generate content using AI (empty string as original) *)
     new_content <- lift (ai_run (fun ai =>
       edit_file ai "" file_path language
                 (description instruction) (context instruction))) ;;
     (* Write the file *)
     lift (fs_run (fun fs => write_text fs full_path new_content)) ;;
     let change :=
       {| fc_file_path := file_path;
          fc_original_content := "";
          fc_new_content := new_content;
          fc_change_type := "created";
          fc_language := language;
          fc_validation_result := {| valid := true; vr_warnings := [] |};
          fc_review_result := None;
          fc_explanation := None |} in
     changes_append change ;;
     lift (logger INFO ("Successfully created " +:+ file_path))
   else if String.eqb (change_type instruction) "delete" then
     found <- lift (fs_get (fun fs => path_exists fs full_path)) ;;
     if found then
       (* Read original content for record *)
       original_content <- lift (fs_try (fun fs => read_text fs full_path)) ;;
       let language := detect_language file_path (Some original_content) in
       (* Delete the file *)
       lift (fs_run (fun fs => unlink fs full_path)) ;;
       let change :=
         {| fc_file_path := file_path;
            fc_original_content := original_content;
            fc_new_content := "";
            fc_change_type := "deleted";
            fc_language := language;
            fc_validation_result := {| valid := true; vr_warnings := [] |};
            fc_review_result := None;
            fc_explanation := None |} in
       changes_append change ;;
       lift (logger INFO ("Successfully deleted " +:+ file_path))
     else
       warnings_append ("File not found for deletion: " +:+ file_path)
   else if String.eqb (change_type instruction) "rename" then
     (* This is more complex - we'll implement it if needed *)
     warnings_append ("Rename operation not yet implemented: " +:+ file_path)
   else ret tt)%py.

(** One iteration of the loop: the body and its [except Exception]. *)
Definition process_instruction (ctx : RepositoryContext) (user_request : string)
    (instruction : EditInstruction) : M ExecState unit :=
  try_except (process_body ctx user_request instruction)
    (fun e =>
       let error_msg :=
         "Failed to process instruction for " +:+ file_path instruction +:+ ": " +:+ e in
       (lift (logger ERROR error_msg) ;;
        errors_append error_msg)%py).

(** [sorted(plan.instructions, key=lambda x: x.priority)]. *)
Definition sorted_instructions (plan : EditPlan) : list EditInstruction :=
  py_sorted priority (instructions plan).

Definition count_kind (kind : string) (changes : list FileChange) : nat :=
  length (filter (fun c => fc_change_type c = kind) changes).

(** [RepositoryManager.execute_edits]. *)
Definition execute_edits (ctx : RepositoryContext) (plan : EditPlan)
    (user_request : string) : M World EditResult :=
  fun w =>
    let '(_, w0) :=
      logger INFO ("Executing " +:+ Py.str_of_nat (length (instructions plan))
                   +:+ " edit instructions") w in
    (* Process instructions in priority order *)
    let '(r, st) :=
      for_each (sorted_instructions plan) (process_instruction ctx user_request)
               (mkExecState w0 [] [] []) in
    match r with
    | Raise e => (Raise e, st_world st)
    | Ok _ =>
        let changes := st_changes st in
        let errors := st_errors st in
        let warnings := st_warnings st in
        (* Create summary *)
        let summary :=
          {| total_instructions := length (instructions plan);
             successful_changes := length changes;
             failed_changes := length errors;
             warnings_count := length warnings;
             files_modified := count_kind "modified" changes;
             files_created := count_kind "created" changes;
             files_deleted := count_kind "deleted" changes;
             timestamp := now_isoformat |} in
        let success := (0 <? length changes)%nat && (length errors =? 0)%nat in
        (Ok {| success := success;
               changes := changes;
               plan := Some plan;
               summary := summary;
               errors := errors;
               warnings := warnings;
               branch_name := None;
               pr_url := None |},
         st_world st)
    end.

(** *** [plan_edits] and [_validate_edit_plan] *)

(** The patterns [r'\.git/'], [r'/etc/'], [r'/bin/'], [r'/usr/'],
    [r'/var/'], [r'/sys/'], [r'/proc/']: each one matches exactly the
    literal text given here. *)
Definition risky_patterns : list string :=
  [".git/"; "/etc/"; "/bin/"; "/usr/"; "/var/"; "/sys/"; "/proc/"].

(** [re.search(pattern, s)] for a pattern that matches only its literal
    text. *)
Definition re_search (pattern s : string) : bool := Py.contains pattern s.

Definition important_extensions : list string :=
  [".py"; ".js"; ".ts"; ".java"; ".cpp"; ".c"; ".go"; ".rs"].

(** The warnings appended for one instruction of the plan. *)
Definition instruction_warnings (instruction : EditInstruction) : list string :=
  let file_path := file_path instruction in
  (* Check for system files *)
  flat_map (fun pattern =>
              if re_search pattern file_path
              then ["Risky file path: " +:+ file_path] else [])
           risky_patterns
  ++
  (* Check for deletion of important files *)
  (if String.eqb (change_type instruction) "delete"
   then if existsb (fun ext => Py.endswith ext file_path) important_extensions
        then ["Deleting source code file: " +:+ file_path] else []
   else []).

(** The local list [warnings] at the end of [_validate_edit_plan]. *)
Definition edit_plan_warnings (plan : EditPlan) : list string :=
  (* Check for too many changes *)
  (if (20 <? length (instructions plan))%nat
   then ["Plan has " +:+ Py.str_of_nat (length (instructions plan))
         +:+ " instructions, which is a lot"]
   else [])
  ++ flat_map instruction_warnings (instructions plan).

(** [RepositoryManager._validate_edit_plan]: it returns nothing and only
    logs. *)
Definition _validate_edit_plan (plan : EditPlan) (ctx : RepositoryContext)
  : M World unit :=
  let warnings := edit_plan_warnings plan in
  match warnings with
  | [] => ret tt
  | _ => logger WARNING ("Edit plan validation warnings: " +:+ format_list warnings)
  end.

(** [RepositoryManager.plan_edits]. *)
Definition plan_edits (ctx : RepositoryContext) (user_request : string)
  : M World EditPlan :=
  (logger INFO ("Planning edits for request: "
                +:+ String.substring 0 50 user_request +:+ "...") ;;
   try_except
     ((* Generate edit plan using AI *)
      plan <- ai_run (fun ai => generate_edit_plan ai (to_dict ctx) user_request) ;;
      logger INFO ("Edit plan generated: "
                   +:+ Py.str_of_nat (length (instructions plan)) +:+ " instructions") ;;
      logger INFO ("Estimated time: " +:+ estimated_time plan
                   +:+ ", Confidence: " +:+ format_float (confidence plan)) ;;
      (* Validate plan *)
      _validate_edit_plan plan ctx ;;
      ret plan)
     (fun e =>
        logger ERROR ("Failed to plan edits: " +:+ e) ;;
        raise e))%py.

(** *** [analyze_repository] *)

Definition cache_lookup (key : string) : M World (option nat) :=
  fun w => (Ok (context_cache w !! key), w).

(** [RepositoryContext(...)]: a new object, identified by its index. *)
Definition new_context (c : RepositoryContext) : M World nat :=
  fun w =>
    (Ok (length (w_objects w)),
     mkWorld (w_fs w) (w_ai w) (w_net w) (w_log w) (w_objects w ++ [c])
             (context_cache w)).

(** [self.context_cache[key] = context]. *)
Definition cache_store (key : string) (obj : nat) : M World unit :=
  modify_state (fun w =>
    mkWorld (w_fs w) (w_ai w) (w_net w) (w_log w) (w_objects w)
            (<[key := obj]> (context_cache w))).

Definition lift_res {A} (r : Res A) : M World A := fun w => (r, w).

(** [RepositoryManager.analyze_repository]: the result is the context
    object. *)
Definition analyze_repository (repo_url : string) : M World nat :=
  (logger INFO ("Analyzing repository: " +:+ repo_url) ;;
   (* Check cache first *)
   let cache_key := md5_hexdigest repo_url in
   cached <- cache_lookup cache_key ;;
   match cached with
   | Some obj =>
       logger INFO ("Using cached context for " +:+ repo_url) ;;
       ret obj
   | None =>
       try_except
         ((* Parse URL *)
          parsed <- lift_res (GitHubClient.parse_repo_url urlparse_path repo_url) ;;
          let owner := parsed.1 in
          let repo_name := parsed.2 in
          (* Get repository info *)
          repo_info <- net_run (fun net => get_repository_info net owner repo_name) ;;
          (* Clone repository locally *)
          temp_dir <- fs_run (fun fs => mkdtemp fs "github_ai_" "temp/repos") ;;
          let local_path := path_join temp_dir repo_name in
          logger INFO ("Cloning repository to " +:+ local_path) ;;
          let clone_url :=
            "https://" +:+ github_token +:+ "@github.com/" +:+ owner +:+ "/"
            +:+ repo_name +:+ ".git" in
          clone_run (fun net fs => clone_from net fs clone_url local_path) ;;
          (* Get default branch *)
          let default_branch := ri_default_branch repo_info in
          (* Analyze repository structure *)
          structure <- fs_try (fun fs => analyze_repository_structure fs local_path) ;;
          important_files <- fs_try (fun fs => identify_important_files fs local_path) ;;
          (* Get key file contents *)
          key_files_content <-
            fs_try (fun fs => extract_key_file_contents fs local_path important_files) ;;
          (* Detect languages used *)
          languages <- fs_try (fun fs => detect_languages fs local_path) ;;
          (* Count files *)
          file_count <- fs_try (fun fs => count_files fs local_path) ;;
          (* Create context *)
          context <- new_context
            {| repo_url := repo_url;
               owner := owner;
               repo_name := repo_name;
               repo_info := Some repo_info;
               local_path := Some local_path;
               temp_dir := Some temp_dir;
               structure := structure;
               important_files := important_files;
               key_files_content := key_files_content;
               languages := languages;
               file_count := file_count;
               default_branch := default_branch |} ;;
          (* Cache the context *)
          cache_store cache_key context ;;
          logger INFO ("Repository analysis complete: " +:+ Py.str_of_nat file_count
                       +:+ " files, languages: " +:+ format_list languages) ;;
          ret context)
         (fun e =>
            logger ERROR ("Failed to analyze repository: " +:+ e) ;;
            raise e)
   end)%py.

(** *** [cleanup] *)

(** [RepositoryManager.cleanup]. *)
Definition cleanup (ctx : RepositoryContext) : M World unit :=
  match temp_dir ctx with
  | None => ret tt
  | Some dir =>
      if negb (Py.truthy dir) then ret tt
      else
        (found <- fs_get (fun fs => path_exists fs dir) ;;
         if found then
           try_except
             (fs_run (fun fs => rmtree fs dir) ;;
              logger INFO ("Cleaned up temp directory: " +:+ dir))
             (fun e => logger WARNING ("Failed to clean up temp directory: " +:+ e))
         else ret tt)%py
  end.


(** *** What one iteration of the loop does *)

(** The kind of change recorded for a kind of instruction. *)
Definition applied_kind (change_type : string) : option string :=
  if String.eqb change_type "modify" then Some "modified"
  else if String.eqb change_type "create" then Some "created"
  else if String.eqb change_type "delete" then Some "deleted"
  else None.

(** The body of the [try] statement returned normally, or raised. *)
Definition returned (ctx : RepositoryContext) (user_request : string)
    (i : EditInstruction) (s : ExecState) : Prop :=
  exists s1, process_body ctx user_request i s = (Ok tt, s1).

Definition raised (ctx : RepositoryContext) (user_request : string)
    (i : EditInstruction) (s : ExecState) : Prop :=
  exists e s1, process_body ctx user_request i s = (Raise e, s1).

(** A [modify] instruction on an existing file for which content was
    generated and [validate_edit] answered [is_valid = False]. *)
Definition validation_failed (ctx : RepositoryContext)
    (i : EditInstruction) (s : ExecState) : Prop :=
  exists lp original new_content ai1 validation_warnings ai2,
    local_path ctx = Some lp
    /\ change_type i = "modify"
    /\ path_exists (w_fs (st_world s)) (path_join lp (file_path i)) = true
    /\ read_text (w_fs (st_world s)) (path_join lp (file_path i)) = Ok original
    /\ edit_file (w_ai (st_world s)) original (file_path i)
         (detect_language (file_path i) (Some original))
         (description i) (context i) = (Ok new_content, ai1)
    /\ validate_edit ai1 original new_content (file_path i)
         (detect_language (file_path i) (Some original))
       = (Ok (false, validation_warnings), ai2).

(** What an instruction leaves in the three lists. *)
Inductive Outcome : Type :=
| Changed (c : FileChange)
| Failed (e : string)
| Warned (w : string)
| Ignored.

Definition outcome_changes (o : Outcome) : list FileChange :=
  match o with Changed c => [c] | _ => [] end.

Definition outcome_errors (o : Outcome) : list string :=
  match o with Failed e => [e] | _ => [] end.

Definition outcome_warnings (o : Outcome) : list string :=
  match o with Warned w => [w] | _ => [] end.

(** The outcome [o] is the one of instruction [i] processed in state [s]:
    a change is recorded for an instruction of the corresponding kind whose
    body returned and was not refused by validation; an error is recorded
    exactly for a body that raised or a refused validation. *)
Definition outcome_of (ctx : RepositoryContext) (user_request : string)
    (i : EditInstruction) (s : ExecState) (o : Outcome) : Prop :=
  match o with
  | Changed c =>
      fc_file_path c = file_path i
      /\ applied_kind (change_type i) = Some (fc_change_type c)
      /\ valid (fc_validation_result c) = true
      /\ returned ctx user_request i s
      /\ ~ validation_failed ctx i s
  | Failed e =>
      Py.contains (file_path i) e = true
      /\ (raised ctx user_request i s \/ validation_failed ctx i s)
  | Warned _ | Ignored =>
      returned ctx user_request i s /\ ~ validation_failed ctx i s
  end.

Ltac unfold_exec :=
  unfold process_body, full_path_of, bind, ret, raise, lift, logger, fs_get, fs_try,
    fs_run, ai_run, changes_append, errors_append, warnings_append, modify_state.

Ltac step_match :=
  match goal with
  | |- context [match ?x with _ => _ end] =>
      lazymatch x with
      | context [match _ with _ => _ end] => fail
      | _ => destruct x eqn:?
      end
  end.

Ltac pick_outcome :=
  lazymatch goal with
  | |- ex (fun o => _ ++ [?c] = _ /\ _) => exists (Changed c)
  | |- ex (fun o => _ /\ _ ++ [?e] = _ /\ _) => exists (Failed e)
  | |- ex (fun o => _ /\ _ /\ _ ++ [?w] = _ /\ _) => exists (Warned w)
  | |- ex _ => exists Ignored
  end.

Ltac rewrite_eqbs :=
  repeat match goal with
         | H : String.eqb _ _ = _ |- _ => rewrite H; clear H
         end.

Lemma startswith_app p s : Py.startswith p (p +:+ s) = true.
Proof.
  induction p as [|c p IH]; [by destruct s|].
  rewrite GitHubClient.append_cons. simpl. by rewrite Ascii.eqb_refl, IH.
Qed.

Lemma contains_startswith p s : Py.startswith p s = true -> Py.contains p s = true.
Proof. destruct s; simpl; intros ->; done. Qed.

Lemma contains_app_r p a s : Py.contains p s = true -> Py.contains p (a +:+ s) = true.
Proof.
  intros H. induction a as [|c a IH]; [done|].
  rewrite GitHubClient.append_cons. simpl. rewrite IH. apply orb_true_r.
Qed.

(** A formatted message mentions the text inserted in it. *)
Lemma contains_middle p a b : Py.contains p (a +:+ p +:+ b) = true.
Proof. apply contains_app_r, contains_startswith, startswith_app. Qed.

Ltac not_refused :=
  let H2 := fresh in
  let H3 := fresh in
  intros (? & ? & ? & ? & ? & ? & ? & H2 & H3 & ? & ? & ?); cbn in *;
  first
    [ match goal with
      | Hb : String.eqb _ "modify" = false |- _ =>
          rewrite H2 in Hb; by vm_compute in Hb
      end
    | simplify_eq;
      repeat match goal with
             | H : negb _ = true |- _ => apply negb_true_iff in H
             | H : negb _ = false |- _ => apply negb_false_iff in H
             end;
      repeat match goal with
             | x : (_ * _)%type |- _ => destruct x
             end;
      cbn in *; congruence ].

Definition body_outcome (ctx : RepositoryContext) (i : EditInstruction)
    (s : ExecState) (o : Outcome) : Prop :=
  match o with
  | Changed c =>
      fc_file_path c = file_path i
      /\ applied_kind (change_type i) = Some (fc_change_type c)
      /\ valid (fc_validation_result c) = true
      /\ ~ validation_failed ctx i s
  | Failed e => Py.contains (file_path i) e = true /\ validation_failed ctx i s
  | Warned _ | Ignored => ~ validation_failed ctx i s
  end.

Lemma process_body_spec ctx user_request i s :
  match process_body ctx user_request i s with
  | (Raise e, s1) =>
      st_changes s1 = st_changes s /\ st_errors s1 = st_errors s
      /\ st_warnings s1 = st_warnings s
  | (Ok _, s1) =>
      exists o,
        st_changes s1 = st_changes s ++ outcome_changes o
        /\ st_errors s1 = st_errors s ++ outcome_errors o
        /\ st_warnings s1 = st_warnings s ++ outcome_warnings o
        /\ body_outcome ctx i s o
  end.
Proof.
  destruct s as [[fs ai net log objs cache] cs es ws].
  unfold_exec. cbn.
  repeat (step_match; cbn); try done; pick_outcome; cbn;
    rewrite ?app_nil_r; (split_and ?); try done.
  all: try (unfold applied_kind; rewrite_eqbs; done).
  all: try apply contains_middle.
  all: try not_refused.
  apply negb_false_iff in Heqb0. apply String.eqb_eq in Heqb.
  destruct a3 as [is_valid validation_warnings]. cbn in *. subst is_valid.
  unfold validation_failed. cbn. eauto 15.
Qed.

Lemma returned_not_raised ctx user_request i s :
  returned ctx user_request i s -> ~ raised ctx user_request i s.
Proof. intros [s1 H1] (e & s2 & H2). congruence. Qed.

(** An instruction whose body raised, or whose content was refused by
    validation, leaves an error and nothing else. *)
Lemma outcome_of_failure ctx user_request i s o :
  outcome_of ctx user_request i s o ->
  raised ctx user_request i s \/ validation_failed ctx i s ->
  exists e, o = Failed e.
Proof.
  destruct o as [c|e|w|]; simpl.
  - intros (_ & _ & _ & Hret & Hnv) [Hr|Hv]; [|done].
    by destruct (returned_not_raised _ _ _ _ Hret).
  - intros _ _. by exists e.
  - intros [Hret Hnv] [Hr|Hv]; [|done].
    by destruct (returned_not_raised _ _ _ _ Hret).
  - intros [Hret Hnv] [Hr|Hv]; [|done].
    by destruct (returned_not_raised _ _ _ _ Hret).
Qed.

Lemma process_instruction_step ctx user_request i s :
  exists s' o,
    process_instruction ctx user_request i s = (Ok tt, s')
    /\ st_changes s' = st_changes s ++ outcome_changes o
    /\ st_errors s' = st_errors s ++ outcome_errors o
    /\ st_warnings s' = st_warnings s ++ outcome_warnings o
    /\ outcome_of ctx user_request i s o.
Proof.
  unfold process_instruction, try_except.
  pose proof (process_body_spec ctx user_request i s) as Hspec.
  destruct (process_body ctx user_request i s) as [[[]|e] s1] eqn:Hbody.
  - destruct Hspec as (o & Hc & He & Hw & Ho).
    exists s1, o. split_and!; try done.
    assert (returned ctx user_request i s) by (by exists s1).
    destruct o; simpl in *; [destruct Ho as (? & ? & ? & ?) | destruct Ho | |]; auto.
  - destruct Hspec as (Hc & He & Hw).
    eexists _, (Failed _). split; [unfold_exec; cbn; reflexivity|].
    cbn. rewrite !app_nil_r, Hc, He, Hw.
    split_and!; [done | done | done | apply contains_middle |].
    left. by exists e, s1.
Qed.

(** The state in which the loop leaves a list of instructions. *)
Definition state_after (ctx : RepositoryContext) (user_request : string)
    (l : list EditInstruction) (s : ExecState) : ExecState :=
  (for_each l (process_instruction ctx user_request) s).2.

Lemma for_each_cons ctx user_request i l s :
  for_each (i :: l) (process_instruction ctx user_request) s
  = for_each l (process_instruction ctx user_request)
      (state_after ctx user_request [i] s).
Proof.
  unfold state_after. simpl. unfold bind.
  destruct (process_instruction_step ctx user_request i s) as (s' & o & -> & _).
  reflexivity.
Qed.

Lemma state_after_cons ctx user_request i l s :
  state_after ctx user_request (i :: l) s
  = state_after ctx user_request l (state_after ctx user_request [i] s).
Proof. unfold state_after at 1 2. by rewrite for_each_cons. Qed.

(** The change recorded as [c] was carried out on the file system by the
    step from [s] to [s']: for [modified], the file existed, was read,
    the content generated from it passed validation and was written; for
    [created], the parent directory was made and the generated content was
    written; for [deleted], the file existed, was read and was removed. In
    each case the file system of [s'] is the one the last operation left. *)
Definition executed (ctx : RepositoryContext) (i : EditInstruction)
    (s s' : ExecState) (c : FileChange) : Prop :=
  exists lp,
    local_path ctx = Some lp
    /\ let full_path := path_join lp (file_path i) in
       let fs := w_fs (st_world s) in
       (change_type i = "modify" /\ fc_change_type c = "modified"
        /\ exists original new_content ai1 validation_warnings ai2,
             path_exists fs full_path = true
             /\ read_text fs full_path = Ok original
             /\ edit_file (w_ai (st_world s)) original (file_path i)
                  (detect_language (file_path i) (Some original))
                  (description i) (context i) = (Ok new_content, ai1)
             /\ validate_edit ai1 original new_content (file_path i)
                  (detect_language (file_path i) (Some original))
                = (Ok (true, validation_warnings), ai2)
             /\ write_text fs full_path new_content = (Ok tt, w_fs (st_world s'))
             /\ fc_original_content c = original /\ fc_new_content c = new_content)
       \/ (change_type i = "create" /\ fc_change_type c = "created"
           /\ exists fs1 new_content ai1,
                mkdir_parents fs (path_parent full_path) = (Ok tt, fs1)
                /\ edit_file (w_ai (st_world s)) "" (file_path i)
                     (detect_language (file_path i) None)
                     (description i) (context i) = (Ok new_content, ai1)
                /\ write_text fs1 full_path new_content = (Ok tt, w_fs (st_world s'))
                /\ fc_original_content c = "" /\ fc_new_content c = new_content)
       \/ (change_type i = "delete" /\ fc_change_type c = "deleted"
           /\ exists original,
                path_exists fs full_path = true
                /\ read_text fs full_path = Ok original
                /\ unlink fs full_path = (Ok tt, w_fs (st_world s'))
                /\ fc_original_content c = original /\ fc_new_content c = "").

Ltac no_change Hc :=
  exfalso; apply (f_equal length) in Hc; rewrite ?length_app in Hc; cbn in Hc; lia.

Ltac was_executed Hc :=
  apply app_inv_head in Hc; injection Hc as <-; cbn;
  repeat match goal with
         | H : negb _ = false |- _ => apply negb_false_iff in H
         | H : String.eqb _ _ = true |- _ => apply String.eqb_eq in H
         | u : unit |- _ => destruct u
         | p : (bool * list string)%type |- _ => destruct p
         end;
  cbn in *; subst;
  eexists; split; [reflexivity|].

(** A step that appends a FileChange carried it out. *)
Lemma process_instruction_executed ctx user_request i s c :
  st_changes (state_after ctx user_request [i] s) = st_changes s ++ [c] ->
  executed ctx i s (state_after ctx user_request [i] s) c.
Proof.
  destruct s as [[fs ai net log objs cache] cs es ws].
  unfold executed, state_after, for_each, bind, ret.
  unfold process_instruction, try_except; unfold_exec. cbn.
  destruct (local_path ctx) as [lp|]; cbn; [|intros Hc; no_change Hc].
  destruct (String.eqb (change_type i) "modify") eqn:Hm; cbn.
  { repeat (step_match; cbn). all: intros Hc; try (no_change Hc).
    was_executed Hc. left. split_and!; try done.
    eexists _, _, _, _, _. split_and!; try eassumption; done. }
  destruct (String.eqb (change_type i) "create") eqn:Hcr; cbn.
  { repeat (step_match; cbn). all: intros Hc; try (no_change Hc).
    was_executed Hc. right; left. split_and!; try done.
    eexists _, _, _. split_and!; try eassumption; done. }
  destruct (String.eqb (change_type i) "delete") eqn:Hd; cbn.
  { repeat (step_match; cbn). all: intros Hc; try (no_change Hc).
    was_executed Hc. right; right. split_and!; try done.
    eexists. split_and!; try eassumption; done. }
  destruct (String.eqb (change_type i) "rename"); cbn; intros Hc; no_change Hc.
Qed.

(** The loop never raises, and the three lists are the outcomes of the
    instructions, in the order of the list. *)
Lemma for_each_outcomes ctx user_request l s :
  exists outs,
    for_each l (process_instruction ctx user_request) s
    = (Ok tt, state_after ctx user_request l s)
    /\ length outs = length l
    /\ st_changes (state_after ctx user_request l s)
       = st_changes s ++ concat (outcome_changes <$> outs)
    /\ st_errors (state_after ctx user_request l s)
       = st_errors s ++ concat (outcome_errors <$> outs)
    /\ st_warnings (state_after ctx user_request l s)
       = st_warnings s ++ concat (outcome_warnings <$> outs)
    /\ forall k i o,
         l !! k = Some i -> outs !! k = Some o ->
         outcome_of ctx user_request i (state_after ctx user_request (take k l) s) o.
Proof.
  revert s. induction l as [|i l IH]; intros s.
  - exists []. unfold state_after. simpl. rewrite !app_nil_r.
    split_and!; done.
  - destruct (process_instruction_step ctx user_request i s)
      as (s1 & o & Hstep & Hc & He & Hw & Ho).
    assert (state_after ctx user_request [i] s = s1) as Hs1.
    { unfold state_after. simpl. unfold bind. by rewrite Hstep. }
    destruct (IH s1) as (outs & Hrun & Hlen & Hcs & Hes & Hws & Houts).
    exists (o :: outs).
    rewrite (for_each_cons _ _ i l s), !(state_after_cons _ _ i l s), Hs1.
    rewrite Hrun, Hcs, Hes, Hws, Hc, He, Hw. simpl. rewrite <- !app_assoc.
    split_and!; try done; [by rewrite Hlen|].
    intros [|k] i' o' Hk Hok; simpl in *.
    + by simplify_eq.
    + rewrite (state_after_cons _ _ i (take k l) s), Hs1. by apply Houts.
Qed.

(** The same outcomes, each [Changed] one with the file-system operations
    of its step. *)
Lemma for_each_outcomes_executed ctx user_request l s :
  exists outs,
    for_each l (process_instruction ctx user_request) s
    = (Ok tt, state_after ctx user_request l s)
    /\ length outs = length l
    /\ st_changes (state_after ctx user_request l s)
       = st_changes s ++ concat (outcome_changes <$> outs)
    /\ st_errors (state_after ctx user_request l s)
       = st_errors s ++ concat (outcome_errors <$> outs)
    /\ st_warnings (state_after ctx user_request l s)
       = st_warnings s ++ concat (outcome_warnings <$> outs)
    /\ (forall k i o,
          l !! k = Some i -> outs !! k = Some o ->
          outcome_of ctx user_request i (state_after ctx user_request (take k l) s) o)
    /\ forall k i c,
         l !! k = Some i -> outs !! k = Some (Changed c) ->
         executed ctx i (state_after ctx user_request (take k l) s)
           (state_after ctx user_request (take (S k) l) s) c.
Proof.
  revert s. induction l as [|i l IH]; intros s.
  - exists []. unfold state_after. simpl. rewrite !app_nil_r.
    split_and!; done.
  - destruct (process_instruction_step ctx user_request i s)
      as (s1 & o & Hstep & Hc & He & Hw & Ho).
    assert (state_after ctx user_request [i] s = s1) as Hs1.
    { unfold state_after. simpl. unfold bind. by rewrite Hstep. }
    destruct (IH s1) as (outs & Hrun & Hlen & Hcs & Hes & Hws & Houts & Hex).
    exists (o :: outs).
    rewrite (for_each_cons _ _ i l s), !(state_after_cons _ _ i l s), Hs1.
    rewrite Hrun, Hcs, Hes, Hws, Hc, He, Hw. simpl. rewrite <- !app_assoc.
    split_and!; try done; [by rewrite Hlen| |].
    + intros [|k] i' o' Hk Hok; simpl in *.
      * by simplify_eq.
      * rewrite (state_after_cons _ _ i (take k l) s), Hs1. by apply Houts.
    + intros [|k] i' c Hk Hok; simpl in *.
      * simplify_eq. rewrite take_0.
        apply process_instruction_executed. by rewrite Hc.
      * rewrite (state_after_cons _ _ i (take k l) s).
        rewrite (state_after_cons _ _ i (take (S k) l) s).
        rewrite Hs1. by apply Hex.
Qed.

(** *** The whole run *)

(** The state in which the loop starts. *)
Definition initial_state (plan : EditPlan) (w : World) : ExecState :=
  mkExecState
    (logger INFO ("Executing " +:+ Py.str_of_nat (length (instructions plan))
                  +:+ " edit instructions") w).2
    [] [] [].

(** The state in which the instruction at position [k] of the sorted plan
    is processed. *)
Definition state_before (ctx : RepositoryContext) (plan : EditPlan)
    (user_request : string) (w : World) (k : nat) : ExecState :=
  state_after ctx user_request (take k (sorted_instructions plan)) (initial_state plan w).

Definition final_state (ctx : RepositoryContext) (plan : EditPlan)
    (user_request : string) (w : World) : ExecState :=
  state_after ctx user_request (sorted_instructions plan) (initial_state plan w).

Lemma execute_edits_run ctx plan user_request w :
  let st := final_state ctx plan user_request w in
  execute_edits ctx plan user_request w
  = (Ok {| success := (0 <? length (st_changes st))%nat && (length (st_errors st) =? 0)%nat;
           changes := st_changes st;
           plan := Some plan;
           summary :=
             {| total_instructions := length (instructions plan);
                successful_changes := length (st_changes st);
                failed_changes := length (st_errors st);
                warnings_count := length (st_warnings st);
                files_modified := count_kind "modified" (st_changes st);
                files_created := count_kind "created" (st_changes st);
                files_deleted := count_kind "deleted" (st_changes st);
                timestamp := now_isoformat |};
           errors := st_errors st;
           warnings := st_warnings st;
           branch_name := None;
           pr_url := None |},
     st_world st).
Proof.
  unfold execute_edits, final_state. cbn.
  destruct (for_each_outcomes ctx user_request (sorted_instructions plan)
              (initial_state plan w)) as (outs & Hrun & _).
  unfold initial_state in Hrun. cbn in Hrun. rewrite Hrun. reflexivity.
Qed.

Lemma elem_of_concat_fmap {A B} (f : A -> list B) (l : list A) k x y :
  l !! k = Some x -> y ∈ f x -> y ∈ concat (f <$> l).
Proof.
  revert k. induction l as [|a l IH]; intros [|k] Hk Hy; simplify_eq/=.
  - apply elem_of_app. by left.
  - apply elem_of_app. right. by eapply IH.
Qed.

Lemma outcomes_count (outs : list Outcome) :
  length (concat (outcome_changes <$> outs))
  + length (concat (outcome_errors <$> outs))
  + length (concat (outcome_warnings <$> outs)) <= length outs.
Proof.
  induction outs as [|o outs IH]; [cbn; lia|].
  rewrite !fmap_cons. cbn [concat]. rewrite !length_app. destruct o; cbn; lia.
Qed.

(** C3. [execute_edits] always returns, and the [success] flag of its
    result is true if and only if at least one FileChange was produced and
    no error was recorded. *)
Theorem execute_edits_success_iff ctx plan user_request w :
  exists r w',
    execute_edits ctx plan user_request w = (Ok r, w')
    /\ (success r = true <-> (exists c, c ∈ changes r) /\ errors r = [])
    /\ (success r = true
        <-> 0 < successful_changes (summary r) /\ failed_changes (summary r) = 0).
Proof.
  eexists _, _. split; [apply execute_edits_run|].
  cbn [success changes errors summary successful_changes failed_changes].
  destruct (st_changes _) as [|c cs], (st_errors _) as [|e es]; cbn.
  all: split; split; try done; try lia.
  all: try (intros [[c' Hc'] ?]; try done; by inversion Hc').
  all: intros _; split; [exists c; by left | done].
Qed.

(** C4. Every run of [execute_edits] returns a result whose lists are the
    outcomes of the instructions of the plan, taken one by one in the
    order in which they are processed: each FileChange is the outcome of
    exactly one instruction, has its path and the kind that corresponds to
    the instruction's kind, and that instruction's body returned without
    its content being refused by validation; the step of that instruction
    carried the kind out on the file system ([executed]: the write, or the
    directory creation and the write, or the removal, returned, and the
    file system after the step is the one it left), the steps running from
    the caller's file system to that of the returned world; an instruction
    whose body raised, or whose content failed validation, produces no
    FileChange and exactly one entry of [errors]; an instruction produces
    at most one entry overall. *)
Theorem execute_edits_outcomes ctx plan user_request w :
  exists r w' outs,
    execute_edits ctx plan user_request w = (Ok r, w')
    /\ sorted_instructions plan ≡ₚ instructions plan
    /\ length outs = length (sorted_instructions plan)
    /\ changes r = concat (outcome_changes <$> outs)
    /\ errors r = concat (outcome_errors <$> outs)
    /\ warnings r = concat (outcome_warnings <$> outs)
    /\ length (changes r) + length (errors r) + length (warnings r)
       <= length (instructions plan)
    /\ (forall k i o,
          sorted_instructions plan !! k = Some i -> outs !! k = Some o ->
          outcome_of ctx user_request i (state_before ctx plan user_request w k) o
          /\ (raised ctx user_request i (state_before ctx plan user_request w k)
              \/ validation_failed ctx i (state_before ctx plan user_request w k) ->
              exists e, o = Failed e /\ outcome_changes o = [] /\ e ∈ errors r))
    /\ (forall k i c,
          sorted_instructions plan !! k = Some i -> outs !! k = Some (Changed c) ->
          executed ctx i (state_before ctx plan user_request w k)
            (state_before ctx plan user_request w (S k)) c)
    /\ w_fs (st_world (state_before ctx plan user_request w 0)) = w_fs w
    /\ w' = st_world (state_before ctx plan user_request w
                        (length (sorted_instructions plan))).
Proof.
  destruct (for_each_outcomes_executed ctx user_request (sorted_instructions plan)
              (initial_state plan w))
    as (outs & _ & Hlen & Hc & He & Hw & Houts & Hex).
  eexists _, _, outs. split; [apply execute_edits_run|]. cbn.
  fold (final_state ctx plan user_request w) in Hc, He, Hw.
  rewrite Hc, He, Hw. cbn.
  split; [apply py_sorted_perm|]. split; [done|]. split_and!; try done.
  - rewrite <- (Permutation_length (py_sorted_perm priority (instructions plan))).
    fold (sorted_instructions plan). rewrite <- Hlen. apply outcomes_count.
  - intros k i o Hk Ho. split; [by apply Houts|]. intros Hfail.
    destruct (outcome_of_failure _ _ _ _ _ (Houts k i o Hk Ho) Hfail) as [e ->].
    exists e. split_and!; try done.
    eapply (elem_of_concat_fmap outcome_errors); [exact Ho|]. simpl. by left.
  - unfold state_before, final_state. by rewrite firstn_all.
Qed.

(** *** The order in which the instructions are attempted *)

(** The records [Processing {change_type} on {file_path}] of the log: one
    is written each time the body of the loop starts on an instruction. *)
Definition is_processing (r : LogRecord) : bool :=
  match level r with
  | INFO => Py.startswith "Processing " (message r)
  | _ => false
  end.

Definition processing_record (i : EditInstruction) : LogRecord :=
  mkLog INFO (processing_message i).

Definition processing_log (w : World) : list LogRecord :=
  List.filter is_processing (w_log w).

Ltac eval_processing :=
  repeat match goal with
         | |- context [List.filter is_processing [?r]] =>
             let b := eval cbv in (is_processing r) in
             lazymatch b with
             | true => change (List.filter is_processing [r]) with [r]
             | false => change (List.filter is_processing [r]) with (@nil LogRecord)
             end
         end.

Lemma process_instruction_log ctx user_request i s :
  processing_log (st_world (state_after ctx user_request [i] s))
  = processing_log (st_world s)
    ++ match local_path ctx with Some _ => [processing_record i] | None => [] end.
Proof.
  destruct s as [[fs ai net log objs cache] cs es ws].
  unfold state_after, for_each, process_instruction, try_except, processing_log,
    processing_record.
  unfold_exec. cbn.
  repeat (step_match; cbn); rewrite ?List.filter_app; eval_processing;
    rewrite ?app_nil_r; reflexivity.
Qed.

Lemma for_each_log ctx user_request l s lp :
  local_path ctx = Some lp ->
  processing_log (st_world (state_after ctx user_request l s))
  = processing_log (st_world s) ++ (processing_record <$> l).
Proof.
  intros Hlp. revert s. induction l as [|i l IH]; intros s.
  - unfold state_after. simpl. by rewrite app_nil_r.
  - rewrite state_after_cons, IH, process_instruction_log, Hlp.
    by rewrite <- app_assoc.
Qed.

(** C2. The instructions are attempted in the order of
    [sorted(plan.instructions, key=priority)]: ascending in the priority
    value, a permutation of the plan that keeps the order of instructions
    of equal priority. The run is the loop over that list, and, when the
    context has a local path, the [Processing ...] records written to the
    log during the run are those of that list, in order. A plan with
    priorities 3, 1, 2 is attempted in the order 1, 2, 3. *)
Theorem execute_edits_priority_order ctx plan user_request w :
  StronglySorted (key_le priority) (sorted_instructions plan)
  /\ sorted_instructions plan ≡ₚ instructions plan
  /\ (forall p,
        filter (fun i => priority i = p) (sorted_instructions plan)
        = filter (fun i => priority i = p) (instructions plan))
  /\ (execute_edits ctx plan user_request w).2
     = st_world (state_after ctx user_request (sorted_instructions plan)
                   (initial_state plan w))
  /\ (forall lp, local_path ctx = Some lp ->
        processing_log (execute_edits ctx plan user_request w).2
        = processing_log w ++ (processing_record <$> sorted_instructions plan))
  /\ (forall a b c,
        instructions plan = [a; b; c] ->
        priority a = 3%Z -> priority b = 1%Z -> priority c = 2%Z ->
        sorted_instructions plan = [b; c; a]).
Proof.
  split; [apply py_sorted_sorted|]. split; [apply py_sorted_perm|].
  split; [intros p; apply py_sorted_stable|].
  rewrite execute_edits_run. cbn [snd]. split; [reflexivity|]. split.
  - intros lp Hlp. unfold final_state. rewrite (for_each_log _ _ _ _ lp Hlp).
    f_equal. unfold initial_state, processing_log. cbn.
    rewrite List.filter_app. eval_processing. by rewrite app_nil_r.
  - intros a b c Hplan Ha Hb Hc. unfold sorted_instructions. rewrite Hplan.
    unfold py_sorted. cbn [foldr insert_by_key]. rewrite Hb, Hc. cbn.
    rewrite Ha, Hb, Hc. reflexivity.
Qed.

(** *** A [modify] instruction on an existing file *)

(** C1. A [modify] instruction whose target exists and can be read, for
    which the editor generates content, [validate_edit] answers, and the
    review and the explanation are produced: the iteration returns
    normally; when validation passed and the write succeeds, the file
    system is the one left by writing the new content, and exactly one
    FileChange is appended, of kind [modified], whose validation result is
    valid; when validation failed, the file system is left as it was, no
    FileChange is appended, and exactly one error
    [Validation failed for {file_path}: {warnings}] is appended. *)
Theorem process_instruction_modify
    ctx user_request i s lp original new_content is_valid validation_warnings
    review explanation ai1 ai2 ai3 ai4 :
  let full_path := path_join lp (file_path i) in
  let language := detect_language (file_path i) (Some original) in
  let s' := state_after ctx user_request [i] s in
  local_path ctx = Some lp ->
  change_type i = "modify" ->
  path_exists (w_fs (st_world s)) full_path = true ->
  read_text (w_fs (st_world s)) full_path = Ok original ->
  edit_file (w_ai (st_world s)) original (file_path i) language
    (description i) (context i) = (Ok new_content, ai1) ->
  validate_edit ai1 original new_content (file_path i) language
  = (Ok (is_valid, validation_warnings), ai2) ->
  review_changes ai2 original new_content (file_path i) language = (Ok review, ai3) ->
  explain_changes ai3 original new_content (file_path i) language user_request
  = (Ok explanation, ai4) ->
  process_instruction ctx user_request i s = (Ok tt, s')
  /\ (is_valid = true ->
      forall fs',
        write_text (w_fs (st_world s)) full_path new_content = (Ok tt, fs') ->
        w_fs (st_world s') = fs'
        /\ st_changes s'
           = st_changes s
             ++ [{| fc_file_path := file_path i;
                    fc_original_content := original;
                    fc_new_content := new_content;
                    fc_change_type := "modified";
                    fc_language := language;
                    fc_validation_result :=
                      {| valid := true; vr_warnings := validation_warnings |};
                    fc_review_result := Some review;
                    fc_explanation := Some explanation |}]
        /\ st_errors s' = st_errors s
        /\ st_warnings s' = st_warnings s)
  /\ (is_valid = false ->
      w_fs (st_world s') = w_fs (st_world s)
      /\ st_changes s' = st_changes s
      /\ st_errors s'
         = st_errors s
           ++ ["Validation failed for " +:+ file_path i +:+ ": "
               +:+ format_list validation_warnings]
      /\ st_warnings s' = st_warnings s).
Proof.
  intros full_path language s' Hlp Hkind Hexists Hread Hedit Hvalidate Hreview Hexplain.
  split.
  { destruct (process_instruction_step ctx user_request i s) as (s1 & o & Hstep & _).
    subst s'. unfold state_after. simpl. unfold bind. by rewrite Hstep. }
  subst s' full_path language. destruct s as [[fs ai net log objs cache] cs es ws].
  unfold state_after, for_each, process_instruction, try_except.
  unfold_exec. cbn in *.
  rewrite Hlp, Hkind. cbn. rewrite Hexists. cbn.
  rewrite Hread. cbn. rewrite Hedit. cbn. rewrite Hvalidate. cbn.
  rewrite Hreview. cbn. rewrite Hexplain. cbn.
  split; intros ->.
  - intros fs' Hwrite. cbn. rewrite Hwrite. cbn. done.
  - cbn. done.
Qed.

(** *** The plan validator *)

Lemma edit_plan_warnings_risky plan i pattern :
  i ∈ instructions plan -> pattern ∈ risky_patterns ->
  re_search pattern (file_path i) = true ->
  "Risky file path: " +:+ file_path i ∈ edit_plan_warnings plan.
Proof.
  intros Hi Hp Hmatch. unfold edit_plan_warnings. apply elem_of_app. right.
  apply list_elem_of_In, in_flat_map. exists i. split; [by apply list_elem_of_In|].
  unfold instruction_warnings. apply in_or_app. left.
  apply in_flat_map. exists pattern. split; [by apply list_elem_of_In|].
  rewrite Hmatch. by left.
Qed.

Definition with_log (w : World) (log : list LogRecord) : World :=
  mkWorld (w_fs w) (w_ai w) (w_net w) log (w_objects w) (context_cache w).

Definition validation_record (plan : EditPlan) : LogRecord :=
  mkLog WARNING ("Edit plan validation warnings: "
                 +:+ format_list (edit_plan_warnings plan)).

Lemma validate_edit_plan_run plan ctx w :
  _validate_edit_plan plan ctx w
  = (Ok tt,
     match edit_plan_warnings plan with
     | [] => w
     | _ => with_log w (w_log w ++ [validation_record plan])
     end).
Proof.
  unfold _validate_edit_plan, validation_record.
  by destruct (edit_plan_warnings plan); destruct w.
Qed.

(** C8 (amended). The validator never raises and returns nothing: it leaves the
    world as it is, except for at most one WARNING record in the log.
    Every instruction whose path contains one of the denylisted fragments
    ([.git/], [/etc/], [/bin/], [/usr/], [/var/], [/sys/], [/proc/]) gets
    the warning [Risky file path: {file_path}], and the warnings are then
    logged. [plan_edits] returns the plan exactly as it was generated,
    whatever the validator found. *)
Theorem validate_edit_plan_warns_only ctx user_request plan :
  (forall w,
     exists w',
       _validate_edit_plan plan ctx w = (Ok tt, w')
       /\ (w' = w \/ w' = with_log w (w_log w ++ [validation_record plan])))
  /\ (forall i pattern,
        i ∈ instructions plan -> pattern ∈ risky_patterns ->
        Py.contains pattern (file_path i) = true ->
        "Risky file path: " +:+ file_path i ∈ edit_plan_warnings plan
        /\ forall w,
             _validate_edit_plan plan ctx w
             = (Ok tt, with_log w (w_log w ++ [validation_record plan])))
  /\ (forall w ai',
        generate_edit_plan (w_ai w) (to_dict ctx) user_request = (Ok plan, ai') ->
        exists w',
          plan_edits ctx user_request w = (Ok plan, w')
          /\ w_fs w' = w_fs w /\ w_ai w' = ai').
Proof.
  split_and!.
  - intros w. rewrite validate_edit_plan_run. eexists. split; [done|].
    destruct (edit_plan_warnings plan); auto.
  - intros i pattern Hi Hp Hmatch.
    pose proof (edit_plan_warnings_risky plan i pattern Hi Hp Hmatch) as Hin.
    split; [done|]. intros w. rewrite validate_edit_plan_run.
    destruct (edit_plan_warnings plan); [by inversion Hin | done].
  - intros w ai' Hgen. unfold plan_edits, try_except, bind, ai_run, logger, ret,
      modify_state. cbn. rewrite Hgen. cbn.
    rewrite validate_edit_plan_run.
    destruct (edit_plan_warnings plan); cbn; eexists; (split; [reflexivity|done]).
Qed.

(** *** The context cache *)

Lemma analyze_repository_hit url w obj :
  context_cache w !! md5_hexdigest url = Some obj ->
  analyze_repository url w
  = (Ok obj,
     with_log w (w_log w ++ [mkLog INFO ("Analyzing repository: " +:+ url);
                             mkLog INFO ("Using cached context for " +:+ url)])).
Proof.
  intros Hhit. unfold analyze_repository, bind, logger, cache_lookup, ret, modify_state.
  cbn. rewrite Hhit. unfold with_log. cbn. by rewrite <- app_assoc.
Qed.

Lemma analyze_repository_caches url w :
  match analyze_repository url w with
  | (Ok obj, w1) => context_cache w1 !! md5_hexdigest url = Some obj
  | (Raise _, _) => True
  end.
Proof.
  destruct w as [fs ai net log objs cache].
  unfold analyze_repository, try_except, bind, logger, cache_lookup, cache_store,
    new_context, lift_res, net_run, fs_run, fs_try, clone_run, ret, raise, modify_state.
  cbn. repeat (step_match; cbn); try done. apply lookup_insert_eq.
Qed.

(** C5. After a call [analyze_repository url] that returned a context, a
    second call with the same URL returns the same context object, found
    in the cache under the MD5 digest of the URL: the file system, the
    hosting service, the objects and the cache are left as they were (no
    clone, no scan, no new context), and only the two log records of a
    cache hit are written. *)
Theorem analyze_repository_cached url w obj w1 :
  analyze_repository url w = (Ok obj, w1) ->
  context_cache w1 !! md5_hexdigest url = Some obj
  /\ analyze_repository url w1
     = (Ok obj,
        with_log w1 (w_log w1 ++ [mkLog INFO ("Analyzing repository: " +:+ url);
                                  mkLog INFO ("Using cached context for " +:+ url)])).
Proof.
  intros Hfirst. pose proof (analyze_repository_caches url w) as Hcache.
  rewrite Hfirst in Hcache. split; [done|]. by apply analyze_repository_hit.
Qed.

(** *** Cleanup *)


(** [cleanup(context); cleanup(context)]. *)
Definition cleanup_twice (ctx : RepositoryContext) : M World unit :=
  (cleanup ctx ;; cleanup ctx)%py.


(** *** More on the instructions of [execute_edits] *)

Ltac unfold_step :=
  unfold process_instruction, try_except; unfold_exec.

(** The state after the [Processing ...] record and what the branch adds
    to the log and to the three lists. *)
Definition stepped (s : ExecState) (i : EditInstruction) (fs : FS) (ai : AI)
    (logged : list LogRecord) (cs : list FileChange) (es ws : list string) : ExecState :=
  mkExecState
    (mkWorld fs ai (w_net (st_world s))
       (w_log (st_world s) ++ processing_record i :: logged)
       (w_objects (st_world s)) (context_cache (st_world s)))
    (st_changes s ++ cs) (st_errors s ++ es) (st_warnings s ++ ws).

(** A [modify] instruction whose file does not exist is skipped with a
    warning: the file system and the editor are not touched and nothing
    else is recorded. *)
Theorem modify_missing_file_warns ctx user_request i s lp :
  local_path ctx = Some lp ->
  change_type i = "modify" ->
  path_exists (w_fs (st_world s)) (path_join lp (file_path i)) = false ->
  process_instruction ctx user_request i s
  = (Ok tt,
     stepped s i (w_fs (st_world s)) (w_ai (st_world s)) [] [] []
       ["File not found for modification: " +:+ file_path i]).
Proof.
  intros Hlp Hkind Hexists. destruct s as [[fs ai net log objs cache] cs es ws].
  unfold_step. unfold stepped, processing_record. cbn in *.
  rewrite Hlp, Hkind. cbn. rewrite Hexists. cbn.
  by rewrite ?app_nil_r, <- ?app_assoc.
Qed.

(** A [create] instruction has no validation gate: the parent directory is
    made, the editor is asked once for content from the empty string, and
    the content is written and recorded as [created] with [valid = True],
    whatever it is; [validate_edit], [review_changes] and
    [explain_changes] are not called. *)
Theorem create_is_not_validated ctx user_request i s lp fs1 new_content ai1 fs2 :
  let full_path := path_join lp (file_path i) in
  let language := detect_language (file_path i) None in
  local_path ctx = Some lp ->
  change_type i = "create" ->
  mkdir_parents (w_fs (st_world s)) (path_parent full_path) = (Ok tt, fs1) ->
  edit_file (w_ai (st_world s)) "" (file_path i) language (description i) (context i)
  = (Ok new_content, ai1) ->
  write_text fs1 full_path new_content = (Ok tt, fs2) ->
  process_instruction ctx user_request i s
  = (Ok tt,
     stepped s i fs2 ai1 [mkLog INFO ("Successfully created " +:+ file_path i)]
       [{| fc_file_path := file_path i;
           fc_original_content := "";
           fc_new_content := new_content;
           fc_change_type := "created";
           fc_language := language;
           fc_validation_result := {| valid := true; vr_warnings := [] |};
           fc_review_result := None;
           fc_explanation := None |}]
       [] []).
Proof.
  intros full_path language Hlp Hkind Hmkdir Hedit Hwrite. subst full_path language.
  destruct s as [[fs ai net log objs cache] cs es ws].
  unfold_step. unfold stepped, processing_record. cbn in *.
  rewrite Hlp, Hkind. cbn. rewrite Hmkdir. cbn. rewrite Hedit. cbn.
  rewrite Hwrite. cbn. by rewrite ?app_nil_r, <- ?app_assoc.
Qed.

(** A [delete] instruction: an existing file is read, removed and
    recorded as [deleted] with its former content; a missing file gives a
    warning and nothing else. The editor is never called. *)
Theorem delete_records_former_content ctx user_request i s lp :
  let full_path := path_join lp (file_path i) in
  local_path ctx = Some lp ->
  change_type i = "delete" ->
  (path_exists (w_fs (st_world s)) full_path = false ->
   process_instruction ctx user_request i s
   = (Ok tt,
      stepped s i (w_fs (st_world s)) (w_ai (st_world s)) [] [] []
        ["File not found for deletion: " +:+ file_path i]))
  /\ (forall original fs',
        path_exists (w_fs (st_world s)) full_path = true ->
        read_text (w_fs (st_world s)) full_path = Ok original ->
        unlink (w_fs (st_world s)) full_path = (Ok tt, fs') ->
        process_instruction ctx user_request i s
        = (Ok tt,
           stepped s i fs' (w_ai (st_world s))
             [mkLog INFO ("Successfully deleted " +:+ file_path i)]
             [{| fc_file_path := file_path i;
                 fc_original_content := original;
                 fc_new_content := "";
                 fc_change_type := "deleted";
                 fc_language := detect_language (file_path i) (Some original);
                 fc_validation_result := {| valid := true; vr_warnings := [] |};
                 fc_review_result := None;
                 fc_explanation := None |}]
             [] [])).
Proof.
  intros full_path Hlp Hkind. subst full_path.
  destruct s as [[fs ai net log objs cache] cs es ws].
  unfold_step. unfold stepped, processing_record. cbn in *.
  rewrite Hlp, Hkind. cbn. split.
  - intros Hexists. rewrite Hexists. cbn. by rewrite ?app_nil_r, <- ?app_assoc.
  - intros original fs' Hexists Hread Hunlink. rewrite Hexists. cbn.
    rewrite Hread. cbn. rewrite Hunlink. cbn. by rewrite ?app_nil_r, <- ?app_assoc.
Qed.

(** A [rename] instruction only leaves a warning; an instruction whose
    kind is none of modify, create, delete and rename leaves nothing at
    all: no change, no error, no warning. *)
Theorem rename_and_unknown_kinds ctx user_request i s lp :
  local_path ctx = Some lp ->
  (change_type i = "rename" ->
   process_instruction ctx user_request i s
   = (Ok tt,
      stepped s i (w_fs (st_world s)) (w_ai (st_world s)) [] [] []
        ["Rename operation not yet implemented: " +:+ file_path i]))
  /\ (change_type i <> "modify" -> change_type i <> "create" ->
      change_type i <> "delete" -> change_type i <> "rename" ->
      process_instruction ctx user_request i s
      = (Ok tt, stepped s i (w_fs (st_world s)) (w_ai (st_world s)) [] [] [] [])).
Proof.
  intros Hlp. destruct s as [[fs ai net log objs cache] cs es ws].
  unfold_step. unfold stepped, processing_record. cbn in *. rewrite Hlp. cbn. split.
  - intros ->. cbn. by rewrite ?app_nil_r.
  - intros Hm Hc Hd Hr. apply String.eqb_neq in Hm, Hc, Hd, Hr.
    rewrite Hm, Hc, Hd, Hr. cbn. by rewrite ?app_nil_r.
Qed.

(** *** A context without a local path *)

Definition no_path_error (i : EditInstruction) : string :=
  "Failed to process instruction for " +:+ file_path i +:+ ": "
  +:+ "expected str, bytes or os.PathLike object, not NoneType".

Lemma state_after_no_path ctx user_request l s :
  local_path ctx = None ->
  state_after ctx user_request l s
  = mkExecState
      (with_log (st_world s)
         (w_log (st_world s) ++ (mkLog ERROR ∘ no_path_error <$> l)))
      (st_changes s) (st_errors s ++ (no_path_error <$> l)) (st_warnings s).
Proof.
  intros Hlp. revert s. induction l as [|i l IH]; intros s.
  - destruct s as [[fs ai net log objs cache] cs es ws].
    unfold state_after, with_log. cbn. by rewrite ?app_nil_r.
  - rewrite state_after_cons, IH.
    destruct s as [[fs ai net log objs cache] cs es ws].
    unfold state_after, for_each, bind, ret. unfold_step. unfold with_log, no_path_error.
    cbn. rewrite Hlp. cbn. by rewrite <- !app_assoc.
Qed.

(** When the context has no local path, every instruction fails with the
    same [TypeError] before anything is attempted: the result has one
    error per instruction, in processing order, no change and no warning,
    [success] is false, and the file system and the editor are left
    as they were. *)
Theorem execute_edits_without_local_path ctx plan user_request w :
  local_path ctx = None ->
  exists r w',
    execute_edits ctx plan user_request w = (Ok r, w')
    /\ changes r = [] /\ warnings r = []
    /\ errors r = (no_path_error <$> sorted_instructions plan)
    /\ success r = false
    /\ w_fs w' = w_fs w /\ w_ai w' = w_ai w.
Proof.
  intros Hlp. eexists _, _. split; [apply execute_edits_run|].
  unfold final_state. rewrite (state_after_no_path _ _ _ _ Hlp). cbn.
  split_and!; try done.
Qed.

(** *** The summary *)

Definition applied_kinds : list string := ["modified"; "created"; "deleted"].

Lemma applied_kind_in kind applied :
  applied_kind kind = Some applied -> applied ∈ applied_kinds.
Proof.
  unfold applied_kind, applied_kinds.
  repeat case_match; intros [= <-]; apply list_elem_of_In; simpl; auto.
Qed.

Lemma count_kinds_total (cs : list FileChange) :
  Forall (fun c => fc_change_type c ∈ applied_kinds) cs ->
  count_kind "modified" cs + count_kind "created" cs + count_kind "deleted" cs
  = length cs.
Proof.
  unfold count_kind. induction 1 as [|c cs Hc _ IH]; [done|].
  rewrite !filter_cons. unfold applied_kinds in Hc.
  apply list_elem_of_In in Hc. simpl in Hc. destruct Hc as [Hc|[Hc|[Hc|[]]]].
  all: rewrite <- Hc; repeat case_decide; try done; simpl; lia.
Qed.

Lemma outcomes_kinds ctx user_request l s outs :
  length outs = length l ->
  (forall k i o, l !! k = Some i -> outs !! k = Some o ->
     outcome_of ctx user_request i (state_after ctx user_request (take k l) s) o) ->
  Forall (fun c => fc_change_type c ∈ applied_kinds) (concat (outcome_changes <$> outs)).
Proof.
  intros Hlen Houts. apply Forall_forall. intros c Hc.
  apply list_elem_of_In, in_concat in Hc as (cs & Hcs & Hc).
  apply list_elem_of_In, list_elem_of_fmap in Hcs as (o & -> & Ho).
  apply list_elem_of_lookup in Ho as [k Hk].
  destruct (lookup_lt_is_Some_2 l k) as [i Hi].
  { rewrite <- Hlen. by eapply lookup_lt_Some. }
  specialize (Houts k i o Hi Hk). destruct o; simpl in Hc; try done.
  destruct Hc as [<-|[]]. destruct Houts as (_ & Hkind & _).
  by eapply applied_kind_in.
Qed.

(** Every FileChange of a result is [modified], [created] or [deleted],
    so the three counts by kind of the summary add up to
    [successful_changes]; [failed_changes] and [warnings_count] are the
    lengths of [errors] and [warnings], and the three together never
    exceed [total_instructions]. *)
Theorem execute_edits_summary_counts ctx plan user_request w :
  exists r w',
    execute_edits ctx plan user_request w = (Ok r, w')
    /\ Forall (fun c => fc_change_type c ∈ applied_kinds) (changes r)
    /\ files_modified (summary r) + files_created (summary r)
       + files_deleted (summary r) = successful_changes (summary r)
    /\ successful_changes (summary r) = length (changes r)
    /\ failed_changes (summary r) = length (errors r)
    /\ warnings_count (summary r) = length (warnings r)
    /\ successful_changes (summary r) + failed_changes (summary r)
       + warnings_count (summary r) <= total_instructions (summary r).
Proof.
  destruct (for_each_outcomes ctx user_request (sorted_instructions plan)
              (initial_state plan w)) as (outs & _ & Hlen & Hc & He & Hw & Houts).
  pose proof (outcomes_kinds _ _ _ _ _ Hlen Houts) as Hkinds.
  eexists _, _. split; [apply execute_edits_run|]. cbn.
  fold (final_state ctx plan user_request w) in Hc, He, Hw.
  rewrite Hc, He, Hw. cbn. split_and!; try done.
  - by apply count_kinds_total.
  - rewrite <- (Permutation_length (py_sorted_perm priority (instructions plan))).
    fold (sorted_instructions plan). rewrite <- Hlen. apply outcomes_count.
Qed.

(** *** When the validator has nothing to say *)

Lemma flat_map_nil {A B} (f : A -> list B) (l : list A) :
  flat_map f l = [] <-> forall x, x ∈ l -> f x = [].
Proof.
  induction l as [|a l IH]; simpl.
  - split; [|done]. intros _ x Hx. by inversion Hx.
  - split.
    + intros [Ha Hl]%app_eq_nil x [->|Hx]%elem_of_cons; [done|]. by apply IH.
    + intros H. rewrite (H a) by (by left). apply IH. intros x Hx. apply H. by right.
Qed.

Lemma existsb_false {A} (f : A -> bool) (l : list A) :
  existsb f l = false <-> forall x, x ∈ l -> f x = false.
Proof.
  induction l as [|a l IH]; simpl.
  - split; [|done]. intros _ x Hx. by inversion Hx.
  - rewrite orb_false_iff, IH. split.
    + intros [Ha Hl] x [->|Hx]%elem_of_cons; auto.
    + intros H. split; [apply H; by left|]. intros x Hx. apply H. by right.
Qed.

Lemma instruction_warnings_nil i :
  instruction_warnings i = []
  <-> (forall pattern, pattern ∈ risky_patterns -> re_search pattern (file_path i) = false)
      /\ (change_type i = "delete" ->
          forall ext, ext ∈ important_extensions -> Py.endswith ext (file_path i) = false).
Proof.
  unfold instruction_warnings.
  split.
  - intros [Hrisky Hdelete]%app_eq_nil. split.
    + intros pattern Hp. rewrite flat_map_nil in Hrisky. specialize (Hrisky pattern Hp).
      by destruct (re_search pattern (file_path i)).
    + intros Hkind. rewrite Hkind in Hdelete. apply existsb_false.
      change ("delete" =? "delete")%string with true in Hdelete.
      by destruct (existsb _ _).
  - intros [Hrisky Hdelete]. apply app_nil. split.
    + apply flat_map_nil. intros pattern Hp. by rewrite (Hrisky pattern Hp).
    + destruct (String.eqb_spec (change_type i) "delete") as [Hkind|]; [|done].
      specialize (Hdelete Hkind). apply existsb_false in Hdelete. by rewrite Hdelete.
Qed.

(** The validator stays silent exactly on the plans of at most 20
    instructions none of which touches a denylisted path or deletes a file
    with a source-code extension ([.py], [.js], [.ts], [.java], [.cpp],
    [.c], [.go], [.rs]); for such a plan it changes nothing at all, and
    for every other plan it writes one WARNING record. *)
Theorem validator_silent_iff plan ctx w :
  (edit_plan_warnings plan = []
   <-> length (instructions plan) <= 20
       /\ forall i, i ∈ instructions plan ->
            (forall pattern, pattern ∈ risky_patterns ->
               Py.contains pattern (file_path i) = false)
            /\ (change_type i = "delete" ->
                forall ext, ext ∈ important_extensions ->
                  Py.endswith ext (file_path i) = false))
  /\ (edit_plan_warnings plan = [] -> _validate_edit_plan plan ctx w = (Ok tt, w))
  /\ (edit_plan_warnings plan <> [] ->
      _validate_edit_plan plan ctx w
      = (Ok tt, with_log w (w_log w ++ [validation_record plan]))).
Proof.
  split_and!.
  - unfold edit_plan_warnings. rewrite app_nil, flat_map_nil.
    setoid_rewrite instruction_warnings_nil.
    destruct (20 <? length (instructions plan)) eqn:E.
    + apply Nat.ltb_lt in E. split; [by intros [? _] | intros [? _]; lia].
    + apply Nat.ltb_ge in E. split; [by intros [_ ?] | by intros [_ ?]].
  - intros Hnil. by rewrite validate_edit_plan_run, Hnil.
  - intros Hne. rewrite validate_edit_plan_run.
    by destruct (edit_plan_warnings plan).
Qed.

(** *** A failed analysis *)



(** *** Cleanup and the cache *)

Lemma cleanup_frame ctx w :
  exists w1,
    cleanup ctx w = (Ok tt, w1)
    /\ context_cache w1 = context_cache w /\ w_objects w1 = w_objects w
    /\ w_ai w1 = w_ai w /\ w_net w1 = w_net w.
Proof.
  destruct w as [fs ai net log objs cache].
  unfold cleanup, try_except, bind, fs_get, fs_run, logger, ret, modify_state. cbn.
  repeat (step_match; cbn); eexists; (split; [reflexivity|done]).
Qed.

(** [cleanup] removes the working copy but leaves the cache alone: a
    context that was cached is still returned by [analyze_repository]
    after its directory has been cleaned up, without a new clone. *)
Theorem cleanup_keeps_cached_context ctx url w obj :
  context_cache w !! md5_hexdigest url = Some obj ->
  exists w1 w2,
    cleanup ctx w = (Ok tt, w1)
    /\ context_cache w1 = context_cache w
    /\ analyze_repository url w1 = (Ok obj, w2)
    /\ w_fs w2 = w_fs w1 /\ w_net w2 = w_net w /\ w_objects w2 = w_objects w.
Proof.
  intros Hhit. destruct (cleanup_frame ctx w) as (w1 & Hrun & Hcache & Hobjs & _ & Hnet).
  exists w1. eexists. split; [done|]. split; [done|].
  split; [apply analyze_repository_hit; by rewrite Hcache|]. by cbn.
Qed.

(** *** What a run leaves alone *)

(** The kinds of instruction that call the editor, and those that write
    to the file system. *)
Definition calls_editor (i : EditInstruction) : bool :=
  String.eqb (change_type i) "modify" || String.eqb (change_type i) "create".

Definition writes_files (i : EditInstruction) : bool :=
  calls_editor i || String.eqb (change_type i) "delete".

Lemma process_instruction_frame ctx user_request i s :
  let s' := state_after ctx user_request [i] s in
  w_net (st_world s') = w_net (st_world s)
  /\ w_objects (st_world s') = w_objects (st_world s)
  /\ context_cache (st_world s') = context_cache (st_world s)
  /\ (calls_editor i = false -> w_ai (st_world s') = w_ai (st_world s))
  /\ (writes_files i = false ->
      w_fs (st_world s') = w_fs (st_world s) /\ st_changes s' = st_changes s).
Proof.
  destruct s as [[fs ai net log objs cache] cs es ws].
  unfold state_after, for_each, writes_files, calls_editor, bind, ret. unfold_step. cbn.
  destruct (local_path ctx) as [lp|]; cbn; [|by rewrite ?app_nil_r].
  destruct (String.eqb (change_type i) "modify") eqn:Hm; cbn.
  { repeat (step_match; cbn); split_and!; done. }
  destruct (String.eqb (change_type i) "create") eqn:Hc; cbn.
  { repeat (step_match; cbn); split_and!; done. }
  destruct (String.eqb (change_type i) "delete") eqn:Hd; cbn.
  { repeat (step_match; cbn); split_and!; done. }
  destruct (String.eqb (change_type i) "rename"); cbn; by rewrite ?app_nil_r.
Qed.

Lemma state_after_frame ctx user_request l : forall s,
  let s' := state_after ctx user_request l s in
  w_net (st_world s') = w_net (st_world s)
  /\ w_objects (st_world s') = w_objects (st_world s)
  /\ context_cache (st_world s') = context_cache (st_world s)
  /\ (forallb (fun i => negb (calls_editor i)) l = true ->
      w_ai (st_world s') = w_ai (st_world s))
  /\ (forallb (fun i => negb (writes_files i)) l = true ->
      w_fs (st_world s') = w_fs (st_world s) /\ st_changes s' = st_changes s).
Proof.
  induction l as [|i l IH]; intros s; [by cbn|].
  cbn zeta. rewrite state_after_cons. cbn [forallb].
  destruct (IH (state_after ctx user_request [i] s)) as (Hn & Ho & Hc & Ha & Hf).
  destruct (process_instruction_frame ctx user_request i s) as (Hn1 & Ho1 & Hc1 & Ha1 & Hf1).
  rewrite Hn, Ho, Hc. split_and!; try done.
  - intros [Hi Hl]%andb_prop. apply negb_true_iff in Hi.
    by rewrite (Ha Hl), (Ha1 Hi).
  - intros [Hi Hl]%andb_prop. apply negb_true_iff in Hi.
    destruct (Hf Hl) as [-> ->]. by apply Hf1.
Qed.

Lemma forallb_sorted_instructions (p : EditInstruction -> bool) plan :
  forallb p (sorted_instructions plan) = forallb p (instructions plan).
Proof.
  apply eq_true_iff_eq. rewrite !forallb_forall.
  unfold sorted_instructions.
  split; intros H i Hi; apply H; apply list_elem_of_In; apply list_elem_of_In in Hi.
  - by rewrite py_sorted_perm.
  - by rewrite py_sorted_perm in Hi.
Qed.

(** [execute_edits] never touches the hosting service, the context
    objects or the cache. It calls the editor only for [modify] and
    [create] instructions: a plan without them leaves the editor as it
    was. It writes to the file system only for [modify], [create] and
    [delete] instructions: a plan without them leaves the file system as
    it was and gives no change, so [success] is false. *)
Theorem execute_edits_frame ctx plan user_request w :
  exists r w',
    execute_edits ctx plan user_request w = (Ok r, w')
    /\ w_net w' = w_net w /\ w_objects w' = w_objects w
    /\ context_cache w' = context_cache w
    /\ (forallb (fun i => negb (calls_editor i)) (instructions plan) = true ->
        w_ai w' = w_ai w)
    /\ (forallb (fun i => negb (writes_files i)) (instructions plan) = true ->
        w_fs w' = w_fs w /\ changes r = [] /\ success r = false).
Proof.
  eexists _, _. split; [apply execute_edits_run|]. cbn [success changes].
  unfold final_state.
  destruct (state_after_frame ctx user_request (sorted_instructions plan)
              (initial_state plan w)) as (Hn & Ho & Hc & Ha & Hf).
  rewrite !forallb_sorted_instructions in *.
  rewrite Hn, Ho, Hc. destruct w as [fs ai net log objs cache]. split_and!; try done.
  intros Hplan. destruct (Hf Hplan) as [-> ->]. by cbn.
Qed.

(** *** The scans of [analyze_repository] *)

(** A loop that carries a value from one iteration to the next. *)
Fixpoint fold_each {S A B} (l : list A) (acc : B) (body : B -> A -> M S B) : M S B :=
  match l with
  | [] => ret acc
  | x :: l' => bind (body acc x) (fun acc' => fold_each l' acc' body)
  end.

Section Scans.

(** [p.exists()] as pathlib has it: [False] when [stat] fails because the
    path is not there, and the [OSError] of [stat] raised again when it is
    another one (a name that is too long, for one). *)
Variable exists_checked : FS -> string -> Res bool.
(** [p.stat().st_size]. *)
Variable stat_size : FS -> string -> Res Z.
(** [config.file.max_file_size_bytes]. *)
Variable max_file_size_bytes : Z.
(** [str(file)] for the [file]s of [local_path.rglob('*')] that are
    files, in the order of the iteration. *)
Variable rglob_files : FS -> string -> Res (list string).

(** What is added to a content of more than 5000 characters. *)
Definition truncated_marker : string := String "010" "... [truncated]".

Definition limit_content (content : string) : string :=
  if (5000 <? Z.of_nat (String.length content))%Z
  then Py.slice_to 5000 content +:+ truncated_marker
  else content.

(** One iteration of the loop of [_extract_key_file_contents]. The test
    [full_path.exists()] is outside the [try]: what it raises leaves the
    loop and the method. *)
Definition extract_key_file (local_path : string) (key_contents : list (string * string))
    (file_path : string) : M World (list (string * string)) :=
  (let full_path := path_join local_path file_path in
   found <- fs_try (fun fs => exists_checked fs full_path) ;;
   if found then
     try_except
       ((* Read file with size limit *)
        file_size <- fs_try (fun fs => stat_size fs full_path) ;;
        if (max_file_size_bytes <? file_size)%Z then ret key_contents
        else
          content <- fs_try (fun fs => read_text fs full_path) ;;
          (* Limit content length *)
          ret (Py.dict_set key_contents file_path (limit_content content)))
       (fun e =>
          logger WARNING ("Failed to read file " +:+ file_path +:+ ": " +:+ e) ;;
          ret key_contents)
   else ret key_contents)%py.

(** [RepositoryManager._extract_key_file_contents]. *)
Definition _extract_key_file_contents (local_path : string)
    (important_files : list string) : M World (list (string * string)) :=
  fold_each (List.firstn 10 important_files) [] (extract_key_file local_path).

Definition ignore_dirs : list string :=
  [".git"; "__pycache__"; "node_modules"; ".venv"; "venv"; "env"].

(** Whether [_count_files] counts the file of path [file]. *)
Definition is_counted (file : string) : bool :=
  negb (existsb (fun ignore_dir => Py.contains ignore_dir file) ignore_dirs).

(** [RepositoryManager._count_files]. *)
Definition _count_files (local_path : string) (fs : FS) : Res nat :=
  match rglob_files fs local_path with
  | Ok files => Ok (length (List.filter is_counted files))
  | Raise e => Raise e
  end.

(** The key file that is stored for [file_path]. *)
Definition key_file_of (w : World) (local_path file_path content : string) : Prop :=
  exists_checked (w_fs w) (path_join local_path file_path) = Ok true
  /\ exists text,
       read_text (w_fs w) (path_join local_path file_path) = Ok text
       /\ content = limit_content text.

(** [exists()] returns for the file, with whatever answer. *)
Definition exists_returns (w : World) (local_path file_path : string) : Prop :=
  exists found, exists_checked (w_fs w) (path_join local_path file_path) = Ok found.

Lemma length_limit_content text :
  (Z.of_nat (String.length (limit_content text)) <= 5016)%Z.
Proof.
  unfold limit_content. destruct (5000 <? Z.of_nat (String.length text))%Z eqn:E.
  - rewrite PyFacts.length_append, Nat2Z.inj_add, PyFacts.length_slice_to.
    cbn [Z.ltb Z.compare]. change (Z.of_nat (String.length truncated_marker)) with 16%Z.
    lia.
  - apply Z.ltb_ge in E. lia.
Qed.

Lemma dict_set_elem {V} (d : list (string * V)) key v k v' :
  (k, v') ∈ Py.dict_set d key v -> (k, v') ∈ d \/ (k = key /\ v' = v).
Proof.
  induction d as [|[k0 v0] d IH]; cbn.
  - intros H%list_elem_of_In. cbn in H. destruct H as [[= <- <-]|[]]. by right.
  - destruct (String.eqb k0 key) eqn:E.
    + apply String.eqb_eq in E. subst k0.
      intros [[= -> ->]|H]%elem_of_cons; [by right|]. left. by apply elem_of_cons; right.
    + intros [[= -> ->]|H]%elem_of_cons; [left; by apply elem_of_cons; left|].
      destruct (IH H) as [?|?]; [left; by apply elem_of_cons; right|by right].
Qed.

Lemma length_dict_set {V} (d : list (string * V)) key v :
  length (Py.dict_set d key v) <= S (length d).
Proof.
  induction d as [|[k0 v0] d IH]; cbn; [lia|].
  destruct (String.eqb k0 key); cbn; lia.
Qed.

Definition is_warning (r : LogRecord) : Prop := level r = WARNING.

Lemma extract_key_file_step local_path d file_path w :
  match exists_checked (w_fs w) (path_join local_path file_path) with
  | Raise e => extract_key_file local_path d file_path w = (Raise e, w)
  | Ok _ =>
      exists d' log',
        extract_key_file local_path d file_path w = (Ok d', with_log w (w_log w ++ log'))
        /\ (d' = d
            \/ exists content,
                 key_file_of w local_path file_path content
                 /\ d' = Py.dict_set d file_path content)
        /\ Forall is_warning log'
  end.
Proof.
  destruct w as [fs ai net log objs cache].
  unfold extract_key_file, key_file_of, try_except, bind, ret, fs_get, fs_try, logger,
    modify_state, with_log. cbn.
  destruct (exists_checked fs (path_join local_path file_path)) as [[]|e] eqn:Hfound;
    cbn; [| |done].
  2: { exists d, []. rewrite app_nil_r. split_and!; [done|by left|constructor]. }
  destruct (stat_size fs (path_join local_path file_path)) as [size|e]; cbn.
  2: { exists d, [mkLog WARNING ("Failed to read file " +:+ file_path +:+ ": " +:+ e)].
       split_and!; [done|by left|by repeat constructor]. }
  destruct (max_file_size_bytes <? size)%Z; cbn.
  { exists d, []. rewrite app_nil_r. split_and!; [done|by left|constructor]. }
  destruct (read_text fs (path_join local_path file_path)) as [text|e] eqn:Hread; cbn.
  - eexists _, []. rewrite app_nil_r. split_and!; [done| |constructor].
    right. eexists. split; [|done]. split; [done|]. by exists text.
  - exists d, [mkLog WARNING ("Failed to read file " +:+ file_path +:+ ": " +:+ e)].
    split_and!; [done|by left|by repeat constructor].
Qed.

(** The loop either goes through the whole list, or leaves it at the
    first file for which [exists()] raises. *)
Lemma extract_key_files_run local_path l : forall d w,
  exists log',
    Forall is_warning log'
    /\ ((exists d',
           fold_each l d (extract_key_file local_path) w
           = (Ok d', with_log w (w_log w ++ log'))
           /\ Forall (exists_returns w local_path) l
           /\ length d' <= length d + length l
           /\ (forall k v, (k, v) ∈ d' ->
                 (k, v) ∈ d \/ (k ∈ l /\ key_file_of w local_path k v)))
        \/ (exists before file_path after e,
              fold_each l d (extract_key_file local_path) w
              = (Raise e, with_log w (w_log w ++ log'))
              /\ l = before ++ file_path :: after
              /\ Forall (exists_returns w local_path) before
              /\ exists_checked (w_fs w) (path_join local_path file_path) = Raise e)).
Proof.
  induction l as [|x l IH]; intros d w.
  - exists []. split; [constructor|]. left. exists d. cbn.
    unfold ret, with_log. rewrite app_nil_r. destruct w.
    split_and!; [done|constructor|lia|by left].
  - cbn [fold_each]. unfold bind.
    pose proof (extract_key_file_step local_path d x w) as Hstep.
    destruct (exists_checked (w_fs w) (path_join local_path x)) as [found|e] eqn:Hx.
    2: { exists []. split; [constructor|]. right. exists [], x, l, e.
         rewrite Hstep. unfold with_log. rewrite app_nil_r. destruct w.
         split_and!; [done|done|constructor|done]. }
    destruct Hstep as (d1 & log1 & -> & Hd1 & Hlog1).
    assert (exists_returns w local_path x) as Hret by (by exists found).
    destruct (IH d1 (with_log w (w_log w ++ log1)))
      as (log2 & Hlog2 & [(d2 & -> & Hall & Hlen & Hin)
                         |(before & y & after & e & -> & -> & Hall & Hy)]).
    + exists (log1 ++ log2). split; [by apply Forall_app|]. left. exists d2.
      unfold with_log. cbn. rewrite app_assoc.
      split_and!; [done|by constructor| |].
      * cbn [length]. destruct Hd1 as [->|(content & _ & ->)]; [lia|].
        pose proof (length_dict_set d x content). lia.
      * intros k v Hkv. destruct (Hin k v Hkv) as [Hk|[Hk Hfile]].
        -- destruct Hd1 as [->|(content & Hfile & ->)]; [by left|].
           destruct (dict_set_elem _ _ _ _ _ Hk) as [?|[-> ->]]; [by left|].
           right. split; [by apply elem_of_cons; left|done].
        -- right. split; [by apply elem_of_cons; right|]. exact Hfile.
    + exists (log1 ++ log2). split; [by apply Forall_app|]. right.
      exists (x :: before), y, after, e.
      unfold with_log. cbn. rewrite app_assoc.
      split_and!; [done|done|by constructor|done].
Qed.

(** [_extract_key_file_contents] returns unless [exists()] raises for one
    of the first ten important files; the call then raises that error at
    the first such file, [exists()] having returned for the files before
    it. When it returns, [exists()] returned for each of the ten, and it
    gives at most ten entries, each for one of the first ten important
    files that exists, each holding the file's text cut to 5000
    characters plus the marker, so at most 5016 characters. Either way it
    changes nothing but the log, where each file that could not be read
    has left a WARNING record. *)
Theorem extract_key_file_contents_bounds local_path important_files w :
  exists log',
    Forall is_warning log'
    /\ ((exists key_contents,
           _extract_key_file_contents local_path important_files w
           = (Ok key_contents, with_log w (w_log w ++ log'))
           /\ Forall (exists_returns w local_path) (List.firstn 10 important_files)
           /\ length key_contents <= 10
           /\ (forall file_path content, (file_path, content) ∈ key_contents ->
                 file_path ∈ List.firstn 10 important_files
                 /\ key_file_of w local_path file_path content
                 /\ (Z.of_nat (String.length content) <= 5016)%Z))
        \/ (exists before file_path after e,
              _extract_key_file_contents local_path important_files w
              = (Raise e, with_log w (w_log w ++ log'))
              /\ List.firstn 10 important_files = before ++ file_path :: after
              /\ Forall (exists_returns w local_path) before
              /\ exists_checked (w_fs w) (path_join local_path file_path) = Raise e)).
Proof.
  unfold _extract_key_file_contents.
  destruct (extract_key_files_run local_path (List.firstn 10 important_files) [] w)
    as (log' & Hlog & [(d & Hrun & Hall & Hlen & Hin)|Hraise]).
  2: { exists log'. split; [done|]. by right. }
  exists log'. split; [done|]. left. exists d. split_and!; [done|done| |].
  - cbn [length] in Hlen. pose proof (List.firstn_le_length 10 important_files). lia.
  - intros k v Hkv. destruct (Hin k v Hkv) as [Hnil|[Hk Hfile]]; [by apply elem_of_nil in Hnil|].
    split_and!; [done|done|]. destruct Hfile as (_ & text & _ & ->).
    apply length_limit_content.
Qed.

Lemma contains_env_suffix p s :
  Py.contains (p +:+ "env") s = true -> Py.contains "env" s = true.
Proof.
  induction s as [|c s IH]; [by destruct p|]. cbn [Py.contains].
  intros [H|H]%orb_prop; [|rewrite (IH H); apply orb_true_r].
  clear IH. revert c s H. induction p as [|x p IHp]; intros c s H.
  - rewrite GitHubClient.append_nil in H. cbn [Py.contains]. by rewrite H.
  - rewrite GitHubClient.append_cons in H. cbn [Py.startswith] in H.
    apply andb_prop in H as [_ H]. destruct s as [|d s]; [by destruct p|].
    apply orb_true_intro. right. cbn [Py.contains].
    specialize (IHp d s H). cbn [Py.contains] in IHp. exact IHp.
Qed.

(** [_count_files] ignores by substring, not by directory name. A file is
    counted exactly when its path contains none of [.git], [__pycache__],
    [node_modules] and [env] anywhere, so the entries [.venv] and [venv]
    add nothing and a file such as [src/environment.py] is left out. The
    count is at most the number of files, and it is 0 when the path of
    the working copy itself contains one of the names. *)
Theorem count_files_substring_match local_path fs files :
  rglob_files fs local_path = Ok files ->
  (forall file,
     is_counted file
     = negb (Py.contains ".git" file || Py.contains "__pycache__" file
             || Py.contains "node_modules" file || Py.contains "env" file))
  /\ exists n,
       _count_files local_path fs = Ok n
       /\ n <= length files
       /\ n = length (List.filter is_counted files)
       /\ ((exists ignore_dir, ignore_dir ∈ ignore_dirs
                               /\ Py.contains ignore_dir local_path = true) ->
           (forall file, file ∈ files -> exists rest, file = local_path +:+ rest) ->
           n = 0).
Proof.
  intros Hfiles.
  assert (forall file,
            is_counted file
            = negb (Py.contains ".git" file || Py.contains "__pycache__" file
                    || Py.contains "node_modules" file || Py.contains "env" file))
    as Hcounted.
  { intros file. unfold is_counted, ignore_dirs. cbn [existsb]. f_equal.
    rewrite orb_false_r.
    destruct (Py.contains ".git" file), (Py.contains "__pycache__" file),
      (Py.contains "node_modules" file); cbn [orb]; try reflexivity.
    destruct (Py.contains "env" file) eqn:Henv; [by rewrite !orb_true_r|].
    rewrite !orb_false_r.
    destruct (Py.contains ".venv" file) eqn:H1.
    { apply (contains_env_suffix ".v") in H1. congruence. }
    destruct (Py.contains "venv" file) eqn:H2; [|reflexivity].
    apply (contains_env_suffix "v") in H2. congruence. }
  split; [exact Hcounted|].
  unfold _count_files. rewrite Hfiles. eexists. split; [reflexivity|].
  split; [apply List.filter_length_le|]. split; [reflexivity|].
  intros (ignore_dir & Hin & Hpath) Hunder.
  assert (List.filter is_counted files = []) as ->; [|reflexivity].
  clear Hfiles. induction files as [|file files IH]; [reflexivity|]. cbn [List.filter].
  destruct (Hunder file ltac:(by apply elem_of_cons; left)) as [rest ->].
  assert (is_counted (local_path +:+ rest) = false) as ->.
  { unfold is_counted. apply negb_false_iff, existsb_exists.
    exists ignore_dir. split; [by apply list_elem_of_In|].
    by apply PyFacts.contains_app_l. }
  apply IH. intros f Hf. apply Hunder. by apply elem_of_cons; right.
Qed.

End Scans.

(** *** [generate_branch_name] *)

(** The characters that the pattern [[^a-zA-Z0-9\s-]] leaves in place. *)
Definition is_request_char (c : ascii) : bool :=
  let n := nat_of_ascii c in
  ((97 <=? n) && (n <=? 122) || (65 <=? n) && (n <=? 90) || (48 <=? n) && (n <=? 57))%nat
  || Py.is_space c || Ascii.eqb c "-".

(** [RepositoryManager.generate_branch_name], with the text of
    [datetime.now().strftime("%Y%m%d-%H%M%S")]. *)
Definition generate_branch_name (timestamp user_request : string) : string :=
  (* Clean the request *)
  let clean_request := Py.filter_chars is_request_char user_request in
  let clean_request := Py.lower (Py.strip_ws clean_request) in
  (* Take first few words *)
  let words := List.firstn 4 (Py.split_ws clean_request) in
  (* Join with hyphens and truncate *)
  let branch_name := "ai-edit-" +:+ Py.join "-" words in
  let branch_name := Py.slice_to 50 branch_name in
  (* Add timestamp for uniqueness *)
  branch_name +:+ "-" +:+ timestamp.

(** The characters of a generated branch name before its time stamp:
    lower-case letters, digits and the hyphen. *)
Definition is_branch_char (c : ascii) : bool :=
  let n := nat_of_ascii c in
  ((97 <=? n) && (n <=? 122) || (48 <=? n) && (n <=? 57))%nat || Ascii.eqb c "-".

Lemma filter_chars_all p s : Py.all_chars p (Py.filter_chars p s) = true.
Proof.
  induction s as [|c s IH]; [reflexivity|]. cbn.
  destruct (p c) eqn:E; [|exact IH]. cbn. by rewrite E, IH.
Qed.

Lemma lstrip_ws_all p s :
  Py.all_chars p s = true -> Py.all_chars p (Py.lstrip_ws s) = true.
Proof.
  induction s as [|c s IH]; [done|]. cbn [Py.lstrip_ws].
  destruct (Py.is_space c); [|done]. cbn. intros [_ H]%andb_prop. by apply IH.
Qed.

Lemma rstrip_ws_all p s :
  Py.all_chars p s = true -> Py.all_chars p (Py.rstrip_ws s) = true.
Proof.
  induction s as [|c s IH]; [done|]. cbn [Py.rstrip_ws Py.all_chars].
  intros [Hc Hs]%andb_prop. specialize (IH Hs).
  destruct (Py.rstrip_ws s) as [|d r].
  - destruct (Py.is_space c); [done|]. cbn. by rewrite Hc.
  - cbn [Py.all_chars] in IH |- *. by rewrite Hc, IH.
Qed.

Lemma lower_all (p q : ascii -> bool) s :
  (forall c, p c = true -> q (Py.lower_char c) = true) ->
  Py.all_chars p s = true -> Py.all_chars q (Py.lower s) = true.
Proof.
  intros Hpq. induction s as [|c s IH]; [done|]. cbn.
  intros [Hc Hs]%andb_prop. fold (Py.lower s). by rewrite (Hpq c Hc), (IH Hs).
Qed.

Lemma lower_request_char c :
  is_request_char c = true ->
  is_branch_char (Py.lower_char c) || Py.is_space (Py.lower_char c) = true.
Proof.
  destruct c as [[] [] [] [] [] [] [] []]; vm_compute; intros H;
    first [reflexivity|discriminate H].
Qed.

Lemma split_ws_all (p : ascii -> bool) s :
  Py.all_chars (fun c => p c || Py.is_space c) s = true ->
  Forall (fun w => Py.all_chars p w = true) (Py.split_ws s).
Proof.
  induction s as [|c s IH]; [constructor|]. cbn [Py.all_chars Py.split_ws].
  intros [Hc Hs]%andb_prop. specialize (IH Hs).
  destruct (Py.is_space c) eqn:Hsp; [exact IH|].
  rewrite orb_false_r in Hc.
  destruct s as [|d s]; [repeat constructor; cbn; by rewrite Hc|].
  destruct (Py.is_space d).
  - constructor; [cbn; by rewrite Hc|exact IH].
  - destruct (Py.split_ws (String d s)) as [|w ws].
    + repeat constructor. cbn. by rewrite Hc.
    + inversion IH as [|? ? Hw Hws]; subst. constructor; [|done].
      cbn. by rewrite Hc, Hw.
Qed.

Lemma join_all (p : ascii -> bool) sep l :
  Py.all_chars p sep = true ->
  Forall (fun w => Py.all_chars p w = true) l ->
  Py.all_chars p (Py.join sep l) = true.
Proof.
  intros Hsep. induction 1 as [|w l Hw Hl IH]; [reflexivity|].
  unfold Py.join in *. cbn [String.concat]. destruct l as [|w' l]; [done|].
  by rewrite !PyFacts.all_chars_append, Hw, Hsep, IH.
Qed.

Lemma startswith_take p n s :
  String.length p <= n -> Py.startswith p s = true ->
  Py.startswith p (Py.take n s) = true.
Proof.
  revert n s. induction p as [|x p IH]; intros n s Hn; [by destruct (Py.take n s)|].
  destruct s as [|y s]; [done|]. destruct n as [|n]; [cbn in Hn; lia|].
  cbn [Py.take Py.startswith]. intros [-> H]%andb_prop. cbn.
  apply IH; [cbn in Hn; lia|done].
Qed.

(** A generated branch name is a base, a hyphen and the time stamp. The
    base starts with [ai-edit-], has at most 50 characters and consists
    of lower-case letters, digits and hyphens only, whatever the request
    is (characters are code points below 256). *)
Theorem generate_branch_name_shape timestamp user_request :
  exists base,
    generate_branch_name timestamp user_request = base +:+ "-" +:+ timestamp
    /\ Py.startswith "ai-edit-" base = true
    /\ String.length base <= 50
    /\ Py.all_chars is_branch_char base = true.
Proof.
  eexists. split; [reflexivity|].
  set (words := List.firstn 4 _).
  assert (Forall (fun w => Py.all_chars is_branch_char w = true) words) as Hwords.
  { subst words. apply Forall_take. apply split_ws_all.
    apply (lower_all is_request_char); [apply lower_request_char|].
    unfold Py.strip_ws. apply rstrip_ws_all, lstrip_ws_all, filter_chars_all. }
  unfold Py.slice_to, Py.slice_index. cbn [Z.ltb Z.compare Z.to_nat Pos.to_nat].
  split_and!.
  - apply startswith_take; [cbn; lia|apply startswith_app].
  - rewrite PyFacts.length_take. lia.
  - apply PyFacts.all_chars_take. rewrite PyFacts.all_chars_append.
    by rewrite (join_all is_branch_char "-" words eq_refl Hwords).
Qed.

End Manager.

(** *** Executable stand-ins for the collaborators

    An in-memory file system, a scripted AI editor and a hosting service
    that always answers, on which the functions above can be run. *)

Record MemFS : Type := mkMemFS {
  files : gmap string string;      (* regular files, by path *)
  dirs : gset string;              (* directories *)
  read_only : bool                 (* mounted read-only *)
}.

Definition under (dir path : string) : bool :=
  Py.startswith (dir +:+ "/") path.

Definition mem_exists (fs : MemFS) (p : string) : bool :=
  bool_decide (is_Some (files fs !! p)) || bool_decide (p ∈ dirs fs).

Definition mem_read (fs : MemFS) (p : string) : Res string :=
  match files fs !! p with
  | Some content => Ok content
  | None => Raise ("[Errno 2] No such file or directory: '" +:+ p +:+ "'")
  end.

Definition read_only_error (p : string) : string :=
  "[Errno 30] Read-only file system: '" +:+ p +:+ "'".

Definition mem_write (fs : MemFS) (p content : string) : Res unit * MemFS :=
  if read_only fs then (Raise (read_only_error p), fs)
  else (Ok tt, mkMemFS (<[p := content]> (files fs)) (dirs fs) false).

Definition mem_mkdir (fs : MemFS) (p : string) : Res unit * MemFS :=
  if read_only fs then (Raise (read_only_error p), fs)
  else (Ok tt, mkMemFS (files fs) ({[p]} ∪ dirs fs) false).

Definition mem_unlink (fs : MemFS) (p : string) : Res unit * MemFS :=
  if read_only fs then (Raise (read_only_error p), fs)
  else match files fs !! p with
       | Some _ => (Ok tt, mkMemFS (delete p (files fs)) (dirs fs) false)
       | None => (Raise ("[Errno 2] No such file or directory: '" +:+ p +:+ "'"), fs)
       end.

Definition mem_rmtree (fs : MemFS) (p : string) : Res unit * MemFS :=
  if read_only fs then (Raise (read_only_error p), fs)
  else if bool_decide (p ∈ dirs fs) then
    (Ok tt,
     mkMemFS (filter (fun kv => under p kv.1 = false) (files fs))
             (filter (fun d => d <> p /\ under p d = false) (dirs fs)) false)
  else (Raise ("[Errno 2] No such file or directory: '" +:+ p +:+ "'"), fs).

Definition mem_mkdtemp (fs : MemFS) (prefix dir : string) : Res string * MemFS :=
  let name := dir +:+ "/" +:+ prefix +:+ Py.str_of_nat (size (dirs fs)) in
  if read_only fs then (Raise (read_only_error name), fs)
  else (Ok name, mkMemFS (files fs) ({[name]} ∪ dirs fs) false).

#[export] Instance MemFS_FileSystem : FileSystem MemFS := {|
  path_exists := mem_exists;
  read_text := mem_read;
  write_text := mem_write;
  mkdir_parents := mem_mkdir;
  unlink := mem_unlink;
  rmtree := mem_rmtree;
  mkdtemp := mem_mkdtemp
|}.

(** A scripted editor: [edit_file] answers with the next scripted reply,
    [validate_edit] runs the syntax validation of the code analyzer on the
    new content, [generate_edit_plan] returns the scripted plan. *)
Record ScriptedAI : Type := mkScriptedAI {
  replies : list (Res string);
  scripted_plan : Res EditPlan
}.

Definition scripted_edit_file (ai : ScriptedAI)
    (file_content file_path language instruction : string) (context : option Json)
  : Res string * ScriptedAI :=
  match replies ai with
  | [] => (Raise "Connection error.", ai)
  | r :: rest => (r, mkScriptedAI rest (scripted_plan ai))
  end.

Definition scripted_validate_edit (ai : ScriptedAI)
    (original new_content file_path language : string)
  : Res (bool * list string) * ScriptedAI :=
  match CodeAnalyzer.validate_syntax (CodeAnalyzer.cpython_parse 11)
          (fun _ => CodeAnalyzer.JsonValue) (fun _ => CodeAnalyzer.YamlDocument)
          new_content language with
  | Ok (is_valid, None) => (Ok (is_valid, []), ai)
  | Ok (is_valid, Some error) => (Ok (is_valid, [error]), ai)
  | Raise e => (Raise e, ai)
  end.

Definition scripted_review_changes (ai : ScriptedAI)
    (original modified file_path language : string) : Res Json * ScriptedAI :=
  if String.eqb original modified
  then (Ok (JDict [("status", JStr "unchanged"); ("issues", JList [])]), ai)
  else (Ok (JDict [("status", JStr "reviewed"); ("issues", JList [])]), ai).

Definition scripted_explain_changes (ai : ScriptedAI)
    (original modified file_path language user_request : string)
  : Res string * ScriptedAI :=
  if String.eqb original modified
  then (Ok "No changes were made to this file.", ai)
  else (Ok ("Changes were made to " +:+ file_path), ai).

#[export] Instance ScriptedAI_AIEditor : AIEditor ScriptedAI := {|
  edit_file := scripted_edit_file;
  validate_edit := scripted_validate_edit;
  review_changes := scripted_review_changes;
  explain_changes := scripted_explain_changes;
  generate_edit_plan := fun ai _ _ => (scripted_plan ai, ai)
|}.

(** A hosting service that counts its calls; a clone creates the working
    copy with one file. *)
Definition demo_info (owner repo : string) : RepositoryInfo :=
  mkRepositoryInfo owner repo (owner +:+ "/" +:+ repo) None "main" false false.

#[export] Instance Counting_GitHost : GitHost nat MemFS := {|
  get_repository_info := fun calls owner repo => (Ok (demo_info owner repo), S calls);
  clone_from := fun calls fs url path =>
    if read_only fs then (Raise (read_only_error path), (S calls, fs))
    else (Ok tt,
          (S calls,
           mkMemFS (<[path +:+ "/README.md" := "# demo"]> (files fs))
                   ({[path]} ∪ dirs fs) false))
|}.

#[export] Instance MemFS_Scanner : Scanner MemFS := {|
  analyze_repository_structure := fun fs path => Ok (JDict []);
  identify_important_files := fun fs path => Ok ["README.md"];
  extract_key_file_contents := fun fs path names => Ok [("README.md", "# demo")];
  detect_languages := fun fs path => Ok ["markdown"];
  count_files := fun fs path => Ok 1
|}.

Definition demo_detect_language (filename : string) (content : option string) : string :=
  if Py.endswith ".py" filename then "python"
  else if Py.endswith ".json" filename then "json"
  else if Py.endswith ".md" filename then "markdown"
  else "unknown".

(** [a / b] of pathlib for a normalised [a]: an absolute [b] replaces
    [a]. *)
Definition demo_path_join (a b : string) : string :=
  if Py.startswith "/" b then b else a +:+ "/" +:+ b.

Fixpoint demo_path_parent (p : string) : string :=
  match p with
  | EmptyString => EmptyString
  | String c p' => if Py.char_in "/" p' then String c (demo_path_parent p') else EmptyString
  end.

(** The double quote, as a character and as a text. *)
Definition dquote_char : ascii := Ascii.ascii_of_nat 34.
Definition dquote : string := String dquote_char EmptyString.

Fixpoint demo_escape (quote : ascii) (x : string) : string :=
  match x with
  | EmptyString => EmptyString
  | String c x' =>
      (if Ascii.eqb c "\" || Ascii.eqb c quote then String "\" (String c EmptyString)
       else if Ascii.eqb c "010" then "\n"
       else if Ascii.eqb c "013" then "\r"
       else if Ascii.eqb c "009" then "\t"
       else String c EmptyString)
      +:+ demo_escape quote x'
  end.

(** [repr(x)] for a text of printable ASCII characters, tabs and line
    ends: between single quotes, or between double quotes when the text
    has a single quote and no double quote; the backslash and the quote in
    use are escaped. *)
Definition demo_repr (x : string) : string :=
  if Py.char_in "'" x && negb (Py.char_in dquote_char x)
  then dquote +:+ demo_escape dquote_char x +:+ dquote
  else "'" +:+ demo_escape "'" x +:+ "'".

(** [str(l)] for a list of texts. *)
Definition demo_format_list (l : list string) : string :=
  "[" +:+ String.concat ", " (demo_repr <$> l) +:+ "]".

Definition demo_md5 (s : string) : string := "md5:" +:+ s.

Abbreviation DemoWorld := (@World MemFS ScriptedAI nat).

(** *** The pipeline on a one-file repository *)

Definition demo_ctx : RepositoryContext :=
  {| repo_url := "https://github.com/owner/repo";
     owner := "owner";
     repo_name := "repo";
     repo_info := Some (demo_info "owner" "repo");
     local_path := Some "temp/repos/github_ai_0/repo";
     temp_dir := Some "temp/repos/github_ai_0";
     structure := JDict [];
     important_files := ["app.py"];
     key_files_content := [("app.py", "def test(): pass")];
     languages := ["python"];
     file_count := 1;
     default_branch := "main" |}.

Definition demo_fs : MemFS :=
  {| files := {[ "temp/repos/github_ai_0/repo/app.py" := "def test(): pass" ]};
     dirs := {[ "temp/repos/github_ai_0"; "temp/repos/github_ai_0/repo" ]};
     read_only := false |}.

Definition demo_modify : EditInstruction :=
  {| file_path := "app.py";
     change_type := "modify";
     description := "Add docstrings to all functions";
     context := None;
     priority := 1 |}.

Definition demo_plan (l : list EditInstruction) : EditPlan :=
  {| instructions := l;
     dependencies := [];
     risks := [];
     estimated_time := "quick";
     confidence := QArith_base.Qmake 4 5 |}.

(** A world in which the editor answers with the given replies. *)
Definition demo_world (fs : MemFS) (answers : list (Res string)) : DemoWorld :=
  {| w_fs := fs;
     w_ai := mkScriptedAI answers (Raise "no plan");
     w_net := 0;
     w_log := [];
     w_objects := [];
     context_cache := ∅ |}.

Definition demo_state (answers : list (Res string)) : ExecState :=
  mkExecState (demo_world demo_fs answers) [] [] [].

Definition demo_step (answers : list (Res string)) : ExecState :=
  state_after demo_detect_language demo_path_join demo_path_parent demo_format_list
    demo_ctx "Add docstrings to all functions" [demo_modify] (demo_state answers).

Lemma process_instruction_modify_witness :
  st_changes (demo_step [Ok CodeAnalyzer.valid_python])
  = [{| fc_file_path := "app.py";
        fc_original_content := "def test(): pass";
        fc_new_content := CodeAnalyzer.valid_python;
        fc_change_type := "modified";
        fc_language := "python";
        fc_validation_result := {| valid := true; vr_warnings := [] |};
        fc_review_result :=
          Some (JDict [("status", JStr "reviewed"); ("issues", JList [])]);
        fc_explanation := Some "Changes were made to app.py" |}]
  /\ files (w_fs (st_world (demo_step [Ok CodeAnalyzer.valid_python])))
       !! "temp/repos/github_ai_0/repo/app.py" = Some CodeAnalyzer.valid_python
  /\ st_errors (demo_step [Ok CodeAnalyzer.valid_python]) = [].
Proof.
  edestruct (process_instruction_modify demo_detect_language demo_path_join
               demo_path_parent demo_format_list demo_ctx
               "Add docstrings to all functions" demo_modify
               (demo_state [Ok CodeAnalyzer.valid_python]))
    as (_ & Hvalid & _); [reflexivity..|].
  destruct (Hvalid eq_refl _ eq_refl) as (Hfs & Hchanges & Herrors & _).
  fold (demo_step [Ok CodeAnalyzer.valid_python]) in Hfs, Hchanges, Herrors.
  rewrite Hfs, Hchanges, Herrors. split_and!; reflexivity.
Defined.

(** The same instruction when the editor answers with content that does
    not parse: nothing is written, no FileChange, one error. *)
Example process_instruction_refused :
  st_changes (demo_step [Ok CodeAnalyzer.invalid_python]) = []
  /\ st_errors (demo_step [Ok CodeAnalyzer.invalid_python])
     = ["Validation failed for app.py: [" +:+ dquote
        +:+ "Syntax error at line 1: expected ':'" +:+ dquote +:+ "]"]
  /\ w_fs (st_world (demo_step [Ok CodeAnalyzer.invalid_python])) = demo_fs.
Proof. vm_compute. split_and!; reflexivity. Qed.

Definition demo_execute (l : list EditInstruction) (answers : list (Res string))
  : Res EditResult * DemoWorld :=
  execute_edits demo_detect_language demo_path_join demo_path_parent demo_format_list
    "2024-01-01T00:00:00" demo_ctx (demo_plan l) "Add docstrings to all functions"
    (demo_world demo_fs answers).

(** End to end: a plan with one [modify] instruction on the one file of
    the repository gives exactly one [modified] FileChange, whose content
    differs from the original and whose validation is valid. *)
Example execute_edits_one_modify :
  exists r w',
    demo_execute [demo_modify] [Ok CodeAnalyzer.valid_python] = (Ok r, w')
    /\ success r = true
    /\ (fc_change_type <$> changes r) = ["modified"]
    /\ (valid ∘ fc_validation_result <$> changes r) = [true]
    /\ (fc_new_content <$> changes r) <> (fc_original_content <$> changes r)
    /\ errors r = [] /\ warnings r = [].
Proof. eexists _, _. split; [vm_compute; reflexivity|]. cbn. split_and!; done. Qed.

Definition demo_create (path : string) (p : Z) : EditInstruction :=
  {| file_path := path; change_type := "create"; description := "Add a module";
     context := None; priority := p |}.

(** A plan with priorities 3, 1, 2 is processed in the order 1, 2, 3. *)
Example execute_edits_three_priorities :
  message <$> processing_log
    (demo_execute [demo_create "c.py" 3; demo_create "a.py" 1; demo_create "b.py" 2]
       [Ok "x = 1"; Ok "y = 2"; Ok "z = 3"]).2
  = ["Processing create on a.py"; "Processing create on b.py";
     "Processing create on c.py"].
Proof. vm_compute. reflexivity. Qed.

(** An instruction on a path under [.git/] is flagged, and executed all
    the same. *)
Example risky_path_is_flagged :
  edit_plan_warnings (demo_plan [demo_create ".git/config" 1])
  = ["Risky file path: .git/config"]
  /\ exists r w',
       demo_execute [demo_create ".git/config" 1] [Ok "[core]"] = (Ok r, w')
       /\ (fc_file_path <$> changes r) = [".git/config"].
Proof.
  split; [vm_compute; reflexivity|].
  eexists _, _. split; [vm_compute; reflexivity|]. reflexivity.
Qed.

Definition demo_analyze (url : string) : M DemoWorld nat :=
  analyze_repository demo_path_join demo_format_list demo_md5
    GitHubClient.urlparse_path_model "token" url.

Definition empty_fs : MemFS := {| files := ∅; dirs := ∅; read_only := false |}.

Lemma analyze_repository_cached_witness :
  let w1 := (demo_analyze "https://github.com/owner/repo" (demo_world empty_fs [])).2 in
  demo_analyze "https://github.com/owner/repo" (demo_world empty_fs []) = (Ok 0, w1)
  /\ w_net w1 = 2
  /\ (demo_analyze "https://github.com/owner/repo" w1).1 = Ok 0
  /\ w_net (demo_analyze "https://github.com/owner/repo" w1).2 = 2
  /\ w_fs (demo_analyze "https://github.com/owner/repo" w1).2 = w_fs w1
  /\ w_objects (demo_analyze "https://github.com/owner/repo" w1).2 = w_objects w1.
Proof.
  intros w1.
  assert (demo_analyze "https://github.com/owner/repo" (demo_world empty_fs [])
          = (Ok 0, w1)) as Hfirst by (vm_compute; reflexivity).
  destruct (analyze_repository_cached demo_path_join demo_format_list demo_md5
              GitHubClient.urlparse_path_model "token" _ _ _ _ Hfirst) as [_ Hsecond].
  fold (demo_analyze "https://github.com/owner/repo") in Hsecond.
  rewrite Hsecond. split; [exact Hfirst|]. split_and!; try reflexivity.
  all: vm_compute; reflexivity.
Defined.

Definition demo_cleanup : M DemoWorld unit := cleanup demo_ctx.



(** On a writable file system the directory is removed by the first call
    and the second call does nothing. *)
Example cleanup_twice_same :
  cleanup_twice demo_ctx (demo_world demo_fs []) = demo_cleanup (demo_world demo_fs [])
  /\ mem_exists (w_fs (demo_cleanup (demo_world demo_fs [])).2) "temp/repos/github_ai_0"
     = false.
Proof. split; vm_compute; reflexivity. Qed.

(** The three-instruction plan, through the theorem on the order. *)
Lemma execute_edits_priority_order_witness :
  sorted_instructions
    (demo_plan [demo_create "c.py" 3; demo_create "a.py" 1; demo_create "b.py" 2])
  = [demo_create "a.py" 1; demo_create "b.py" 2; demo_create "c.py" 3]
  /\ processing_log
       (demo_execute [demo_create "c.py" 3; demo_create "a.py" 1; demo_create "b.py" 2]
          [Ok "x = 1"; Ok "y = 2"; Ok "z = 3"]).2
     = processing_record
       <$> [demo_create "a.py" 1; demo_create "b.py" 2; demo_create "c.py" 3].
Proof.
  destruct (execute_edits_priority_order demo_detect_language demo_path_join
              demo_path_parent demo_format_list "2024-01-01T00:00:00" demo_ctx
              (demo_plan [demo_create "c.py" 3; demo_create "a.py" 1; demo_create "b.py" 2])
              "Add docstrings to all functions"
              (demo_world demo_fs [Ok "x = 1"; Ok "y = 2"; Ok "z = 3"]))
    as (_ & _ & _ & _ & Hlog & Horder).
  pose proof (Horder _ _ _ eq_refl eq_refl eq_refl eq_refl) as Hsorted.
  split; [exact Hsorted|].
  unfold demo_execute. rewrite (Hlog _ eq_refl), Hsorted. reflexivity.
Defined.

(** A plan with an instruction under [.git/], generated by the scripted
    editor, through the theorem on the validator. *)
Lemma validate_edit_plan_warns_only_witness :
  let plan := demo_plan [demo_create ".git/config" 1] in
  let w : DemoWorld :=
    {| w_fs := demo_fs; w_ai := mkScriptedAI [] (Ok plan); w_net := 0; w_log := [];
       w_objects := []; context_cache := ∅ |} in
  "Risky file path: .git/config" ∈ edit_plan_warnings plan
  /\ w_log (_validate_edit_plan demo_format_list plan demo_ctx w).2
     = [mkLog WARNING "Edit plan validation warnings: ['Risky file path: .git/config']"]
  /\ (plan_edits demo_format_list (fun _ => "0.8") demo_ctx "Configure git" w).1 = Ok plan.
Proof.
  intros plan w.
  destruct (validate_edit_plan_warns_only (FS := MemFS) (Net := nat) demo_format_list
              (fun _ => "0.8") demo_ctx "Configure git" plan)
    as (_ & Hrisky & Hplan).
  destruct (Hrisky (demo_create ".git/config" 1) ".git/") as [Hin Hlog].
  { by apply list_elem_of_In; left. }
  { by apply list_elem_of_In; left. }
  { reflexivity. }
  destruct (Hplan w (w_ai w) eq_refl) as (w' & Hrun & _).
  split; [exact Hin|]. rewrite (Hlog w), Hrun. split; reflexivity.
Defined.


(** The one-instruction plan through the theorem on the outcomes. When
    the editor's content is refused: no FileChange and one error that
    mentions the file. When it is accepted: one FileChange, whose content
    was written to the file, the file system of the returned world being
    the one the write left. *)
Lemma execute_edits_outcomes_witness :
  (exists r w' e,
     demo_execute [demo_modify] [Ok CodeAnalyzer.invalid_python] = (Ok r, w')
     /\ changes r = [] /\ errors r = [e] /\ warnings r = []
     /\ Py.contains "app.py" e = true)
  /\ exists r w' c,
       demo_execute [demo_modify] [Ok CodeAnalyzer.valid_python] = (Ok r, w')
       /\ changes r = [c]
       /\ write_text demo_fs "temp/repos/github_ai_0/repo/app.py" (fc_new_content c)
          = (Ok tt, w_fs w').
Proof.
  split.
  - destruct (execute_edits_outcomes demo_detect_language demo_path_join
                demo_path_parent demo_format_list "2024-01-01T00:00:00" demo_ctx
                (demo_plan [demo_modify]) "Add docstrings to all functions"
                (demo_world demo_fs [Ok CodeAnalyzer.invalid_python]))
      as (r & w' & outs & Hrun & _ & Hlen & Hc & He & Hw & _ & Hk & _).
    destruct outs as [|o [|]]; try discriminate Hlen.
    destruct (Hk 0 demo_modify o eq_refl eq_refl) as [Ho Hfail].
    destruct Hfail as (e & -> & _ & _).
    { right. exists "temp/repos/github_ai_0/repo", "def test(): pass",
        CodeAnalyzer.invalid_python, (mkScriptedAI [] (Raise "no plan")),
        ["Syntax error at line 1: expected ':'"], (mkScriptedAI [] (Raise "no plan")).
      split_and!; vm_compute; reflexivity. }
    exists r, w', e. rewrite Hc, He, Hw. cbn.
    split_and!; [exact Hrun | reflexivity.. | exact (proj1 Ho)].
  - destruct (execute_edits_outcomes demo_detect_language demo_path_join
                demo_path_parent demo_format_list "2024-01-01T00:00:00" demo_ctx
                (demo_plan [demo_modify]) "Add docstrings to all functions"
                (demo_world demo_fs [Ok CodeAnalyzer.valid_python]))
      as (r & w' & outs & Hrun & _ & Hlen & Hc & _ & _ & _ & _ & Hex & Hfs0 & Hw').
    destruct outs as [|o [|]]; try discriminate Hlen.
    assert (exists c, changes r = [c]) as [c Hr].
    { vm_compute in Hrun. injection Hrun as <- _. eexists. reflexivity. }
    rewrite Hr in Hc. destruct o; try discriminate Hc. cbn in Hc. injection Hc as <-.
    destruct (Hex 0 demo_modify c eq_refl eq_refl) as (lp & Hlp & Hcase).
    injection Hlp as <-.
    destruct Hcase as [(_ & _ & original & new_content & ai1 & vw & ai2 & _ & _ & _ & _ & Hwrite & _ & Hnew)
                      |[(Hkind & _)|(Hkind & _)]]; try discriminate Hkind.
    rewrite Hfs0 in Hwrite.
    change (length (sorted_instructions (demo_plan [demo_modify]))) with 1 in Hw'.
    exists r, w', c. rewrite Hw', Hnew. split_and!; [by rewrite <- Hw' | done | exact Hwrite].
Defined.

(** *** The other branches of the loop on the one-file repository *)

Definition demo_instruction (kind path : string) : EditInstruction :=
  {| file_path := path; change_type := kind; description := "Tidy up";
     context := None; priority := 1 |}.

Definition demo_process (i : EditInstruction) (answers : list (Res string))
  : Res unit * ExecState :=
  process_instruction demo_detect_language demo_path_join demo_path_parent
    demo_format_list demo_ctx "Tidy up" i (demo_state answers).

Lemma modify_missing_file_warns_witness :
  st_warnings (demo_process (demo_instruction "modify" "missing.py") [Ok "x = 1"]).2
  = ["File not found for modification: missing.py"]
  /\ w_ai (st_world (demo_process (demo_instruction "modify" "missing.py") [Ok "x = 1"]).2)
     = mkScriptedAI [Ok "x = 1"] (Raise "no plan").
Proof.
  unfold demo_process.
  rewrite (modify_missing_file_warns demo_detect_language demo_path_join
             demo_path_parent demo_format_list demo_ctx "Tidy up"
             (demo_instruction "modify" "missing.py") (demo_state [Ok "x = 1"])
             "temp/repos/github_ai_0/repo")
    by (vm_compute; reflexivity).
  split; vm_compute; reflexivity.
Defined.
(** Content that does not parse is written by a [create] instruction and
    recorded as valid. *)
Lemma create_is_not_validated_witness :
  let s' := (demo_process (demo_instruction "create" "new.py")
               [Ok CodeAnalyzer.invalid_python]).2 in
  files (w_fs (st_world s')) !! "temp/repos/github_ai_0/repo/new.py"
  = Some CodeAnalyzer.invalid_python
  /\ (valid ∘ fc_validation_result <$> st_changes s') = [true]
  /\ st_errors s' = [].
Proof.
  intros s'. subst s'. unfold demo_process.
  erewrite (create_is_not_validated demo_detect_language demo_path_join
              demo_path_parent demo_format_list demo_ctx "Tidy up"
              (demo_instruction "create" "new.py")
              (demo_state [Ok CodeAnalyzer.invalid_python])
              "temp/repos/github_ai_0/repo");
    [|vm_compute; reflexivity..].
  split_and!; vm_compute; reflexivity.
Defined.
Lemma delete_records_former_content_witness :
  let s' := (demo_process (demo_instruction "delete" "app.py") []).2 in
  files (w_fs (st_world s')) !! "temp/repos/github_ai_0/repo/app.py" = None
  /\ (fc_original_content <$> st_changes s') = ["def test(): pass"]
  /\ st_warnings (demo_process (demo_instruction "delete" "gone.py") []).2
     = ["File not found for deletion: gone.py"].
Proof.
  intros s'. subst s'. unfold demo_process.
  destruct (delete_records_former_content demo_detect_language demo_path_join
              demo_path_parent demo_format_list demo_ctx "Tidy up"
              (demo_instruction "delete" "app.py") (demo_state [])
              "temp/repos/github_ai_0/repo" eq_refl eq_refl) as [_ Hpresent].
  destruct (delete_records_former_content demo_detect_language demo_path_join
              demo_path_parent demo_format_list demo_ctx "Tidy up"
              (demo_instruction "delete" "gone.py") (demo_state [])
              "temp/repos/github_ai_0/repo" eq_refl eq_refl) as [Habsent _].
  erewrite Hpresent; [|vm_compute; reflexivity..].
  rewrite Habsent by (vm_compute; reflexivity).
  split_and!; vm_compute; reflexivity.
Defined.
Lemma rename_and_unknown_kinds_witness :
  st_warnings (demo_process (demo_instruction "rename" "app.py") []).2
  = ["Rename operation not yet implemented: app.py"]
  /\ (demo_process (demo_instruction "move" "app.py") []).2
     = mkExecState
         (with_log (demo_world demo_fs [])
            [mkLog INFO "Processing move on app.py"]) [] [] [].
Proof.
  unfold demo_process.
  destruct (rename_and_unknown_kinds demo_detect_language demo_path_join
              demo_path_parent demo_format_list demo_ctx "Tidy up"
              (demo_instruction "rename" "app.py") (demo_state [])
              "temp/repos/github_ai_0/repo" eq_refl) as [Hrename _].
  destruct (rename_and_unknown_kinds demo_detect_language demo_path_join
              demo_path_parent demo_format_list demo_ctx "Tidy up"
              (demo_instruction "move" "app.py") (demo_state [])
              "temp/repos/github_ai_0/repo" eq_refl) as [_ Hother].
  rewrite (Hrename eq_refl).
  rewrite (Hother ltac:(discriminate) ltac:(discriminate) ltac:(discriminate)
             ltac:(discriminate)).
  split; vm_compute; reflexivity.
Defined.
(** A context that was never cloned. *)
Definition bare_ctx : RepositoryContext :=
  {| repo_url := "https://github.com/owner/repo"; owner := "owner"; repo_name := "repo";
     repo_info := None; local_path := None; temp_dir := None; structure := JDict [];
     important_files := []; key_files_content := []; languages := []; file_count := 0;
     default_branch := "main" |}.

Lemma execute_edits_without_local_path_witness :
  exists r w',
    execute_edits demo_detect_language demo_path_join demo_path_parent demo_format_list
      "2024-01-01T00:00:00" bare_ctx
      (demo_plan [demo_create "b.py" 2; demo_create "a.py" 1]) "Tidy up"
      (demo_world demo_fs [Ok "x = 1"]) = (Ok r, w')
    /\ errors r
       = ["Failed to process instruction for a.py: expected str, bytes or os.PathLike object, not NoneType";
          "Failed to process instruction for b.py: expected str, bytes or os.PathLike object, not NoneType"]
    /\ success r = false /\ w_fs w' = demo_fs.
Proof.
  destruct (execute_edits_without_local_path demo_detect_language demo_path_join
              demo_path_parent demo_format_list "2024-01-01T00:00:00" bare_ctx
              (demo_plan [demo_create "b.py" 2; demo_create "a.py" 1]) "Tidy up"
              (demo_world demo_fs [Ok "x = 1"]) eq_refl)
    as (r & w' & Hrun & _ & _ & Herrors & Hsuccess & Hfs & _).
  exists r, w'. rewrite Herrors, Hsuccess, Hfs.
  split_and!; [exact Hrun|vm_compute; reflexivity|reflexivity|reflexivity].
Defined.
Lemma validator_silent_iff_witness :
  edit_plan_warnings (demo_plan [demo_modify]) = []
  /\ _validate_edit_plan demo_format_list (demo_plan [demo_modify]) demo_ctx
       (demo_world demo_fs [])
     = (Ok tt, demo_world demo_fs [])
  /\ w_log (_validate_edit_plan demo_format_list
              (demo_plan [demo_instruction "delete" "app.py"]) demo_ctx
              (demo_world demo_fs [])).2
     = [mkLog WARNING "Edit plan validation warnings: ['Deleting source code file: app.py']"].
Proof.
  destruct (validator_silent_iff demo_format_list (demo_plan [demo_modify]) demo_ctx
              (demo_world demo_fs [])) as (_ & Hsilent & _).
  destruct (validator_silent_iff demo_format_list
              (demo_plan [demo_instruction "delete" "app.py"]) demo_ctx
              (demo_world demo_fs [])) as (_ & _ & Hloud).
  rewrite Hsilent by (vm_compute; reflexivity).
  rewrite Hloud by (vm_compute; discriminate).
  split_and!; vm_compute; reflexivity.
Defined.
Lemma cleanup_keeps_cached_context_witness :
  let w1 := (demo_analyze "https://github.com/owner/repo" (demo_world empty_fs [])).2 in
  let ctx := default demo_ctx (w_objects w1 !! 0%nat) in
  let w2 := (cleanup ctx w1).2 in
  temp_dir ctx = Some "temp/repos/github_ai_0"
  /\ mem_exists (w_fs w2) "temp/repos/github_ai_0" = false
  /\ (demo_analyze "https://github.com/owner/repo" w2).1 = Ok 0%nat
  /\ w_net (demo_analyze "https://github.com/owner/repo" w2).2 = 2%nat.
Proof.
  intros w1 ctx w2.
  assert (context_cache w1 !! demo_md5 "https://github.com/owner/repo" = Some 0%nat)
    as Hhit by (vm_compute; reflexivity).
  destruct (cleanup_keeps_cached_context demo_path_join demo_format_list demo_md5
              GitHubClient.urlparse_path_model "token" ctx
              "https://github.com/owner/repo" w1 0%nat Hhit)
    as (w1' & w2' & Hclean & _ & Hagain & _ & Hnet & _).
  assert (w1' = w2) as -> by (subst w2; by rewrite Hclean).
  fold (demo_analyze "https://github.com/owner/repo") in Hagain.
  rewrite Hagain. cbn [fst snd]. rewrite Hnet.
  split_and!; [vm_compute; reflexivity..|reflexivity|vm_compute; reflexivity].
Defined.

(** *** What a run leaves alone, on the one-file repository *)

Lemma execute_edits_frame_witness :
  let deleting :=
    execute_edits demo_detect_language demo_path_join demo_path_parent demo_format_list
      "2024-01-01T00:00:00" demo_ctx
      (demo_plan [demo_instruction "delete" "app.py"; demo_instruction "rename" "a.py"])
      "Tidy up" (demo_world demo_fs [Ok "x = 1"]) in
  let renaming :=
    execute_edits demo_detect_language demo_path_join demo_path_parent demo_format_list
      "2024-01-01T00:00:00" demo_ctx
      (demo_plan [demo_instruction "rename" "app.py"; demo_instruction "move" "app.py"])
      "Tidy up" (demo_world demo_fs [Ok "x = 1"]) in
  w_ai deleting.2 = mkScriptedAI [Ok "x = 1"] (Raise "no plan")
  /\ w_fs deleting.2 <> demo_fs
  /\ w_fs renaming.2 = demo_fs
  /\ w_ai renaming.2 = mkScriptedAI [Ok "x = 1"] (Raise "no plan").
Proof.
  intros deleting renaming.
  destruct (execute_edits_frame demo_detect_language demo_path_join demo_path_parent
              demo_format_list "2024-01-01T00:00:00" demo_ctx
              (demo_plan [demo_instruction "delete" "app.py"; demo_instruction "rename" "a.py"])
              "Tidy up" (demo_world demo_fs [Ok "x = 1"]))
    as (r1 & w1 & Hrun1 & _ & _ & _ & Hai1 & _).
  destruct (execute_edits_frame demo_detect_language demo_path_join demo_path_parent
              demo_format_list "2024-01-01T00:00:00" demo_ctx
              (demo_plan [demo_instruction "rename" "app.py"; demo_instruction "move" "app.py"])
              "Tidy up" (demo_world demo_fs [Ok "x = 1"]))
    as (r2 & w2 & Hrun2 & _ & _ & _ & Hai2 & Hfs2).
  specialize (Hai1 ltac:(vm_compute; reflexivity)).
  specialize (Hai2 ltac:(vm_compute; reflexivity)).
  destruct (Hfs2 ltac:(vm_compute; reflexivity)) as (Hfs & _ & _).
  subst deleting renaming. rewrite Hrun2. cbn [snd]. rewrite Hai2, Hfs.
  split_and!; [|vm_compute; discriminate|reflexivity|reflexivity].
  rewrite Hrun1. cbn [snd]. by rewrite Hai1.
Defined.

(** *** Paths the plan validator lets through *)

(** The paths the validator is said to flag: one of the segments is the
    metadata directory of a version-control system, or the path starts at
    the root of the file system. *)
Definition vcs_metadata_dirs : list string := [".git"; ".hg"; ".svn"].

Definition has_vcs_metadata_segment (path : string) : bool :=
  existsb (fun segment => bool_decide (segment ∈ vcs_metadata_dirs)) (Py.split "/" path).

Definition starts_at_root (path : string) : bool := Py.startswith "/" path.

(** C8 as stated fails. A plan that edits [sub/.git] (the metadata
    directory is the last segment), [.hg/hgrc] (the metadata of another
    version-control system) and [/root/.ssh/authorized_keys] (a path from
    the root of the file system) gets no warning at all: none of the
    seven fragments of the denylist occurs in these paths, and the
    validator leaves the log as it is. *)
Lemma validate_edit_plan_misses_metadata :
  let plan := demo_plan [demo_instruction "modify" "sub/.git";
                         demo_instruction "modify" ".hg/hgrc";
                         demo_instruction "modify" "/root/.ssh/authorized_keys"] in
  Forall (fun i => has_vcs_metadata_segment (file_path i) || starts_at_root (file_path i) = true)
    (instructions plan)
  /\ edit_plan_warnings plan = []
  /\ ~ (forall i, i ∈ instructions plan ->
          has_vcs_metadata_segment (file_path i) || starts_at_root (file_path i) = true ->
          "Risky file path: " +:+ file_path i ∈ edit_plan_warnings plan)
  /\ forall w : DemoWorld,
       _validate_edit_plan demo_format_list plan demo_ctx w = (Ok tt, w).
Proof.
  intros plan.
  assert (edit_plan_warnings plan = []) as Hnone by (vm_compute; reflexivity).
  split_and!.
  - repeat constructor.
  - exact Hnone.
  - intros Hflag.
    specialize (Hflag (demo_instruction "modify" "sub/.git")
                  ltac:(by apply elem_of_cons; left) ltac:(vm_compute; reflexivity)).
    rewrite Hnone in Hflag. by apply elem_of_nil in Hflag.
  - intros w. unfold _validate_edit_plan. by rewrite Hnone.
Qed.

(** *** The scans on the files of memory *)

Definition mem_stat_size (fs : MemFS) (p : string) : Res Z :=
  match files fs !! p with
  | Some content => Ok (Z.of_nat (String.length content))
  | None => Raise ("[Errno 2] No such file or directory: '" +:+ p +:+ "'")
  end.

(** The files below a directory. *)
Definition mem_rglob_files (fs : MemFS) (dir : string) : Res (list string) :=
  Ok (List.filter (Py.startswith (dir +:+ "/")) (fst <$> map_to_list (files fs))).

Definition scanned_fs : MemFS :=
  {| files := {[ "work/repo/src/app.py" := "import os";
                 "work/repo/src/environment.py" := "DEBUG = True";
                 "work/repo/.git/config" := "[core]";
                 "work/dotenv/main.py" := "import os" ]};
     dirs := {[ "work"; "work/repo"; "work/repo/src"; "work/repo/.git"; "work/dotenv" ]};
     read_only := false |}.

(** [exists()] on the files of memory: [stat] refuses a name of more than
    255 characters, and [exists()] raises that error again. *)
Definition mem_exists_checked (fs : MemFS) (p : string) : Res bool :=
  if existsb (fun name => (255 <? String.length name)%nat) (Py.split "/" p)
  then Raise ("[Errno 36] File name too long: '" +:+ p +:+ "'")
  else Ok (mem_exists fs p).

(** A file name of 300 characters. *)
Definition long_name : string := String.concat "" (replicate 300 "a").

Example extract_key_file_contents_demo :
  (_extract_key_file_contents (AI := ScriptedAI) (Net := nat) demo_path_join
     mem_exists_checked mem_stat_size 1000 "work/repo"
     ["src/app.py"; "README.md"; "src/environment.py"]
     (demo_world scanned_fs [])).1
  = Ok [("src/app.py", "import os"); ("src/environment.py", "DEBUG = True")].
Proof. vm_compute. reflexivity. Qed.

(** With a name that [stat] refuses among the important files, the method
    raises and the contents read so far are lost. *)
Example extract_key_file_contents_name_too_long :
  _extract_key_file_contents (AI := ScriptedAI) (Net := nat) demo_path_join
    mem_exists_checked mem_stat_size 1000 "work/repo"
    ["src/app.py"; long_name; "src/environment.py"]
    (demo_world scanned_fs [])
  = (Raise ("[Errno 36] File name too long: 'work/repo/" +:+ long_name +:+ "'"),
     demo_world scanned_fs []).
Proof. vm_compute. reflexivity. Qed.

Lemma count_files_substring_match_witness :
  _count_files mem_rglob_files "work/repo" scanned_fs = Ok 1
  /\ _count_files mem_rglob_files "work/dotenv" scanned_fs = Ok 0.
Proof.
  destruct (count_files_substring_match mem_rglob_files "work/repo" scanned_fs
              _ eq_refl) as (_ & n & Hn & _ & -> & _).
  destruct (count_files_substring_match mem_rglob_files "work/dotenv" scanned_fs
              _ eq_refl) as (_ & m & Hm & _ & _ & Hzero).
  rewrite Hn, Hm.
  split; [vm_compute; reflexivity|]. f_equal. apply Hzero.
  - exists "env". split; [|vm_compute; reflexivity]. apply list_elem_of_In. cbn. tauto.
  - vm_compute. intros file Hfile. apply list_elem_of_In in Hfile.
    destruct Hfile as [<-|[]]. by eexists.
Defined.

Example generate_branch_name_demo :
  generate_branch_name "20240101-120000" "Add Docstrings to ALL functions, please!"
  = "ai-edit-add-docstrings-to-all-20240101-120000"
  /\ generate_branch_name "20240101-120000" "" = "ai-edit--20240101-120000".
Proof. split; vm_compute; reflexivity. Qed.

End RepositoryManager.

(** ** src/ai_editor.py: [_prepare_repo_context] *)

Module AiEditor.

Import RepositoryManager.

(** [type(v).__name__]. *)
Definition type_name (v : Json) : string :=
  match v with
  | JNull => "NoneType"
  | JBool _ => "bool"
  | JInt _ => "int"
  | JStr _ => "str"
  | JList _ => "list"
  | JDict _ => "dict"
  end.

(** The truth value of a value. *)
Definition json_truthy (v : Json) : bool :=
  match v with
  | JNull => false
  | JBool b => b
  | JInt z => negb (z =? 0)%Z
  | JStr s => Py.truthy s
  | JList l => match l with [] => false | _ => true end
  | JDict d => match d with [] => false | _ => true end
  end.

(** [d.get(key, default)]. *)
Definition get_default (d : list (string * Json)) (key : string) (default : Json) : Json :=
  match Py.dict_get d key with
  | Some v => v
  | None => default
  end.

(** [content[:1000]]. *)
Definition first_1000 (content : Json) : Res Json :=
  match content with
  | JStr s => Ok (JStr (Py.slice_to 1000 s))
  | JList l => Ok (JList (List.firstn 1000 l))
  | JDict _ => Raise "unhashable type: 'slice'"
  | _ => Raise ("'" +:+ type_name content +:+ "' object is not subscriptable")
  end.

(** The loop that fills [context["key_files"]]. *)
Fixpoint copy_key_files (items : list (string * Json)) (key_files : list (string * Json))
  : Res (list (string * Json)) :=
  match items with
  | [] => Ok key_files
  | (file_path, content) :: items' =>
      match first_1000 content with
      | Ok sample => copy_key_files items' (Py.dict_set key_files file_path sample)
      | Raise e => Raise e
      end
  end.

(** [AIEditor._prepare_repo_context], lines 272-303. A dict is the list
    of its items. *)
Definition _prepare_repo_context (repo_context : Json) : Res Json :=
  match repo_context with
  | JDict repo_context =>
      (* Extract key information *)
      let context :=
        [ ("repository",
           JDict [ ("owner", get_default repo_context "owner" JNull);
                   ("name", get_default repo_context "repo" JNull);
                   ("description", get_default repo_context "description" (JStr ""));
                   ("default_branch",
                    get_default repo_context "default_branch" (JStr "main")) ]);
          ("structure", get_default repo_context "structure" (JDict []));
          ("important_files", get_default repo_context "important_files" (JList []));
          ("languages", get_default repo_context "languages" (JList []));
          ("file_count", get_default repo_context "file_count" (JInt 0)) ] in
      (* Add sample content for key files *)
      let key_files := get_default repo_context "key_files" (JDict []) in
      if json_truthy key_files then
        match key_files with
        | JDict items =>
            match copy_key_files (List.firstn 5 items) [] with
            | Ok samples => Ok (JDict (context ++ [("key_files", JDict samples)]))
            | Raise e => Raise e
            end
        | _ => Raise ("'" +:+ type_name key_files +:+ "' object has no attribute 'items'")
        end
      else Ok (JDict context)
  | _ => Raise ("'" +:+ type_name repo_context +:+ "' object has no attribute 'get'")
  end.

(** The sample that is kept of the text of a key file. *)
Definition sample_of (text : string) : Json := JStr (Py.slice_to 1000 text).

Lemma copy_key_files_texts (texts : list (string * string)) : forall acc,
  exists samples,
    copy_key_files (prod_map id JStr <$> texts) acc = Ok samples
    /\ length samples <= length acc + length texts
    /\ forall k v, (k, v) ∈ samples ->
         (k, v) ∈ acc \/ exists text, (k, text) ∈ texts /\ v = sample_of text.
Proof.
  induction texts as [|[k0 text0] texts IH]; intros acc.
  - exists acc. split_and!; [done|cbn; lia|by left].
  - cbn [fmap list_fmap prod_map fst snd id copy_key_files first_1000].
    destruct (IH (Py.dict_set acc k0 (JStr (Py.slice_to 1000 text0))))
      as (samples & -> & Hlen & Hin).
    exists samples. split_and!; [done| |].
    + pose proof (length_dict_set acc k0 (JStr (Py.slice_to 1000 text0))).
      cbn [length]. lia.
    + intros k v Hkv. destruct (Hin k v Hkv) as [Hacc|(text & Htext & ->)].
      * destruct (dict_set_elem _ _ _ _ _ Hacc) as [?|[-> ->]]; [by left|].
        right. exists text0. split; [by apply elem_of_cons; left|done].
      * right. exists text. split; [by apply elem_of_cons; right|done].
Qed.

Lemma firstn_fmap {A B} (f : A -> B) n (l : list A) :
  List.firstn n (f <$> l) = f <$> List.firstn n l.
Proof. revert l. induction n as [|n IH]; intros [|x l]; cbn; [done..|]. by rewrite IH. Qed.

(** What the editor is given of a repository context: [to_dict] stores
    the name under [repo_name] while [_prepare_repo_context] reads [repo],
    so the repository name is always [None]; and of the key files at most
    five are passed on, each cut to its first 1000 characters. The call
    returns for every context. *)
Theorem prepare_repo_context_of_to_dict (c : RepositoryContext) :
  exists context,
    _prepare_repo_context (to_dict c) = Ok (JDict context)
    /\ (exists description,
          Py.dict_get context "repository"
          = Some (JDict [ ("owner", JStr (owner c)); ("name", JNull);
                          ("description", description);
                          ("default_branch", JStr (default_branch c)) ]))
    /\ (key_files_content c = [] -> Py.dict_get context "key_files" = None)
    /\ (key_files_content c <> [] ->
        exists samples,
          Py.dict_get context "key_files" = Some (JDict samples)
          /\ length samples <= 5
          /\ forall file_path sample, (file_path, sample) ∈ samples ->
               exists text,
                 (file_path, text) ∈ List.firstn 5 (key_files_content c)
                 /\ sample = JStr (Py.slice_to 1000 text)
                 /\ (Z.of_nat (String.length (Py.slice_to 1000 text)) <= 1000)%Z).
Proof.
  unfold _prepare_repo_context, to_dict, get_default.
  cbn [Py.dict_get String.eqb Ascii.eqb Bool.eqb].
  destruct (key_files_content c) as [|kv texts] eqn:Htexts.
  - cbn [fmap list_fmap json_truthy]. eexists. split; [reflexivity|].
    split_and!; [by eexists|done|done].
  - rewrite <- Htexts. assert (json_truthy (JDict (prod_map id JStr <$> key_files_content c))
                               = true) as -> by (by rewrite Htexts).
    rewrite firstn_fmap.
    destruct (copy_key_files_texts (List.firstn 5 (key_files_content c)) [])
      as (samples & -> & Hlen & Hin).
    eexists. split; [reflexivity|]. split_and!; [by eexists|by rewrite Htexts|].
    intros _. exists samples. split; [reflexivity|]. split.
    + pose proof (List.firstn_le_length 5 (key_files_content c)). cbn [length] in Hlen. lia.
    + intros k v Hkv. destruct (Hin k v Hkv) as [Hnil|(text & Htext & ->)];
        [by apply elem_of_nil in Hnil|].
      exists text. split_and!; [done|done|].
      rewrite PyFacts.length_slice_to. cbn [Z.ltb Z.compare]. lia.
Qed.

Lemma prepare_repo_context_of_to_dict_witness :
  exists context,
    _prepare_repo_context (to_dict demo_ctx) = Ok (JDict context)
    /\ Py.dict_get context "repository"
       = Some (JDict [ ("owner", JStr "owner"); ("name", JNull);
                       ("description", JNull); ("default_branch", JStr "main") ])
    /\ Py.dict_get context "key_files"
       = Some (JDict [("app.py", JStr "def test(): pass")]).
Proof.
  destruct (prepare_repo_context_of_to_dict demo_ctx)
    as (context & Hrun & _ & _ & Hfiles).
  destruct (Hfiles ltac:(discriminate)) as (samples & _ & _ & _).
  exists context. split; [exact Hrun|].
  vm_compute in Hrun. injection Hrun as <-. split; reflexivity.
Defined.

End AiEditor.

(** ** src/utils.py *)

Module Utils.

Import GitHubClient PyFacts.

(** ** src/utils.py

    A character of a string stands for a code point below 256. *)

(** [truncate_text(text, max_length)], lines 117-130. *)
Definition truncate_text (text : string) (max_length : Z) : string :=
  if (Z.of_nat (String.length text) <=? max_length)%Z then text
  else Py.slice_to (max_length - 3) text +:+ "...".

(** [os.path.basename(p)] of [posixpath]: what follows the last slash. *)
Definition basename (p : string) : string :=
  Py.slice_from (Py.rfind "/" p + 1) p.

(** The character class of [unsafe_chars]: the nine characters less-than,
    greater-than, colon, double quote, slash, backslash, bar, question mark
    and star, and the control characters with codes 0 to 31. *)
Definition unsafe_chars : string :=
  String "<" (String ">" (String ":" (String "034" (String "/"
    (String "\" (String "|" (String "?" (String "*" EmptyString)))))))).

Definition is_unsafe (c : ascii) : bool :=
  Py.char_in c unsafe_chars || (nat_of_ascii c <? 32)%nat.

(** [re.sub(unsafe_chars, '_', filename)]. *)
Definition replace_unsafe (filename : string) : string :=
  Py.map_chars (fun c => if is_unsafe c then "_"%char else c) filename.

(** The loop of [genericpath._splitext] over the offsets from [sepIndex + 1]
    up to [dotIndex]: whether some character before the last dot of the
    file name is not a dot. [s] starts at [sepIndex + 1] and [n] offsets
    are left. *)
Fixpoint has_non_dot (n : nat) (s : string) : bool :=
  match n, s with
  | S n', String c s' => if Ascii.eqb c "." then has_non_dot n' s' else true
  | _, _ => false
  end.

(** [os.path.splitext(p)] of [posixpath]. *)
Definition splitext (p : string) : string * string :=
  let sepIndex := Py.rfind "/" p in
  let dotIndex := Py.rfind "." p in
  if (sepIndex <? dotIndex)%Z
     && has_non_dot (Z.to_nat (dotIndex - (sepIndex + 1)))
          (Py.slice_from (sepIndex + 1) p)
  then (Py.slice_to dotIndex p, Py.slice_from dotIndex p)
  else (p, "").

(** [sanitize_filename(filename)], lines 66-88. *)
Definition sanitize_filename (filename : string) : string :=
  let filename := basename filename in
  let filename := replace_unsafe filename in
  if (255 <? String.length filename)%nat then
    let '(name, ext) := splitext filename in
    Py.slice_to (255 - Z.of_nat (String.length ext)) name +:+ ext
  else filename.

(** The extension that the length limit of [sanitize_filename] keeps. *)
Definition kept_extension (filename : string) : string :=
  (splitext (replace_unsafe (basename filename))).2.

(** *** [truncate_text] *)

(** The length of the result, whatever the limit. *)
Lemma truncate_text_length text max_length :
  Z.of_nat (String.length (truncate_text text max_length))
  = (if (Z.of_nat (String.length text) <=? max_length)%Z
     then Z.of_nat (String.length text)
     else if (max_length <? 3)%Z
          then Z.max 0 (Z.of_nat (String.length text) + (max_length - 3)) + 3
          else max_length)%Z.
Proof.
  unfold truncate_text.
  destruct (Z.of_nat (String.length text) <=? max_length)%Z eqn:E; [reflexivity|].
  apply Z.leb_gt in E. rewrite length_append, Nat2Z.inj_add, length_slice_to. cbn.
  destruct (max_length <? 3)%Z eqn:E3; [apply Z.ltb_lt in E3|apply Z.ltb_ge in E3].
  - assert ((max_length - 3 <? 0)%Z = true) as -> by (apply Z.ltb_lt; lia). reflexivity.
  - assert ((max_length - 3 <? 0)%Z = false) as -> by (apply Z.ltb_ge; lia). lia.
Qed.

(** With a limit of at least 3 the result never exceeds the limit: a text
    within the limit is returned as it is, a longer one is cut to its first
    [max_length - 3] characters followed by three dots, which makes exactly
    [max_length] characters; truncating the result again changes nothing. *)
Theorem truncate_text_within_limit text max_length :
  (3 <= max_length)%Z ->
  (Z.of_nat (String.length (truncate_text text max_length)) <= max_length)%Z
  /\ ((Z.of_nat (String.length text) <= max_length)%Z ->
      truncate_text text max_length = text)
  /\ ((max_length < Z.of_nat (String.length text))%Z ->
      truncate_text text max_length = Py.take (Z.to_nat (max_length - 3)) text +:+ "..."
      /\ Z.of_nat (String.length (truncate_text text max_length)) = max_length)
  /\ truncate_text (truncate_text text max_length) max_length
     = truncate_text text max_length.
Proof.
  intros H3. pose proof (truncate_text_length text max_length) as Hlen.
  assert ((max_length <? 3)%Z = false) as E3 by (apply Z.ltb_ge; lia).
  rewrite E3 in Hlen.
  assert (Z.of_nat (String.length (truncate_text text max_length)) <= max_length)%Z
    as Hbound.
  { rewrite Hlen. destruct (Z.of_nat (String.length text) <=? max_length)%Z eqn:E; [|lia].
    by apply Z.leb_le in E. }
  split_and!.
  - exact Hbound.
  - intros H. unfold truncate_text. by apply Z.leb_le in H as ->.
  - intros H. assert ((Z.of_nat (String.length text) <=? max_length)%Z = false) as E
      by (apply Z.leb_gt; lia).
    rewrite E in Hlen. split; [|exact Hlen].
    unfold truncate_text, Py.slice_to, Py.slice_index. rewrite E.
    by assert ((max_length - 3 <? 0)%Z = false) as -> by (apply Z.ltb_ge; lia).
  - unfold truncate_text at 1. by apply Z.leb_le in Hbound as ->.
Qed.

Lemma truncate_text_within_limit_witness :
  truncate_text "The quick brown fox" 10 = "The qui..."
  /\ truncate_text "The qui..." 10 = "The qui..."
  /\ truncate_text "short" 10 = "short".
Proof.
  destruct (truncate_text_within_limit "The quick brown fox" 10 ltac:(lia))
    as (_ & _ & Hcut & Hagain).
  destruct (truncate_text_within_limit "short" 10 ltac:(lia)) as (_ & Hkeep & _).
  destruct (Hcut ltac:(vm_compute; reflexivity)) as [Hcut' _].
  rewrite Hkeep by (vm_compute; discriminate).
  rewrite Hcut' in Hagain. rewrite Hcut'. split_and!; [reflexivity|exact Hagain|reflexivity].
Defined.

(** With a limit below 3 a text longer than the limit is not shortened to
    the limit: the slice bound [max_length - 3] is negative and counts
    from the end, so the result keeps all but the last [3 - max_length]
    characters and adds three dots. The result is longer than the limit,
    and for a limit of 1 or 2 longer than the text itself. *)
Theorem truncate_text_below_three text max_length :
  (max_length < 3)%Z ->
  (max_length < Z.of_nat (String.length text))%Z ->
  truncate_text text max_length
  = Py.take (String.length text - Z.to_nat (3 - max_length)) text +:+ "..."
  /\ (max_length < Z.of_nat (String.length (truncate_text text max_length)))%Z
  /\ ((1 <= max_length)%Z ->
      (3 - max_length <= Z.of_nat (String.length text))%Z ->
      Z.of_nat (String.length (truncate_text text max_length))
      = (Z.of_nat (String.length text) + max_length)%Z).
Proof.
  intros H3 Hlong. pose proof (truncate_text_length text max_length) as Hlen.
  assert ((Z.of_nat (String.length text) <=? max_length)%Z = false) as E
    by (apply Z.leb_gt; lia).
  assert ((max_length <? 3)%Z = true) as E3 by (apply Z.ltb_lt; lia).
  rewrite E, E3 in Hlen. split_and!.
  - unfold truncate_text, Py.slice_to, Py.slice_index. rewrite E.
    assert ((max_length - 3 <? 0)%Z = true) as -> by (apply Z.ltb_lt; lia).
    do 2 f_equal. lia.
  - lia.
  - lia.
Qed.

Lemma truncate_text_below_three_witness :
  truncate_text "abcdef" 2 = "abcde..."
  /\ truncate_text "abcdef" (-1) = "ab...".
Proof.
  destruct (truncate_text_below_three "abcdef" 2 ltac:(lia) ltac:(cbn; lia)) as [-> _].
  destruct (truncate_text_below_three "abcdef" (-1) ltac:(lia) ltac:(cbn; lia)) as [-> _].
  split; reflexivity.
Defined.

(** *** [sanitize_filename] *)

Definition is_safe (c : ascii) : bool := negb (is_unsafe c).

Lemma replace_unsafe_safe s : Py.all_chars is_safe (replace_unsafe s) = true.
Proof.
  induction s as [|c s IH]; [reflexivity|]. cbn. fold (replace_unsafe s).
  rewrite IH, andb_true_r. unfold is_safe. by destruct (is_unsafe c) eqn:E; [|rewrite E].
Qed.

Lemma replace_unsafe_id s : Py.all_chars is_safe s = true -> replace_unsafe s = s.
Proof.
  induction s as [|c s IH]; [reflexivity|]. cbn. fold (replace_unsafe s).
  intros [Hc Hs]%andb_prop. rewrite (IH Hs). unfold is_safe in Hc.
  by destruct (is_unsafe c).
Qed.

Lemma length_replace_unsafe s : String.length (replace_unsafe s) = String.length s.
Proof. induction s as [|c s IH]; [reflexivity|]. cbn. fold (replace_unsafe s). by rewrite IH. Qed.

Lemma splitext_parts p :
  let '(name, ext) := splitext p in
  (exists n, name = Py.take n p /\ ext = Py.drop n p).
Proof.
  unfold splitext.
  destruct (_ && _).
  - by eexists.
  - exists (String.length p). split; [by rewrite take_all|].
    symmetry. clear. induction p as [|c p IH]; [reflexivity|exact IH].
Qed.

Lemma safe_no_slash s : Py.all_chars is_safe s = true -> Py.char_in "/" s = false.
Proof.
  induction s as [|c s IH]; [reflexivity|]. cbn [Py.all_chars Py.char_in].
  intros [Hc Hs]%andb_prop. rewrite (IH Hs).
  destruct (Ascii.eqb "/" c) eqn:E; [|reflexivity].
  apply Ascii.eqb_eq in E. subst c. discriminate.
Qed.

Lemma basename_no_slash name : Py.char_in "/" name = false -> basename name = name.
Proof. intros H. unfold basename. by rewrite (rfind_absent _ _ H). Qed.

Lemma basename_after_slash dir name :
  Py.char_in "/" name = false -> basename (dir +:+ String "/" name) = name.
Proof.
  intros H. unfold basename, Py.slice_from, Py.slice_index.
  rewrite (rfind_last _ _ _ H).
  assert ((Z.of_nat (String.length dir) + 1 <? 0)%Z = false) as -> by (apply Z.ltb_ge; lia).
  replace (Z.to_nat (Z.of_nat (String.length dir) + 1)) with (S (String.length dir)) by lia.
  clear H. induction dir as [|c dir IH]; [reflexivity|exact IH].
Qed.

(** The sanitised name, when the cleaned name is within the limit. *)
Lemma sanitize_filename_id f :
  Py.all_chars is_safe f = true -> String.length f <= 255 -> sanitize_filename f = f.
Proof.
  intros Hsafe Hlen. unfold sanitize_filename.
  rewrite (basename_no_slash _ (safe_no_slash _ Hsafe)), (replace_unsafe_id _ Hsafe).
  by assert ((255 <? String.length f)%nat = false) as -> by (apply Nat.ltb_ge; lia).
Qed.

Lemma sanitize_filename_all_safe f : Py.all_chars is_safe (sanitize_filename f) = true.
Proof.
  unfold sanitize_filename.
  pose proof (replace_unsafe_safe (basename f)) as Hsafe.
  destruct (_ <? _)%nat; [|exact Hsafe].
  pose proof (splitext_parts (replace_unsafe (basename f))) as Hparts.
  destruct (splitext _) as [name ext]. destruct Hparts as (n & -> & ->).
  rewrite all_chars_append. apply andb_true_intro. split.
  - apply all_chars_take. by apply all_chars_take.
  - by apply all_chars_drop.
Qed.

Lemma sanitize_filename_length f :
  String.length (sanitize_filename f) <= 255
  <-> String.length (kept_extension f) <= 255.
Proof.
  unfold sanitize_filename, kept_extension.
  pose proof (splitext_parts (replace_unsafe (basename f))) as Hparts.
  destruct (splitext _) as [name ext]. destruct Hparts as (n & -> & ->). cbn [snd].
  set (p := replace_unsafe (basename f)).
  destruct (255 <? String.length p)%nat eqn:E;
    [apply Nat.ltb_lt in E|apply Nat.ltb_ge in E].
  - pose proof (length_slice_to (255 - Z.of_nat (String.length (Py.drop n p)))
                  (Py.take n p)) as Hslice.
    rewrite length_append.
    destruct (255 - Z.of_nat (String.length (Py.drop n p)) <? 0)%Z eqn:E';
      [apply Z.ltb_lt in E'|apply Z.ltb_ge in E']; lia.
  - rewrite length_drop. lia.
Qed.

(** The result has none of the characters of [unsafe_chars], in particular
    no slash and no control character, whatever the input. *)
Theorem sanitize_filename_has_no_unsafe_char f :
  Py.all_chars (fun c => negb (is_unsafe c)) (sanitize_filename f) = true
  /\ Py.char_in "/" (sanitize_filename f) = false
  /\ Py.char_in "000" (sanitize_filename f) = false.
Proof.
  pose proof (sanitize_filename_all_safe f) as Hsafe. split_and!.
  - exact Hsafe.
  - by apply safe_no_slash.
  - revert Hsafe. generalize (sanitize_filename f) as s.
    induction s as [|c s IH]; [reflexivity|]. cbn [Py.all_chars Py.char_in].
    intros [Hc Hs]%andb_prop. rewrite (IH Hs).
    destruct (Ascii.eqb "000" c) eqn:E; [|reflexivity].
    apply Ascii.eqb_eq in E. subst c. discriminate.
Qed.

(** The limit of 255 characters holds exactly when the extension that
    [os.path.splitext] finds in the cleaned name has at most 255
    characters: a longer extension makes the slice bound negative, and the
    whole extension is kept. *)
Theorem sanitize_filename_length_limit f :
  (String.length (kept_extension f) <= 255 -> String.length (sanitize_filename f) <= 255)
  /\ (255 < String.length (kept_extension f) ->
      String.length (kept_extension f) <= String.length (sanitize_filename f)
      /\ Py.endswith (kept_extension f) (sanitize_filename f) = true).
Proof.
  split; [by intros ?%sanitize_filename_length|].
  unfold sanitize_filename, kept_extension.
  pose proof (splitext_parts (replace_unsafe (basename f))) as Hparts.
  destruct (splitext _) as [name ext]. destruct Hparts as (n & -> & ->). cbn [snd].
  set (p := replace_unsafe (basename f)). intros Hlong.
  assert ((255 <? String.length p)%nat = true) as ->.
  { apply Nat.ltb_lt. rewrite length_drop in Hlong. lia. }
  split; [rewrite length_append; lia|].
  generalize (Py.slice_to (255 - Z.of_nat (String.length (Py.drop n p))) (Py.take n p)).
  intros a. induction a as [|c a IH].
  - change ("" +:+ Py.drop n p) with (Py.drop n p).
    destruct (Py.drop n p); cbn; by rewrite ?Ascii.eqb_refl, ?String.eqb_refl.
  - change (String c a +:+ Py.drop n p) with (String c (a +:+ Py.drop n p)).
    cbn [Py.endswith]. rewrite IH. apply orb_true_r.
Qed.

(** Directories are dropped before anything else: only what follows the
    last slash of the input counts, and an input that ends with a slash
    gives the empty name. *)
Theorem sanitize_filename_drops_directories dir name :
  Py.char_in "/" name = false ->
  sanitize_filename (dir +:+ "/" +:+ name) = sanitize_filename name
  /\ sanitize_filename (dir +:+ "/") = "".
Proof.
  intros Hname. unfold sanitize_filename.
  change ("/" +:+ name) with (String "/" name).
  rewrite (basename_after_slash dir name Hname), (basename_no_slash name Hname).
  split; [reflexivity|].
  by rewrite (basename_after_slash dir "" eq_refl).
Qed.

(** A name that is already clean and within the limit is returned as it
    is, so the names [.] and [..] pass through; and sanitising twice gives
    the same as sanitising once whenever the limit holds. *)
Theorem sanitize_filename_idempotent f :
  (Py.all_chars (fun c => negb (is_unsafe c)) f = true -> String.length f <= 255 ->
   sanitize_filename f = f)
  /\ (String.length (kept_extension f) <= 255 ->
      sanitize_filename (sanitize_filename f) = sanitize_filename f).
Proof.
  split; [apply sanitize_filename_id|].
  intros Hext. apply sanitize_filename_id.
  - apply sanitize_filename_all_safe.
  - by apply sanitize_filename_length.
Qed.

(** *** [retry_operation], lines 183-211

    The operation and [time.sleep] act on a state [S]; [E] is the type of
    the exceptions they raise, [T] the type of a sleeping time. *)

Inductive Attempt (E A : Type) : Type :=
  | Returns (a : A)
  | Raises (e : E).
Arguments Returns {E A} a.
Arguments Raises {E A} e.

(** What [retry_operation] raises: an exception of the operation or of
    [time.sleep], or the [TypeError] of [raise None]. *)
Inductive RetryError (E : Type) : Type :=
  | Reraised (e : E)
  | RaiseNone.
Arguments Reraised {E} e.
Arguments RaiseNone {E}.

(** [range(n)] for an [int] [n]: empty when [n <= 0]. *)
Definition range (n : Z) : list nat := seq 0 (Z.to_nat n).

Section Retry.

Context {S A E T : Type}.

(** [operation()]. *)
Variable operation : S -> Attempt E A * S.
(** [isinstance(e, exceptions)]: whether the [except] clause catches [e]. *)
Variable caught : E -> bool.
(** [delay * (2 ** attempt)]. *)
Variable backoff : T -> nat -> T.
(** [time.sleep(sleep_time)]. *)
Variable sleep : T -> S -> Attempt E unit * S.

(** The [for] loop over the attempts that are left, and the [raise] that
    follows it. *)
Fixpoint retry_loop (max_retries : Z) (delay : T) (attempts : list nat)
    (last_exception : option E) (s : S) : Attempt (RetryError E) A * S :=
  match attempts with
  | [] =>
      match last_exception with
      | Some e => (Raises (Reraised e), s)
      | None => (Raises RaiseNone, s)
      end
  | attempt :: attempts' =>
      match operation s with
      | (Returns a, s1) => (Returns a, s1)
      | (Raises e, s1) =>
          if caught e then
            if (Z.of_nat attempt <? max_retries)%Z then
              match sleep (backoff delay attempt) s1 with
              | (Returns _, s2) => retry_loop max_retries delay attempts' (Some e) s2
              | (Raises e', s2) => (Raises (Reraised e'), s2)
              end
            else retry_loop max_retries delay attempts' (Some e) s1
          else (Raises (Reraised e), s1)
      end
  end.

Definition retry_operation (max_retries : Z) (delay : T) (s : S)
  : Attempt (RetryError E) A * S :=
  retry_loop max_retries delay (range (max_retries + 1)) None s.

(** The attempts numbered [k] to [n - 1] each raise an exception that is
    caught and are each followed by a sleep of [backoff delay attempt]
    that returns; they lead from [s] to [s']. *)
Inductive failed_attempts (delay : T) : nat -> nat -> S -> S -> Prop :=
  | failed_none k s : failed_attempts delay k k s s
  | failed_more k n s e s1 s2 s' :
      operation s = (Raises e, s1) ->
      caught e = true ->
      sleep (backoff delay k) s1 = (Returns tt, s2) ->
      failed_attempts delay (Datatypes.S k) n s2 s' ->
      failed_attempts delay k n s s'.

Lemma failed_attempts_le delay k n s s' : failed_attempts delay k n s s' -> k <= n.
Proof. induction 1; lia. Qed.

Lemma retry_loop_failed max_retries delay k n m last s s' :
  failed_attempts delay k n s s' ->
  (Z.of_nat n <= max_retries)%Z ->
  n <= k + m ->
  exists last',
    retry_loop max_retries delay (seq k m) last s
    = retry_loop max_retries delay (seq n (k + m - n)) last' s'
    /\ (k = n -> last' = last).
Proof.
  intros Hfail. revert m last.
  induction Hfail as [k s|k n s e s1 s2 s' Hop Hcaught Hsleep Hfail IH];
    intros m last Hn Hm.
  - exists last. split; [|done]. do 2 f_equal. lia.
  - pose proof (failed_attempts_le _ _ _ _ _ Hfail) as Hle.
    destruct m as [|m]; [lia|]. cbn [seq retry_loop]. rewrite Hop, Hcaught.
    assert ((Z.of_nat k <? max_retries)%Z = true) as -> by (apply Z.ltb_lt; lia).
    rewrite Hsleep. destruct (IH m (Some e) Hn ltac:(lia)) as (last' & -> & _).
    exists last'. split; [|lia]. do 2 f_equal. lia.
Qed.

(** *** Counting the calls *)

(** The state with the number of calls of the operation and the times
    slept so far. *)
Record Counted : Type := mkCounted {
  inner : S;
  calls : nat;
  slept : list T;
}.

Definition counted_operation (c : Counted) : Attempt E A * Counted :=
  let '(r, s) := operation (inner c) in
  (r, mkCounted s (Datatypes.S (calls c)) (slept c)).

Definition counted_sleep (t : T) (c : Counted) : Attempt E unit * Counted :=
  let '(r, s) := sleep t (inner c) in
  (r, mkCounted s (calls c) (slept c ++ [t])).

End Retry.

Section RetryFacts.

Context {S A E T : Type}.
Variable operation : S -> Attempt E A * S.
Variable caught : E -> bool.
Variable backoff : T -> nat -> T.
Variable sleep : T -> S -> Attempt E unit * S.

(** The run of [retry_operation] on the counting state. *)
Definition counted_retry (max_retries : Z) (delay : T) (c : Counted)
  : Attempt (RetryError E) A * Counted :=
  retry_operation (counted_operation operation) caught backoff (counted_sleep sleep)
    max_retries delay c.

(** The first attempt that returns ends the loop with its value: when the
    [k] attempts before it raised exceptions that were caught, with
    [k <= max_retries], the result is that value and the state is the one
    the [k + 1] calls and the [k] sleeps in between have made. *)
Theorem retry_operation_first_success max_retries delay k s s' a s'' :
  (Z.of_nat k <= max_retries)%Z ->
  failed_attempts operation caught backoff sleep delay 0 k s s' ->
  operation s' = (Returns a, s'') ->
  retry_operation operation caught backoff sleep max_retries delay s
  = (Returns a, s'').
Proof.
  intros Hk Hfail Hop. unfold retry_operation, range.
  destruct (retry_loop_failed operation caught backoff sleep max_retries delay 0 k
              (Z.to_nat (max_retries + 1)) None s s' Hfail Hk ltac:(lia))
    as (last' & -> & _).
  replace (0 + Z.to_nat (max_retries + 1) - k)
    with (Datatypes.S (Z.to_nat max_retries - k)) by lia.
  cbn [seq retry_loop]. by rewrite Hop.
Qed.

(** When all [max_retries + 1] attempts raise exceptions that are caught,
    the exception of the last attempt is raised again, and there is no
    sleep after the last attempt: the state is the one the last call of
    the operation has left. *)
Theorem retry_operation_exhausted max_retries delay s s' e s'' :
  (0 <= max_retries)%Z ->
  failed_attempts operation caught backoff sleep delay 0 (Z.to_nat max_retries) s s' ->
  operation s' = (Raises e, s'') ->
  caught e = true ->
  retry_operation operation caught backoff sleep max_retries delay s
  = (Raises (Reraised e), s'').
Proof.
  intros Hpos Hfail Hop Hcaught. unfold retry_operation, range.
  destruct (retry_loop_failed operation caught backoff sleep max_retries delay 0
              (Z.to_nat max_retries) (Z.to_nat (max_retries + 1)) None s s' Hfail
              ltac:(lia) ltac:(lia))
    as (last' & -> & _).
  replace (0 + Z.to_nat (max_retries + 1) - Z.to_nat max_retries) with 1 by lia.
  cbn [seq retry_loop]. rewrite Hop, Hcaught.
  by assert ((Z.of_nat (Z.to_nat max_retries) <? max_retries)%Z = false) as ->
    by (apply Z.ltb_ge; lia).
Qed.

(** An exception that the [except] clause does not catch leaves at once:
    it is raised from the attempt that met it, without a sleep and without
    another call. *)
Theorem retry_operation_uncaught max_retries delay k s s' e s'' :
  (Z.of_nat k <= max_retries)%Z ->
  failed_attempts operation caught backoff sleep delay 0 k s s' ->
  operation s' = (Raises e, s'') ->
  caught e = false ->
  retry_operation operation caught backoff sleep max_retries delay s
  = (Raises (Reraised e), s'').
Proof.
  intros Hk Hfail Hop Hcaught. unfold retry_operation, range.
  destruct (retry_loop_failed operation caught backoff sleep max_retries delay 0 k
              (Z.to_nat (max_retries + 1)) None s s' Hfail Hk ltac:(lia))
    as (last' & -> & _).
  replace (0 + Z.to_nat (max_retries + 1) - k)
    with (Datatypes.S (Z.to_nat max_retries - k)) by lia.
  cbn [seq retry_loop]. by rewrite Hop, Hcaught.
Qed.

(** With a negative [max_retries] the operation is not called at all and
    the final [raise last_exception] raises [None], which is a
    [TypeError]. *)
Theorem retry_operation_negative_retries max_retries delay s :
  (max_retries < 0)%Z ->
  retry_operation operation caught backoff sleep max_retries delay s
  = (Raises RaiseNone, s).
Proof.
  intros Hneg. unfold retry_operation, range.
  by replace (Z.to_nat (max_retries + 1)) with 0 by lia.
Qed.

(** The times slept during the attempts [k], [k + 1], ..., in order. *)
Definition backoffs (delay : T) (k n : nat) : list T := backoff delay <$> seq k n.

Lemma counted_loop max_retries delay m : forall k last c,
  Z.of_nat (k + m) = (max_retries + 1)%Z \/ m = 0 ->
  exists n j,
    calls (retry_loop (counted_operation operation) caught backoff (counted_sleep sleep)
             max_retries delay (seq k m) last c).2 = calls c + n
    /\ slept (retry_loop (counted_operation operation) caught backoff (counted_sleep sleep)
                max_retries delay (seq k m) last c).2 = (slept c ++ backoffs delay k j)%list
    /\ n <= m /\ (0 < m -> 0 < n) /\ j <= n /\ n <= j + 1 /\ j <= m - 1.
Proof.
  induction m as [|m IH]; intros k last c Hm.
  { exists 0, 0. unfold backoffs. cbn. destruct last; cbn; rewrite app_nil_r; split_and!; (done || lia). }
  cbn [seq retry_loop].
  destruct (operation (inner c)) as [r s1] eqn:Hop.
  assert (counted_operation operation c
          = (r, mkCounted s1 (Datatypes.S (calls c)) (slept c))) as ->
    by (unfold counted_operation; by rewrite Hop).
  destruct r as [a|e].
  { exists 1, 0. unfold backoffs. cbn. rewrite app_nil_r. split_and!; (done || lia). }
  destruct (caught e).
  2: { exists 1, 0. unfold backoffs. cbn. rewrite app_nil_r. split_and!; (done || lia). }
  destruct (Z.of_nat k <? max_retries)%Z eqn:Hk;
    [apply Z.ltb_lt in Hk|apply Z.ltb_ge in Hk].
  - destruct (sleep (backoff delay k) s1) as [r s2] eqn:Hsleep.
    assert (counted_sleep sleep (backoff delay k)
              (mkCounted s1 (Datatypes.S (calls c)) (slept c))
            = (r, mkCounted s2 (Datatypes.S (calls c)) (slept c ++ [backoff delay k])))
      as -> by (unfold counted_sleep; cbn; by rewrite Hsleep).
    destruct r as [[]|e'].
    + edestruct (IH (Datatypes.S k) (Some e)
                   (mkCounted s2 (Datatypes.S (calls c)) (slept c ++ [backoff delay k])))
        as (n & j & Hcalls & Hslept & ? & ? & ? & ? & ?); [lia|].
      exists (Datatypes.S n), (Datatypes.S j). rewrite Hcalls, Hslept. cbn [calls slept].
      unfold backoffs. cbn [seq fmap list_fmap]. rewrite <- app_assoc. cbn.
      split_and!; (done || lia).
    + exists 1, 1. unfold backoffs. cbn. split_and!; (done || lia).
  - edestruct (IH (Datatypes.S k) (Some e)
                 (mkCounted s1 (Datatypes.S (calls c)) (slept c)))
      as (n & j & Hcalls & Hslept & ? & ? & ? & ? & ?); [lia|].
    exists (Datatypes.S n), j. rewrite Hcalls, Hslept. cbn [calls slept].
    assert (m = 0) as -> by lia. assert (j = 0) as -> by lia.
    split_and!; (done || lia).
Qed.

(** Whatever the operation and [time.sleep] do, the operation is called at
    most [max_retries + 1] times and at least once when [max_retries] is
    not negative; the times slept are [delay * 2 ** 0], [delay * 2 ** 1],
    ... in this order, one after each call except possibly the last, and
    at most [max_retries] of them. *)
Theorem retry_operation_call_bounds max_retries delay c :
  exists n j,
    calls (counted_retry max_retries delay c).2 = calls c + n
    /\ slept (counted_retry max_retries delay c).2 = (slept c ++ backoffs delay 0 j)%list
    /\ n <= Z.to_nat (max_retries + 1)
    /\ ((0 <= max_retries)%Z -> 1 <= n)
    /\ j <= n /\ n <= j + 1 /\ j <= Z.to_nat max_retries.
Proof.
  unfold counted_retry, retry_operation, range.
  edestruct (counted_loop max_retries delay (Z.to_nat (max_retries + 1)) 0 None c)
    as (n & j & Hcalls & Hslept & ? & ? & ? & ? & ?); [lia|].
  exists n, j. split_and!; try done; lia.
Qed.

End RetryFacts.

(** *** Examples *)

Fixpoint replicate (n : nat) (c : ascii) : string :=
  match n with
  | O => EmptyString
  | Datatypes.S n' => String c (replicate n' c)
  end.

(** A name with an extension of 301 characters. *)
Definition long_extension : string := "a." +:+ replicate 300 "x".

Lemma sanitize_filename_length_limit_witness :
  String.length (sanitize_filename long_extension) = 301
  /\ String.length (sanitize_filename (replicate 300 "x" +:+ ".txt")) = 255
  /\ Py.endswith ".txt" (sanitize_filename (replicate 300 "x" +:+ ".txt")) = true.
Proof.
  destruct (sanitize_filename_length_limit long_extension) as [_ Hlong].
  destruct (sanitize_filename_length_limit (replicate 300 "x" +:+ ".txt")) as [Hshort _].
  specialize (Hlong ltac:(vm_compute; lia)). specialize (Hshort ltac:(vm_compute; lia)).
  split_and!; vm_compute; reflexivity.
Defined.

Lemma sanitize_filename_drops_directories_witness :
  sanitize_filename "../../etc/passwd" = "passwd"
  /\ sanitize_filename "../../etc/" = "".
Proof.
  destruct (sanitize_filename_drops_directories "../../etc" "passwd" eq_refl)
    as [Hname Hdir].
  split; [exact Hname|exact Hdir].
Defined.

Lemma sanitize_filename_idempotent_witness :
  sanitize_filename ".." = ".."
  /\ sanitize_filename (sanitize_filename "a<b>/c:d?.txt") = sanitize_filename "a<b>/c:d?.txt"
  /\ sanitize_filename "a<b>/c:d?.txt" = "c_d_.txt".
Proof.
  destruct (sanitize_filename_idempotent "..") as [Hfixed _].
  destruct (sanitize_filename_idempotent "a<b>/c:d?.txt") as [_ Htwice].
  split_and!.
  - apply Hfixed; [reflexivity|cbn; lia].
  - apply Htwice. vm_compute. lia.
  - reflexivity.
Defined.

(** An operation that follows a script, one outcome for each call. *)
Inductive DemoError : Type := ConnectionError | KeyboardInterrupt.

Definition demo_caught (e : DemoError) : bool :=
  match e with ConnectionError => true | KeyboardInterrupt => false end.

Definition scripted_operation (s : list (Attempt DemoError nat))
  : Attempt DemoError nat * list (Attempt DemoError nat) :=
  match s with
  | [] => (Raises ConnectionError, [])
  | r :: s' => (r, s')
  end.

Definition demo_backoff (delay : Z) (attempt : nat) : Z := (delay * 2 ^ Z.of_nat attempt)%Z.

Definition demo_sleep (t : Z) (s : list (Attempt DemoError nat))
  : Attempt DemoError unit * list (Attempt DemoError nat) := (Returns tt, s).

Definition demo_retry (max_retries : Z) (script : list (Attempt DemoError nat))
  : Attempt (RetryError DemoError) nat * Counted :=
  retry_operation (counted_operation scripted_operation) demo_caught demo_backoff
    (counted_sleep demo_sleep) max_retries 1%Z (mkCounted script 0 []).

Ltac failed_steps :=
  repeat first [ apply failed_none
               | eapply failed_more; [reflexivity|reflexivity|reflexivity|] ].

Lemma retry_operation_first_success_witness :
  demo_retry 3 [Raises ConnectionError; Raises ConnectionError; Returns 7]
  = (Returns 7, mkCounted [] 3 [1%Z; 2%Z]).
Proof.
  apply (retry_operation_first_success _ _ _ _ 3%Z 1%Z 2
           _ (mkCounted [Returns 7] 2 [1%Z; 2%Z]));
    [lia|failed_steps|reflexivity].
Defined.

Lemma retry_operation_exhausted_witness :
  demo_retry 2 [Raises ConnectionError; Raises ConnectionError; Raises ConnectionError;
                Returns 7]
  = (Raises (Reraised ConnectionError), mkCounted [Returns 7] 3 [1%Z; 2%Z]).
Proof.
  apply (retry_operation_exhausted _ _ _ _ 2%Z 1%Z
           _ (mkCounted [Raises ConnectionError; Returns 7] 2 [1%Z; 2%Z]));
    [lia|failed_steps|reflexivity|reflexivity].
Defined.

Lemma retry_operation_uncaught_witness :
  demo_retry 3 [Raises ConnectionError; Raises KeyboardInterrupt; Returns 7]
  = (Raises (Reraised KeyboardInterrupt), mkCounted [Returns 7] 2 [1%Z]).
Proof.
  apply (retry_operation_uncaught _ _ _ _ 3%Z 1%Z 1
           _ (mkCounted [Raises KeyboardInterrupt; Returns 7] 1 [1%Z]));
    [lia|failed_steps|reflexivity|reflexivity].
Defined.

Lemma retry_operation_negative_retries_witness :
  demo_retry (-1) [Returns 7] = (Raises RaiseNone, mkCounted [Returns 7] 0 []).
Proof.
  apply (retry_operation_negative_retries _ _ _ _ (-1)%Z 1%Z). lia.
Defined.

End Utils.
